(** * Asset-catalog color generator ([create_assets.py])

    A shallow embedding of the script and of the parts of the Python
    runtime it calls, followed by the properties of the generator.

    Conventions.
    - A Python [str] is a [string]; a character is the code point
      [N_of_ascii c], so the model covers the strings whose code points
      are below 256.
    - A Python [int] is a [Z].
    - A Python [float] is a sign, a mantissa and a binary exponent
      ([pyfloat]), read exactly.
    - A raised exception ends the run: fallible code returns [result].
    - The values of a color definition are [str] or [float], as in the
      table of the script.
    - The disk is a tree of directories and regular files, keyed by path
      components.  It has no links and no permissions, it does not
      interpret the components [.] and [..], and it takes any string as a
      name; so the properties that depend on a name being one the file
      system takes are stated for plain names (printable ASCII without the
      separator, short enough) or for the names of the table. *)

From Stdlib Require Import ZArith QArith Qabs Lia Ascii String.
From stdpp Require Import gmap strings list fin_maps.

Local Open Scope string_scope.
Local Open Scope list_scope.
Local Open Scope Z_scope.

(** ** Exceptions *)

Inductive exn : Type :=
  | KeyError (key : string)
  | ValueError
  | AttributeError
  | FileExistsError
  | FileNotFoundError
  | NotADirectoryError
  | IsADirectoryError.

Inductive result (A : Type) : Type :=
  | Ok (a : A)
  | Raise (e : exn).
Arguments Ok {A} a.
Arguments Raise {A} e.

Definition bind {A B} (r : result A) (k : A -> result B) : result B :=
  match r with
  | Ok a => k a
  | Raise e => Raise e
  end.

Notation "x <<- r ;; k" := (bind r (fun x => k))
  (at level 100, r at next level, right associativity,
   format "'[v' x  <<-  r  ;;  '/' k ']'").

(** ** The Python runtime the script relies on *)

Module Py.

(** Code point of a character. *)
Definition ord (c : ascii) : Z := Z.of_N (N_of_ascii c).

(** Value of a character as a digit in base 16 ([_PyLong_DigitValue]). *)
Definition hex_digit_value (c : ascii) : option Z :=
  let n := ord c in
  if (48 <=? n) && (n <=? 57) then Some (n - 48)
  else if (65 <=? n) && (n <=? 70) then Some (n - 55)
  else if (97 <=? n) && (n <=? 102) then Some (n - 87)
  else None.

(** Whitespace as [int()] sees it on a [str]: the C-locale blanks, and the
    two code points below 256 that the decimal-and-space transform turns
    into a blank (NEL and NBSP).  The separators 0x1C-0x1F are whitespace
    for [str.strip] but not here. *)
Definition int_space (c : ascii) : bool :=
  let n := ord c in
  ((9 <=? n) && (n <=? 13)) || (n =? 32) || (n =? 133) || (n =? 160).

Fixpoint skip_space (s : string) : string :=
  match s with
  | String c r => if int_space c then skip_space r else s
  | EmptyString => s
  end.

Definition is_underscore (c : ascii) : bool := ord c =? 95.

(** The digit loop of [PyLong_FromString]: hexadecimal digits with single
    underscores between them.  [prev_us] records that the previous
    character was an underscore.  Returns the value and the unread rest. *)
Fixpoint scan_digits (acc : Z) (prev_us : bool) (s : string)
  : option (Z * string) :=
  match s with
  | EmptyString => if prev_us then None else Some (acc, s)
  | String c r =>
      if is_underscore c then
        if prev_us then None else scan_digits acc true r
      else
        match hex_digit_value c with
        | Some d => scan_digits (16 * acc + d) false r
        | None => if prev_us then None else Some (acc, s)
        end
  end.

(** [int(s, 16)]: blanks, one optional sign, an optional [0x] prefix (with
    one underscore allowed after it), at least one digit, blanks, end.  On
    the strings of the model, those of code points below 256; beyond them
    [int] also takes the other Unicode decimal digits and blanks. *)
Definition int16 (s : string) : option Z :=
  let s1 := skip_space s in
  let '(neg, s2) :=
    match s1 with
    | String "+" r => (false, r)
    | String "-" r => (true, r)
    | _ => (false, s1)
    end in
  let s3 :=
    match s2 with
    | String "0" (String "x" r) | String "0" (String "X" r) =>
        match r with
        | String "_" r' => r'
        | _ => r
        end
    | _ => s2
    end in
  match s3 with
  | EmptyString => None
  | String c _ =>
      match hex_digit_value c with
      | None => None
      | Some _ =>
          match scan_digits 0 false s3 with
          | None => None
          | Some (v, rest) =>
              match skip_space rest with
              | EmptyString => Some (if neg then - v else v)
              | String _ _ => None
              end
          end
      end
  end.

(** [s.lstrip(chars)] for a one-character [chars]. *)
Fixpoint lstrip (ch : ascii) (s : string) : string :=
  match s with
  | String c r => if Ascii.eqb c ch then lstrip ch r else s
  | EmptyString => s
  end.

(** [s[i:i+n]] for [0 <= i]: clipped at the end of the string. *)
Definition slice (i n : nat) (s : string) : string := substring i n s.

(** Digit characters, upper case from ten on. *)
Definition upper_digit (d : Z) : ascii :=
  if d <? 10 then ascii_of_N (Z.to_N (48 + d)) else ascii_of_N (Z.to_N (55 + d)).

Fixpoint digits_aux (base : Z) (fuel : nat) (n : Z) (acc : string) : string :=
  match fuel with
  | O => acc
  | S f =>
      let acc' := String (upper_digit (n mod base)) acc in
      if n / base =? 0 then acc' else digits_aux base f (n / base) acc'
  end.

(** The digits of a natural number [0 <= n] in [base], no padding. *)
Definition digits (base : Z) (n : Z) : string :=
  digits_aux base (S (Z.to_nat (Z.log2 n))) n "".

Fixpoint zeros (k : nat) : string :=
  match k with
  | O => ""
  | S k' => String "0" (zeros k')
  end.

(** [format(z, "02X")]: sign, then upper-case hexadecimal digits padded
    with zeros between sign and digits up to a total width of two. *)
Definition format_02X (z : Z) : string :=
  let sign := if z <? 0 then "-" else "" in
  let body := digits 16 (Z.abs z) in
  sign +:+ zeros (2 - String.length sign - String.length body) +:+ body.

(** *** Floats and the [.3f] format *)

(** A float read exactly: [Finite neg m e] is [(-1)^neg * m * 2^e].  Every
    binary64 value has this shape (with [m < 2^53]). *)
Inductive pyfloat : Type :=
  | Finite (neg : bool) (m : N) (e : Z)
  | Infinity (neg : bool)
  | NaN.

(** The exact value of a finite float, as a rational. *)
Definition float_value (f : pyfloat) : Q :=
  match f with
  | Finite neg m e =>
      let q := if 0 <=? e then inject_Z (Z.of_N m * 2 ^ e)
               else Qmake (Z.of_N m) (Z.to_pos (2 ^ (- e))) in
      if neg then Qopp q else q
  | _ => 0%Q
  end.

(** [n / d] rounded to the nearest integer, ties to even ([0 <= n], [0 < d]). *)
Definition div_half_even (n d : Z) : Z :=
  let q := n / d in
  let r := n mod d in
  if 2 * r <? d then q
  else if d <? 2 * r then q + 1
  else if Z.even q then q else q + 1.

(** The magnitude of a finite float in thousandths, correctly rounded. *)
Definition thousandths (m : N) (e : Z) : Z :=
  if 0 <=? e then Z.of_N m * 1000 * 2 ^ e
  else div_half_even (Z.of_N m * 1000) (2 ^ (- e)).

(** A count of thousandths in fixed point: integer part, point, three
    fraction digits. *)
Definition fixed3 (q : Z) : string :=
  let frac := digits 10 (q mod 1000) in
  digits 10 (q / 1000) +:+ "." +:+ zeros (3 - String.length frac) +:+ frac.

(** [format(f, ".3f")]: the sign is printed whenever the sign bit is set. *)
Definition format_3f (f : pyfloat) : string :=
  match f with
  | NaN => "nan"
  | Infinity neg => if neg then "-inf" else "inf"
  | Finite neg m e => (if neg then "-" else "") +:+ fixed3 (thousandths m e)
  end.

(** *** Values, dictionaries *)

(** The values a color definition holds in the model: [str] and [float],
    the two kinds the table of the script has. *)
Inductive pyval : Type :=
  | PStr (s : string)
  | PFloat (f : pyfloat).

(** [d[key]] *)
Definition getitem (d : gmap string pyval) (key : string) : result pyval :=
  match d !! key with
  | Some v => Ok v
  | None => Raise (KeyError key)
  end.

(** [d.get(key, dflt)] *)
Definition get (d : gmap string pyval) (key : string) (dflt : pyval) : pyval :=
  default dflt (d !! key).

(** [f"{v:.3f}"]: a [str] has no format code [f]. *)
Definition format_3f_val (v : pyval) : result string :=
  match v with
  | PFloat f => Ok (format_3f f)
  | PStr _ => Raise ValueError
  end.

(** *** [json.dump(obj, f, indent=2)] *)

(** The objects the script serialises; a [dict] keeps insertion order. *)
#[warnings="-register-all"]
Inductive json : Type :=
  | JStr (s : string)
  | JInt (z : Z)
  | JList (l : list json)
  | JDict (l : list (string * json)).

Definition lower_digit (d : Z) : ascii :=
  if d <? 10 then ascii_of_N (Z.to_N (48 + d)) else ascii_of_N (Z.to_N (87 + d)).

(** One character of a string under [ensure_ascii=True]. *)
Definition escape_char (c : ascii) : string :=
  let n := ord c in
  if n =? 34 then String "\" (String c "")
  else if n =? 92 then "\\"
  else if n =? 10 then "\n"
  else if n =? 13 then "\r"
  else if n =? 9 then "\t"
  else if n =? 8 then "\b"
  else if n =? 12 then "\f"
  else if (32 <=? n) && (n <=? 126) then String c ""
  else "\u00" +:+ String (lower_digit (n / 16)) (String (lower_digit (n mod 16)) "").

Fixpoint escape (s : string) : string :=
  match s with
  | EmptyString => ""
  | String c r => escape_char c +:+ escape r
  end.

Definition quote : string := String (ascii_of_N 34) "".

Definition encode_str (s : string) : string := quote +:+ escape s +:+ quote.

Definition encode_int (z : Z) : string :=
  (if z <? 0 then "-" else "") +:+ digits 10 (Z.abs z).

Fixpoint spaces (k : nat) : string :=
  match k with
  | O => ""
  | S k' => String " " (spaces k')
  end.

(** A line break followed by the indentation of nesting level [lvl]. *)
Definition newline_indent (lvl : nat) : string :=
  String (ascii_of_N 10) (spaces (2 * lvl)).

Fixpoint encode (lvl : nat) (j : json) : string :=
  match j with
  | JStr s => encode_str s
  | JInt z => encode_int z
  | JList [] => "[]"
  | JList (x :: xs) =>
      "[" +:+ newline_indent (S lvl) +:+ encode (S lvl) x
      +:+ (fix rest (l : list json) : string :=
             match l with
             | [] => ""
             | y :: l' =>
                 "," +:+ newline_indent (S lvl) +:+ encode (S lvl) y +:+ rest l'
             end) xs
      +:+ newline_indent lvl +:+ "]"
  | JDict [] => "{}"
  | JDict ((k, v) :: kvs) =>
      "{" +:+ newline_indent (S lvl) +:+ encode_str k +:+ ": " +:+ encode (S lvl) v
      +:+ (fix rest (l : list (string * json)) : string :=
             match l with
             | [] => ""
             | (k', v') :: l' =>
                 "," +:+ newline_indent (S lvl) +:+ encode_str k' +:+ ": "
                 +:+ encode (S lvl) v' +:+ rest l'
             end) kvs
      +:+ newline_indent lvl +:+ "}"
  end.

Definition dumps_indent2 (j : json) : string := encode 0 j.

(** *** Paths and the file system *)

(** [os.path.join(a, b)] on POSIX. *)
Definition starts_with_sep (s : string) : bool :=
  match s with
  | String c _ => Ascii.eqb c "/"
  | EmptyString => false
  end.

Fixpoint ends_with_sep (s : string) : bool :=
  match s with
  | EmptyString => false
  | String c EmptyString => Ascii.eqb c "/"
  | String _ r => ends_with_sep r
  end.

Definition path_join (a b : string) : string :=
  if starts_with_sep b then b
  else if String.eqb a "" || ends_with_sep a then a +:+ b
  else a +:+ "/" +:+ b.

(** [s.split("/")] *)
Fixpoint split_sep (s : string) : list string :=
  match s with
  | EmptyString => [""]
  | String c r =>
      if Ascii.eqb c "/" then "" :: split_sep r
      else match split_sep r with
           | h :: t => String c h :: t
           | [] => [String c ""]
           end
  end.

(** The components of an absolute path; repeated separators collapse.
    The components [.] and [..] are not interpreted: no path the script
    builds from its table has them. *)
Definition components (p : string) : list string :=
  List.filter (fun c => negb (String.eqb c "")) (split_sep p).

Inductive node : Type :=
  | Dir
  | File (content : string).

#[global] Instance node_eq_dec : EqDecision node.
Proof. solve_decision. Defined.

(** A file system without links or permissions: the nodes below the root,
    keyed by their components.  The root is always a directory. *)
Definition lookup_node (fs : gmap (list string) node) (p : list string)
  : option node :=
  match p with
  | [] => Some Dir
  | _ => fs !! p
  end.

(** [os.makedirs(path, exist_ok=True)], walking down from [above].  Every
    component is taken as a name: there is no error for a component that a
    file system refuses (a NUL character, more than 255 bytes). *)
Fixpoint makedirs_from (above todo : list string) (fs : gmap (list string) node)
  : result (gmap (list string) node) :=
  match todo with
  | [] => Ok fs
  | c :: rest =>
      let p := above ++ [c] in
      match fs !! p with
      | Some Dir => makedirs_from p rest fs
      | Some (File _) =>
          Raise (match rest with [] => FileExistsError | _ => NotADirectoryError end)
      | None => makedirs_from p rest (<[p := Dir]> fs)
      end
  end.

Definition makedirs (path : string) (fs : gmap (list string) node)
  : result (gmap (list string) node) :=
  makedirs_from [] (components path) fs.

(** [with open(path, "w") as f: f.write(content)] on the components of
    [path]: the parent must be a directory and the target must not be one;
    the file is replaced. *)
Definition write_at (p : list string) (content : string)
    (fs : gmap (list string) node) : result (gmap (list string) node) :=
  match p with
  | [] => Raise IsADirectoryError
  | _ =>
      match lookup_node fs (removelast p) with
      | None => Raise FileNotFoundError
      | Some (File _) => Raise NotADirectoryError
      | Some Dir =>
          match fs !! p with
          | Some Dir => Raise IsADirectoryError
          | _ => Ok (<[p := File content]> fs)
          end
      end
  end.

Definition write_file (path : string) (content : string)
    (fs : gmap (list string) node) : result (gmap (list string) node) :=
  write_at (components path) content fs.

(** The content of the file at [path], if there is one, and whether
    [path] is a directory. *)
Definition read_file (path : string) (fs : gmap (list string) node)
  : option string :=
  match lookup_node fs (components path) with
  | Some (File content) => Some content
  | _ => None
  end.

Definition isdir (path : string) (fs : gmap (list string) node) : bool :=
  match lookup_node fs (components path) with
  | Some Dir => true
  | _ => false
  end.

End Py.

(** ** [hex_to_rgb] *)

Definition parse_channel (s : string) : result Z :=
  match Py.int16 s with
  | Some v => Ok v
  | None => Raise ValueError
  end.

Definition hex_to_rgb (hex_color : string) : result (Z * Z * Z) :=
  let hex_color := Py.lstrip "#" hex_color in
  r <<- parse_channel (Py.slice 0 2 hex_color) ;;
  g <<- parse_channel (Py.slice 2 2 hex_color) ;;
  b <<- parse_channel (Py.slice 4 2 hex_color) ;;
  Ok (r, g, b).

(** The channel field of a variant: [f"0x{v:02X}"]. *)
Definition format_channel (v : Z) : string := "0x" +:+ Py.format_02X v.

(** ** The table *)

Definition assets_path : string :=
  "/Users/guo/Documents/iOS/KuaiJi/KuaiJi_IOSApp/KuaiJi/Assets.xcassets".

(** [1.0] and [0.06] (the binary64 nearest to it, [1080863910568919 / 2^54]). *)
Definition float_1_0 : Py.pyfloat := Py.Finite false 1 0.
Definition float_0_06 : Py.pyfloat := Py.Finite false 1080863910568919 (-54).

(** A definition with the two mandatory fields. *)
Definition opaque_def (light dark : string) : gmap string Py.pyval :=
  <["dark" := Py.PStr dark]> (<["light" := Py.PStr light]> ∅).

(** The literal [colors], in the order it is written. *)
Definition colors : list (string * gmap string Py.pyval) :=
  [ ("BrandPrimary", opaque_def "#7A4A2A" "#7A4A2A");
    ("Background", opaque_def "#F6F2EE" "#0E0E11");
    ("Surface", opaque_def "#FFFFFF" "#18181B");
    ("SurfaceAlt", opaque_def "#FBF8F4" "#FBF8F4");
    ("TextPrimary", opaque_def "#3A2B22" "#C9C7C4");
    ("SecondaryText", opaque_def "#9C8F86" "#C9C7C4");
    ("LedgerContentText", opaque_def "#3B291E" "#C9C7C4");
    ("Success", opaque_def "#3BAF6A" "#3BAF6A");
    ("Danger", opaque_def "#E56A5E" "#E56A5E");
    ("Info", opaque_def "#7A93E0" "#7A93E0");
    ("Warning", opaque_def "#FF9500" "#FF9500");
    ("ToggleOn", opaque_def "#F5973C" "#F5973C");
    ("ToggleOff", opaque_def "#E1D9D3" "#E1D9D3");
    ("Selection", opaque_def "#007AFF" "#0A84FF");
    ("CardShadow",
      <["dark_alpha" := Py.PFloat float_0_06]>
        (<["dark" := Py.PStr "#FFFFFF"]>
          (<["light_alpha" := Py.PFloat float_0_06]>
            (<["light" := Py.PStr "#000000"]> ∅)))) ].

(** ** [create_color_set] *)

(** [hex_to_rgb] applied to a value of the definition: only a [str] has
    [lstrip]. *)
Definition hex_to_rgb_val (v : Py.pyval) : result (Z * Z * Z) :=
  match v with
  | Py.PStr s => hex_to_rgb s
  | Py.PFloat _ => Raise AttributeError
  end.

(** The ["color"] member shared by both variants. *)
Definition color_payload (alpha : string) (r g b : Z) : Py.json :=
  Py.JDict
    [ ("color-space", Py.JStr "srgb");
      ("components",
        Py.JDict
          [ ("alpha", Py.JStr alpha);
            ("blue", Py.JStr (format_channel b));
            ("green", Py.JStr (format_channel g));
            ("red", Py.JStr (format_channel r)) ]) ].

Definition light_variant (alpha : string) (r g b : Z) : Py.json :=
  Py.JDict
    [ ("color", color_payload alpha r g b);
      ("idiom", Py.JStr "universal") ].

Definition dark_appearance : Py.json :=
  Py.JDict [ ("appearance", Py.JStr "luminosity"); ("value", Py.JStr "dark") ].

Definition dark_variant (alpha : string) (r g b : Z) : Py.json :=
  Py.JDict
    [ ("appearances", Py.JList [ dark_appearance ]);
      ("color", color_payload alpha r g b);
      ("idiom", Py.JStr "universal") ].

Definition info : Py.json :=
  Py.JDict [ ("author", Py.JStr "xcode"); ("version", Py.JInt 1) ].

(** The two variants, in the order they are appended to ["colors"]. *)
Definition variants (color_def : gmap string Py.pyval) : result (list Py.json) :=
  light_hex <<- Py.getitem color_def "light" ;;
  rgb <<- hex_to_rgb_val light_hex ;;
  let '(r, g, b) := rgb in
  let alpha := Py.get color_def "light_alpha" (Py.PFloat float_1_0) in
  alpha_s <<- Py.format_3f_val alpha ;;
  let light_color := light_variant alpha_s r g b in
  dark_hex <<- Py.getitem color_def "dark" ;;
  rgb_d <<- hex_to_rgb_val dark_hex ;;
  let '(r_d, g_d, b_d) := rgb_d in
  let alpha_d := Py.get color_def "dark_alpha" (Py.PFloat float_1_0) in
  alpha_d_s <<- Py.format_3f_val alpha_d ;;
  let dark_color := dark_variant alpha_d_s r_d g_d b_d in
  Ok ([] ++ [light_color] ++ [dark_color]).

(** The object [contents] as it is when it is dumped. *)
Definition contents (color_def : gmap string Py.pyval) : result Py.json :=
  vs <<- variants color_def ;;
  Ok (Py.JDict [ ("colors", Py.JList vs); ("info", info) ]).

(** What the process can observe and change: the global table, the disk
    and the console (one entry per printed line). *)
Record world : Type := World {
  table : list (string * gmap string Py.pyval);
  disk : gmap (list string) Py.node;
  console : list string;
}.

Definition folder_path (name : string) : string :=
  Py.path_join assets_path (name +:+ ".colorset").

Definition contents_path (name : string) : string :=
  Py.path_join (folder_path name) "Contents.json".

Definition create_color_set (name : string) (color_def : gmap string Py.pyval)
    (w : world) : result world :=
  d1 <<- Py.makedirs (folder_path name) (disk w) ;;
  c <<- contents color_def ;;
  d2 <<- Py.write_file (contents_path name) (Py.dumps_indent2 c) d1 ;;
  Ok (World (table w) d2 (console w)).

Definition print (line : string) (w : world) : world :=
  World (table w) (disk w) (console w ++ [line]).

(** ** The driver loop *)

Fixpoint run_items (items : list (string * gmap string Py.pyval)) (w : world)
  : result world :=
  match items with
  | [] => Ok w
  | (name, definition) :: rest =>
      w1 <<- create_color_set name definition w ;;
      run_items rest (print ("Created " +:+ name +:+ ".colorset") w1)
  end.

(** The loop over [colors.items()]. *)
Definition run (w : world) : result world := run_items (table w) w.

(** The module executed from a disk state, with an empty console. *)
Definition main (fs : gmap (list string) Py.node) : result world :=
  run (World colors fs []).

(** A line break, for writing out expected file contents. *)
Definition nl : string := String (ascii_of_N 10) "".

(** ** Vocabulary of the properties *)

(** The hexadecimal digits. *)
Definition hex_chars : list ascii :=
  list_ascii_of_string "0123456789abcdefABCDEF".

Definition is_hex_digit (c : ascii) : bool := existsb (Ascii.eqb c) hex_chars.

Fixpoint all_hex (s : string) : bool :=
  match s with
  | EmptyString => true
  | String c r => is_hex_digit c && all_hex r
  end.

(** Upper case of an ASCII letter; other characters are kept. *)
Definition upper_char (c : ascii) : ascii :=
  let n := Py.ord c in
  if (97 <=? n) && (n <=? 122) then ascii_of_N (Z.to_N (n - 32)) else c.

(** The string with each of its letters [a]-[z] in upper case.  Unlike
    [str.upper], it keeps every other character as it is. *)
Fixpoint upper (s : string) : string :=
  match s with
  | EmptyString => ""
  | String c r => String (upper_char c) (upper r)
  end.

(** A two-character group parses to a byte that prints as the group in
    upper case. *)
Definition pair_roundtrips (c1 c2 : ascii) : bool :=
  match Py.int16 (String c1 (String c2 "")) with
  | Some v =>
      (0 <=? v) && (v <=? 255)
      && String.eqb (format_channel v)
           ("0x" +:+ String (upper_char c1) (String (upper_char c2) ""))
  | None => false
  end.

(** The blanks and signs [int] accepts around a digit. *)
Definition is_blank (c : ascii) : bool :=
  existsb (Z.eqb (Py.ord c)) [9; 10; 11; 12; 13; 32; 133; 160].

Definition is_sign (c : ascii) : bool :=
  Ascii.eqb c "+" || Ascii.eqb c "-".

(** The slices [int(_, 16)] accepts when they have at most two characters. *)
Definition group_ok (g : string) : bool :=
  match g with
  | String c EmptyString => is_hex_digit c
  | String c1 (String c2 EmptyString) =>
      (is_hex_digit c1 && is_hex_digit c2)
      || (is_sign c1 && is_hex_digit c2)
      || (is_blank c1 && is_hex_digit c2)
      || (is_hex_digit c1 && is_blank c2)
  | _ => false
  end.

Definition groups_ok (t : string) : bool :=
  group_ok (Py.slice 0 2 t) && group_ok (Py.slice 2 2 t)
  && group_ok (Py.slice 4 2 t).

Definition all_ascii : list ascii :=
  List.map (fun n => ascii_of_N (N.of_nat n)) (seq 0 256).

(** [group_ok] agrees with [int16] on a slice of one or two characters. *)
Definition group_agrees (g : string) : bool :=
  Bool.eqb (group_ok g) (match Py.int16 g with Some _ => true | None => false end).

(** The input format of the specification: exactly six hexadecimal digits
    after an optional leading [#]. *)
Definition strip_one_hash (s : string) : string :=
  match s with
  | String "#" r => r
  | _ => s
  end.

Definition well_formed_hex (s : string) : bool :=
  (String.length (strip_one_hash s) =? 6)%nat && all_hex (strip_one_hash s).

(** Reading a fixed-point decimal back as an exact number: an optional
    minus sign, digits, a point, digits.  Returns the number of digits
    after the point and the value. *)
Definition digit_value (c : ascii) : option Z :=
  let n := Py.ord c in
  if (48 <=? n) && (n <=? 57) then Some (n - 48) else None.

Fixpoint decimal_acc (acc : Z) (s : string) : option Z :=
  match s with
  | EmptyString => Some acc
  | String c r =>
      match digit_value c with
      | Some d => decimal_acc (10 * acc + d) r
      | None => None
      end
  end.

Definition decimal (s : string) : option Z :=
  match s with
  | EmptyString => None
  | _ => decimal_acc 0 s
  end.

Fixpoint split_at_point (s : string) : option (string * string) :=
  match s with
  | EmptyString => None
  | String c r =>
      if Ascii.eqb c "." then Some ("", r)
      else match split_at_point r with
           | Some (a, b) => Some (String c a, b)
           | None => None
           end
  end.

Definition parse_fixed (s : string) : option (nat * Q) :=
  let '(neg, body) :=
    match s with
    | String "-" r => (true, r)
    | _ => (false, s)
    end in
  match split_at_point body with
  | Some (ip, fp) =>
      match decimal ip, decimal fp with
      | Some i, Some fr =>
          let k := String.length fp in
          let v := Qmake (i * 10 ^ Z.of_nat k + fr) (Z.to_pos (10 ^ Z.of_nat k)) in
          Some (k, if neg then Qopp v else v)
      | _, _ => None
      end
  | None => None
  end.

Definition is_finite (f : Py.pyfloat) : bool :=
  match f with
  | Py.Finite _ _ _ => true
  | _ => false
  end.

(** [fixed3 q] reads back as [q] thousandths, with three fraction digits. *)
Definition fixed3_reads_back (q : Z) : bool :=
  match parse_fixed (Py.fixed3 q) with
  | Some (k, v) => (k =? 3)%nat && (Qnum v =? q) && (Qden v =? 1000)%positive
  | None => false
  end.

(** Reading a serialised object: [j[key]] on a dictionary. *)
Fixpoint assoc (key : string) (l : list (string * Py.json)) : option Py.json :=
  match l with
  | [] => None
  | (k, v) :: l' => if String.eqb k key then Some v else assoc key l'
  end.

Definition jget (key : string) (j : Py.json) : option Py.json :=
  match j with
  | Py.JDict l => assoc key l
  | _ => None
  end.

(** [v["color"]["components"][ch]] *)
Definition component (ch : string) (v : Py.json) : option Py.json :=
  match jget "color" v with
  | Some color =>
      match jget "components" color with
      | Some comps => jget ch comps
      | None => None
      end
  | None => None
  end.

(** [v["color"]["color-space"]] *)
Definition color_space (v : Py.json) : option Py.json :=
  match jget "color" v with
  | Some color => jget "color-space" color
  | None => None
  end.

(** The variant list of a descriptor. *)
Definition variant_list (c : Py.json) : option (list Py.json) :=
  match jget "colors" c with
  | Some (Py.JList vs) => Some vs
  | _ => None
  end.

Definition is_upper_hex_digit (c : ascii) : bool :=
  existsb (Ascii.eqb c) (list_ascii_of_string "0123456789ABCDEF").

(** [0x] followed by exactly two upper-case hexadecimal digits. *)
Definition is_0xHH (s : string) : bool :=
  match s with
  | String "0" (String "x" (String c1 (String c2 EmptyString))) =>
      is_upper_hex_digit c1 && is_upper_hex_digit c2
  | _ => false
  end.

(** The fixed members of a variant, and its channels: the given bytes,
    each printed as [0xHH]. *)
Definition variant_carries (v : Py.json) (r g b : Z) : Prop :=
  color_space v = Some (Py.JStr "srgb")
  /\ jget "idiom" v = Some (Py.JStr "universal")
  /\ component "red" v = Some (Py.JStr (format_channel r))
  /\ component "green" v = Some (Py.JStr (format_channel g))
  /\ component "blue" v = Some (Py.JStr (format_channel b))
  /\ is_0xHH (format_channel r) = true
  /\ is_0xHH (format_channel g) = true
  /\ is_0xHH (format_channel b) = true.

(** What C1 says of one definition. *)
Definition descriptor_shape (color_def : gmap string Py.pyval) : Prop :=
  exists lh dh r g b r_d g_d b_d l d,
    color_def !! "light" = Some (Py.PStr lh)
    /\ color_def !! "dark" = Some (Py.PStr dh)
    /\ hex_to_rgb lh = Ok (r, g, b)
    /\ hex_to_rgb dh = Ok (r_d, g_d, b_d)
    /\ contents color_def
       = Ok (Py.JDict [ ("colors", Py.JList [l; d]); ("info", info) ])
    /\ jget "appearances" l = None
    /\ jget "appearances" d
       = Some (Py.JList [ Py.JDict [ ("appearance", Py.JStr "luminosity");
                                     ("value", Py.JStr "dark") ] ])
    /\ variant_carries l r g b
    /\ variant_carries d r_d g_d b_d.

(** A definition as the data model has it: [light] and [dark] are
    well-formed hex strings, and an alpha that is supplied is a float. *)
Definition valid_definition (color_def : gmap string Py.pyval) : bool :=
  match color_def !! "light", color_def !! "dark",
        Py.get color_def "light_alpha" (Py.PFloat float_1_0),
        Py.get color_def "dark_alpha" (Py.PFloat float_1_0) with
  | Some (Py.PStr lh), Some (Py.PStr dh), Py.PFloat _, Py.PFloat _ =>
      well_formed_hex lh && well_formed_hex dh
  | _, _, _, _ => false
  end.

(** ** Vocabulary of the file-system properties *)

(** The components of the output root, of the folder of a color and of its
    file. *)
Definition root : list string := Py.components assets_path.

Definition folder_key (name : string) : list string :=
  root ++ [name +:+ ".colorset"].

Definition file_key (name : string) : list string :=
  folder_key name ++ ["Contents.json"].

(** The bytes written for a definition. *)
Definition bytes (color_def : gmap string Py.pyval) : string :=
  match contents color_def with
  | Ok c => Py.dumps_indent2 c
  | Raise _ => ""
  end.

(** The line printed for a name. *)
Definition line (name : string) : string := "Created " +:+ name +:+ ".colorset".

(** The directories [makedirs_from above todo] walks through ... *)
Fixpoint covered (above todo p : list string) : bool :=
  match todo with
  | [] => false
  | c :: rest => bool_decide (p = above ++ [c]) || covered (above ++ [c]) rest p
  end.

(** ... and the disk it leaves when none of them is a file. *)
Fixpoint add_dirs (above todo : list string) (fs : gmap (list string) Py.node)
  : gmap (list string) Py.node :=
  match todo with
  | [] => fs
  | c :: rest => add_dirs (above ++ [c]) rest (<[above ++ [c] := Py.Dir]> fs)
  end.

Definition no_file_on (above todo : list string)
    (fs : gmap (list string) Py.node) : Prop :=
  forall p x, covered above todo p = true -> fs !! p <> Some (Py.File x).

(** One entry on the disk: what it needs, and what it leaves. *)
Definition entry_can_run (name : string) (fs : gmap (list string) Py.node) : Prop :=
  no_file_on [] (folder_key name) fs /\ fs !! file_key name <> Some Py.Dir.

Definition entry_effect (name : string) (content : string)
    (fs : gmap (list string) Py.node) : gmap (list string) Py.node :=
  <[file_key name := Py.File content]> (add_dirs [] (folder_key name) fs).

Definition final_disk (items : list (string * gmap string Py.pyval))
    (fs : gmap (list string) Py.node) : gmap (list string) Py.node :=
  foldl (fun fs entry => entry_effect entry.1 (bytes entry.2) fs) fs items.

(** The paths the script builds for a name are the keys above. *)
Definition paths_as_keys (name : string) : bool :=
  bool_decide (Py.components (folder_path name) = folder_key name)
  && bool_decide (Py.components (contents_path name) = file_key name).

(** An entry the driver can take: its paths resolve to the keys above and
    its definition is valid. *)
Definition good_entry (entry : string * gmap string Py.pyval) : bool :=
  paths_as_keys entry.1 && valid_definition entry.2.

(** The disk part of [create_color_set], on keys. *)
Definition entry_step (name : string) (content : string)
    (fs : gmap (list string) Py.node) : result (gmap (list string) Py.node) :=
  d1 <<- Py.makedirs_from [] (folder_key name) fs ;;
  Py.write_at (file_key name) content d1.

(** The world a run from an empty disk ends in. *)
Definition world_from_empty : world :=
  World colors (final_disk colors ∅) ((fun entry => line entry.1) <$> colors).

(** ** Vocabulary of the further properties *)

(** [n] characters [#] in front of a string. *)
Fixpoint with_hashes (n : nat) (s : string) : string :=
  match n with
  | O => s
  | S n' => String "#" (with_hashes n' s)
  end.

(** Checks that are run over every string of at most two characters. *)
Definition int16_ignores_case (g : string) : bool :=
  bool_decide (Py.int16 (upper g) = Py.int16 g).

Definition int16_in_range (g : string) : bool :=
  match Py.int16 g with
  | Some v => (-15 <=? v) && (v <=? 255)
  | None => true
  end.

(** A byte prints as two characters that parse back to it. *)
Definition byte_prints_and_parses (v : Z) : bool :=
  match Py.format_02X v with
  | String c1 (String c2 EmptyString) =>
      negb (Ascii.eqb c1 "#")
      && bool_decide (Py.int16 (String c1 (String c2 "")) = Some v)
  | _ => false
  end.

(** A string that [hex_to_rgb] accepts. *)
Definition parses (hex_color : string) : bool :=
  match hex_to_rgb hex_color with
  | Ok _ => true
  | Raise _ => false
  end.

(** A name without a path separator. *)
Fixpoint no_slash (s : string) : bool :=
  match s with
  | EmptyString => true
  | String c r => negb (Ascii.eqb c "/") && no_slash r
  end.

(** A table the generator is meant for: distinct names without separators,
    valid definitions. *)
Definition proper_table (items : list (string * gmap string Py.pyval)) : Prop :=
  NoDup (items.*1)
  /\ forall entry, entry ∈ items ->
       no_slash entry.1 = true /\ valid_definition entry.2 = true.

(** No regular file stands where a directory of the folder path is needed,
    and no directory stands where the file goes. *)
Definition path_is_clear (name : string) (fs : gmap (list string) Py.node) : Prop :=
  (forall p x, p <> [] -> p `prefix_of` Py.components (folder_path name) ->
     fs !! p <> Some (Py.File x))
  /\ fs !! Py.components (contents_path name) <> Some Py.Dir.

(** Strings of decimal digits. *)
Fixpoint all_digits (s : string) : bool :=
  match s with
  | EmptyString => true
  | String c r =>
      match digit_value c with
      | Some _ => all_digits r
      | None => false
      end
  end.

(** The three fraction digits of [fixed3] read back as the thousandths. *)
Definition fraction_reads_back (r : Z) : bool :=
  let frac := Py.digits 10 r in
  match Py.zeros (3 - String.length frac) +:+ frac with
  | String c1 (String c2 (String c3 EmptyString)) =>
      match digit_value c1, digit_value c2, digit_value c3 with
      | Some d1, Some d2, Some d3 => 100 * d1 + 10 * d2 + d3 =? r
      | _, _, _ => false
      end
  | _ => false
  end.

(** [i] units and [fr] thousandths, in thousandths. *)
Definition i_value (i fr : Z) : Z := i * 1000 + fr.

(** [parse_fixed] once the sign has been read. *)
Definition parse_unsigned (neg : bool) (body : string) : option (nat * Q) :=
  match split_at_point body with
  | Some (ip, fp) =>
      match decimal ip, decimal fp with
      | Some i, Some fr =>
          let k := String.length fp in
          let v := Qmake (i * 10 ^ Z.of_nat k + fr) (Z.to_pos (10 ^ Z.of_nat k)) in
          Some (k, if neg then Qopp v else v)
      | _, _ => None
      end
  | None => None
  end.

(** The value of a hexadecimal digit: its place in [0123456789ABCDEF],
    whatever its case. *)
Fixpoint index_of (c : ascii) (l : list ascii) (i : Z) : Z :=
  match l with
  | [] => 0
  | x :: l' => if Ascii.eqb x c then i else index_of c l' (i + 1)
  end.

Definition hex_value (c : ascii) : Z :=
  index_of (upper_char c) (list_ascii_of_string "0123456789ABCDEF") 0.

Definition pair_has_value (c1 c2 : ascii) : bool :=
  bool_decide (Py.int16 (String c1 (String c2 ""))
               = Some (16 * hex_value c1 + hex_value c2))
  && (0 <=? hex_value c1) && (hex_value c1 <=? 15).

(** ** Vocabulary of the alpha of a variant *)

(** A float of the closed unit interval. *)
Definition in_unit_interval (a : Py.pyfloat) : Prop :=
  is_finite a = true
  /\ (0 <= Py.float_value a)%Q /\ (Py.float_value a <= 1)%Q.

(** The alpha member of a variant is a string with exactly three digits
    after the point whose decimal value is within 0.0005 of [a]. *)
Definition alpha_reads_back (variant : Py.json) (a : Py.pyfloat) : Prop :=
  exists s q,
    component "alpha" variant = Some (Py.JStr s)
    /\ parse_fixed s = Some (3%nat, q)
    /\ (Qabs (q - Py.float_value a) <= 5 # 10000)%Q.

(** ** Vocabulary of the rejected characters *)

(** The blanks among the ASCII characters: tab, line feed, vertical tab,
    form feed, carriage return and space. *)
Definition is_ascii_blank (c : ascii) : bool :=
  existsb (Z.eqb (Py.ord c)) [9; 10; 11; 12; 13; 32].

(** An ASCII character that is neither a hexadecimal digit, nor a sign, nor
    a blank. *)
Definition rejected_char (c : ascii) : bool :=
  (Py.ord c <? 128) && negb (is_hex_digit c) && negb (is_sign c)
  && negb (is_ascii_blank c).

Fixpoint has_rejected_char (g : string) : bool :=
  match g with
  | EmptyString => false
  | String c r => rejected_char c || has_rejected_char r
  end.

(** A slice that holds a rejected character is not parsed. *)
Definition rejected_slice_fails (g : string) : bool :=
  if has_rejected_char g
  then match Py.int16 g with None => true | Some _ => false end
  else true.

(** ** Reading JSON back *)

(** [json.loads] on the objects of the model: dictionaries, lists, strings
    and integers.  Floats, [true], [false] and [null] are no objects of the
    model and are not read (the result is [None]), nor are characters from
    code point 256 on. *)

Definition is_json_ws (c : ascii) : bool :=
  existsb (Z.eqb (Py.ord c)) [32; 9; 10; 13].

Fixpoint skip_ws (s : string) : string :=
  match s with
  | String c r => if is_json_ws c then skip_ws r else s
  | EmptyString => s
  end.

Definition hex4 (c1 c2 c3 c4 : ascii) : option Z :=
  match Py.hex_digit_value c1, Py.hex_digit_value c2,
        Py.hex_digit_value c3, Py.hex_digit_value c4 with
  | Some a, Some b, Some c, Some d => Some (((a * 16 + b) * 16 + c) * 16 + d)
  | _, _, _, _ => None
  end.

(** The character a one-letter escape stands for. *)
Definition unescape (e : ascii) : option ascii :=
  let m := Py.ord e in
  if (m =? 34) || (m =? 92) || (m =? 47) then Some e
  else if m =? 98 then Some (ascii_of_N 8)
  else if m =? 102 then Some (ascii_of_N 12)
  else if m =? 110 then Some (ascii_of_N 10)
  else if m =? 114 then Some (ascii_of_N 13)
  else if m =? 116 then Some (ascii_of_N 9)
  else None.

(** A string, from after its opening quote: the string and what follows
    its closing quote. *)
Fixpoint read_string (s : string) : option (string * string) :=
  match s with
  | EmptyString => None
  | String c r =>
      let n := Py.ord c in
      if n =? 34 then Some ("", r)
      else if n =? 92 then
        match r with
        | EmptyString => None
        | String e r' =>
            if Py.ord e =? 117 then
              match r' with
              | String h1 (String h2 (String h3 (String h4 r''))) =>
                  match hex4 h1 h2 h3 h4 with
                  | Some v =>
                      if v <? 256 then
                        match read_string r'' with
                        | Some (t, rest) =>
                            Some (String (ascii_of_N (Z.to_N v)) t, rest)
                        | None => None
                        end
                      else None
                  | None => None
                  end
              | _ => None
              end
            else
              match unescape e with
              | Some ch =>
                  match read_string r' with
                  | Some (t, rest) => Some (String ch t, rest)
                  | None => None
                  end
              | None => None
              end
        end
      else if n <? 32 then None
      else
        match read_string r with
        | Some (t, rest) => Some (String c t, rest)
        | None => None
        end
  end.

Fixpoint read_digits (acc : Z) (s : string) : Z * string :=
  match s with
  | String c r =>
      match digit_value c with
      | Some d => read_digits (10 * acc + d) r
      | None => (acc, s)
      end
  | EmptyString => (acc, s)
  end.

(** An integer: an optional minus sign and digits without a leading zero;
    a fraction or an exponent after them would make a float. *)
Definition read_int (s : string) : option (Z * string) :=
  let '(neg, body) :=
    match s with
    | String c r => if Py.ord c =? 45 then (true, r) else (false, s)
    | EmptyString => (false, s)
    end in
  match body with
  | EmptyString => None
  | String c r =>
      match digit_value c with
      | None => None
      | Some d =>
          let leading_zero :=
            (d =? 0)
            && match r with
               | String c' _ => match digit_value c' with Some _ => true | None => false end
               | EmptyString => false
               end in
          if leading_zero then None
          else
            let '(v, rest) := read_digits 0 body in
            let float_follows :=
              match rest with
              | String c' _ =>
                  let m := Py.ord c' in (m =? 46) || (m =? 101) || (m =? 69)
              | EmptyString => false
              end in
            if float_follows then None
            else Some (if neg then - v else v, rest)
      end
  end.

Fixpoint remove_key (key : string) (l : list (string * Py.json))
  : list (string * Py.json) :=
  match l with
  | [] => []
  | (k, v) :: l' =>
      if String.eqb k key then remove_key key l' else (k, v) :: remove_key key l'
  end.

(** A member in front of the members read after it: a key that comes again
    keeps its first place and takes its last value, as in a [dict]. *)
Definition dict_cons (k : string) (v : Py.json) (l : list (string * Py.json))
  : list (string * Py.json) :=
  match assoc k l with
  | Some v' => (k, v') :: remove_key k l
  | None => (k, v) :: l
  end.

Fixpoint read_value (fuel : nat) (s : string) : option (Py.json * string) :=
  match fuel with
  | O => None
  | S f =>
      match skip_ws s with
      | EmptyString => None
      | String c r =>
          let n := Py.ord c in
          if n =? 34 then
            match read_string r with
            | Some (t, rest) => Some (Py.JStr t, rest)
            | None => None
            end
          else if n =? 91 then
            match skip_ws r with
            | EmptyString => None
            | String c' rest =>
                if Py.ord c' =? 93 then Some (Py.JList [], rest)
                else match read_elements f r with
                     | Some (l, rest') => Some (Py.JList l, rest')
                     | None => None
                     end
            end
          else if n =? 123 then
            match skip_ws r with
            | EmptyString => None
            | String c' rest =>
                if Py.ord c' =? 125 then Some (Py.JDict [], rest)
                else match read_members f r with
                     | Some (l, rest') => Some (Py.JDict l, rest')
                     | None => None
                     end
            end
          else
            match read_int (String c r) with
            | Some (z, rest) => Some (Py.JInt z, rest)
            | None => None
            end
      end
  end
with read_elements (fuel : nat) (s : string) : option (list Py.json * string) :=
  match fuel with
  | O => None
  | S f =>
      match read_value f s with
      | None => None
      | Some (v, rest) =>
          match skip_ws rest with
          | EmptyString => None
          | String c rest' =>
              if Py.ord c =? 44 then
                match read_elements f rest' with
                | Some (l, rest'') => Some (v :: l, rest'')
                | None => None
                end
              else if Py.ord c =? 93 then Some ([v], rest')
              else None
          end
      end
  end
with read_members (fuel : nat) (s : string)
  : option (list (string * Py.json) * string) :=
  match fuel with
  | O => None
  | S f =>
      match skip_ws s with
      | EmptyString => None
      | String q r =>
          if Py.ord q =? 34 then
            match read_string r with
            | None => None
            | Some (k, rest) =>
                match skip_ws rest with
                | EmptyString => None
                | String colon rest1 =>
                    if Py.ord colon =? 58 then
                      match read_value f rest1 with
                      | None => None
                      | Some (v, rest2) =>
                          match skip_ws rest2 with
                          | EmptyString => None
                          | String c rest3 =>
                              if Py.ord c =? 44 then
                                match read_members f rest3 with
                                | Some (l, rest4) => Some (dict_cons k v l, rest4)
                                | None => None
                                end
                              else if Py.ord c =? 125 then Some ([(k, v)], rest3)
                              else None
                          end
                      end
                    else None
                end
            end
          else None
      end
  end.

Definition json_loads (s : string) : option Py.json :=
  match read_value (S (String.length s)) s with
  | Some (v, rest) =>
      match skip_ws rest with
      | EmptyString => Some v
      | String _ _ => None
      end
  | None => None
  end.

(** The bytes written for an entry read back as a descriptor with exactly
    two variants. *)
Definition bytes_hold_two_variants (entry : string * gmap string Py.pyval) : bool :=
  match json_loads (bytes entry.2) with
  | Some c =>
      match variant_list c with
      | Some vs => (length vs =? 2)%nat
      | None => false
      end
  | None => false
  end.

(** ** Vocabulary of the runs on a disk that is not empty *)

(** The world a successful run from the disk [fs0] ends in. *)
Definition world_after (fs0 : gmap (list string) Py.node) : world :=
  World colors (final_disk colors fs0) ((fun entry => line entry.1) <$> colors).

(** A disk where [Info.colorset] exists and holds a file [Notes.txt]. *)
Definition notes_key : list string := folder_key "Info" ++ ["Notes.txt"].

Definition fs_noted : gmap (list string) Py.node :=
  <[notes_key := Py.File "note"]> (add_dirs [] (folder_key "Info") ∅).

(** A disk where [BrandPrimary.colorset] is a regular file, and where
    [CardShadow.colorset] exists and holds a directory [Contents.json]. *)
Definition fs_blocked : gmap (list string) Py.node :=
  <[file_key "CardShadow" := Py.Dir]>
    (<[folder_key "BrandPrimary" := Py.File ""]>
       (add_dirs [] (folder_key "CardShadow") ∅)).

(** A disk where [Info.colorset] exists and holds a directory
    [Contents.json]. *)
Definition fs_info_blocked : gmap (list string) Py.node :=
  <[file_key "Info" := Py.Dir]> (add_dirs [] (folder_key "Info") ∅).

(** A name that is a file name once [.colorset] is added to it: printable
    ASCII characters other than the separator, at most 246 of them (a file
    name holds at most 255 bytes). *)
Definition plain_char (c : ascii) : bool :=
  (32 <=? Py.ord c) && (Py.ord c <=? 126) && negb (Ascii.eqb c "/").

Fixpoint all_plain (s : string) : bool :=
  match s with
  | EmptyString => true
  | String c r => plain_char c && all_plain r
  end.

Definition plain_name (name : string) : bool :=
  all_plain name && (String.length name <=? 246)%nat.

(** A table of distinct plain names with valid definitions. *)
Definition plain_table (items : list (string * gmap string Py.pyval)) : Prop :=
  NoDup (items.*1)
  /\ forall entry, entry ∈ items ->
       plain_name entry.1 = true /\ valid_definition entry.2 = true.


(** * Properties *)

(** ** Sanity checks of the model against the interpreter *)

Example hex_to_rgb_background : hex_to_rgb "#F6F2EE" = Ok (246, 242, 238).
Proof. reflexivity. Qed.

Example hex_to_rgb_short5 : hex_to_rgb "ABCDE" = Ok (171, 205, 14).
Proof. reflexivity. Qed.

Example hex_to_rgb_signed : hex_to_rgb "+1-2 3" = Ok (1, -2, 3).
Proof. reflexivity. Qed.

Example format_channel_10 : format_channel 10 = "0x0A".
Proof. reflexivity. Qed.

Example format_channel_neg : format_channel (-10) = "0x-A".
Proof. reflexivity. Qed.

Example format_channel_256 : format_channel 256 = "0x100".
Proof. reflexivity. Qed.

Example contents_background :
  (c <<- contents (opaque_def "#F6F2EE" "#0E0E11") ;; Ok (Py.dumps_indent2 c)) =
  Ok (let quote := Py.quote in
      ("{") +:+ nl +:+
      ("  " +:+ quote +:+ "colors" +:+ quote +:+ ": [") +:+ nl +:+
      ("    {") +:+ nl +:+
      ("      " +:+ quote +:+ "color" +:+ quote +:+ ": {") +:+ nl +:+
      ("        " +:+ quote +:+ "color-space" +:+ quote +:+ ": " +:+ quote +:+ "srgb" +:+ quote +:+ ",") +:+ nl +:+
      ("        " +:+ quote +:+ "components" +:+ quote +:+ ": {") +:+ nl +:+
      ("          " +:+ quote +:+ "alpha" +:+ quote +:+ ": " +:+ quote +:+ "1.000" +:+ quote +:+ ",") +:+ nl +:+
      ("          " +:+ quote +:+ "blue" +:+ quote +:+ ": " +:+ quote +:+ "0xEE" +:+ quote +:+ ",") +:+ nl +:+
      ("          " +:+ quote +:+ "green" +:+ quote +:+ ": " +:+ quote +:+ "0xF2" +:+ quote +:+ ",") +:+ nl +:+
      ("          " +:+ quote +:+ "red" +:+ quote +:+ ": " +:+ quote +:+ "0xF6" +:+ quote) +:+ nl +:+
      ("        }") +:+ nl +:+
      ("      },") +:+ nl +:+
      ("      " +:+ quote +:+ "idiom" +:+ quote +:+ ": " +:+ quote +:+ "universal" +:+ quote) +:+ nl +:+
      ("    },") +:+ nl +:+
      ("    {") +:+ nl +:+
      ("      " +:+ quote +:+ "appearances" +:+ quote +:+ ": [") +:+ nl +:+
      ("        {") +:+ nl +:+
      ("          " +:+ quote +:+ "appearance" +:+ quote +:+ ": " +:+ quote +:+ "luminosity" +:+ quote +:+ ",") +:+ nl +:+
      ("          " +:+ quote +:+ "value" +:+ quote +:+ ": " +:+ quote +:+ "dark" +:+ quote) +:+ nl +:+
      ("        }") +:+ nl +:+
      ("      ],") +:+ nl +:+
      ("      " +:+ quote +:+ "color" +:+ quote +:+ ": {") +:+ nl +:+
      ("        " +:+ quote +:+ "color-space" +:+ quote +:+ ": " +:+ quote +:+ "srgb" +:+ quote +:+ ",") +:+ nl +:+
      ("        " +:+ quote +:+ "components" +:+ quote +:+ ": {") +:+ nl +:+
      ("          " +:+ quote +:+ "alpha" +:+ quote +:+ ": " +:+ quote +:+ "1.000" +:+ quote +:+ ",") +:+ nl +:+
      ("          " +:+ quote +:+ "blue" +:+ quote +:+ ": " +:+ quote +:+ "0x11" +:+ quote +:+ ",") +:+ nl +:+
      ("          " +:+ quote +:+ "green" +:+ quote +:+ ": " +:+ quote +:+ "0x0E" +:+ quote +:+ ",") +:+ nl +:+
      ("          " +:+ quote +:+ "red" +:+ quote +:+ ": " +:+ quote +:+ "0x0E" +:+ quote) +:+ nl +:+
      ("        }") +:+ nl +:+
      ("      },") +:+ nl +:+
      ("      " +:+ quote +:+ "idiom" +:+ quote +:+ ": " +:+ quote +:+ "universal" +:+ quote) +:+ nl +:+
      ("    }") +:+ nl +:+
      ("  ],") +:+ nl +:+
      ("  " +:+ quote +:+ "info" +:+ quote +:+ ": {") +:+ nl +:+
      ("    " +:+ quote +:+ "author" +:+ quote +:+ ": " +:+ quote +:+ "xcode" +:+ quote +:+ ",") +:+ nl +:+
      ("    " +:+ quote +:+ "version" +:+ quote +:+ ": 1") +:+ nl +:+
      ("  }") +:+ nl +:+
      ("}")).
Proof. reflexivity. Qed.

(** ** The hex parser *)

Lemma is_hex_digit_In (c : ascii) : is_hex_digit c = true -> In c hex_chars.
Proof.
  unfold is_hex_digit. intros H.
  apply existsb_exists in H as (x & Hx & He).
  apply Ascii.eqb_eq in He. now subst.
Qed.

Lemma pairs_roundtrip_all :
  forallb (fun c1 => forallb (pair_roundtrips c1) hex_chars) hex_chars = true.
Proof. vm_compute. reflexivity. Qed.

Lemma pair_roundtrip (c1 c2 : ascii) :
  is_hex_digit c1 = true -> is_hex_digit c2 = true ->
  exists v, Py.int16 (String c1 (String c2 "")) = Some v
            /\ 0 <= v <= 255
            /\ format_channel v
               = "0x" +:+ String (upper_char c1) (String (upper_char c2) "").
Proof.
  intros H1%is_hex_digit_In H2%is_hex_digit_In.
  pose proof pairs_roundtrip_all as Hall.
  rewrite forallb_forall in Hall. specialize (Hall _ H1).
  rewrite forallb_forall in Hall. specialize (Hall _ H2).
  unfold pair_roundtrips in Hall.
  destruct (Py.int16 _) as [v|]; [|discriminate].
  exists v. apply andb_prop in Hall as [Hr He]. apply andb_prop in Hr as [Hlo Hhi].
  apply String.eqb_eq in He. split; [reflexivity|]. split; [lia|exact He].
Qed.

Lemma hex_digit_not_hash (c : ascii) :
  is_hex_digit c = true -> Ascii.eqb c "#" = false.
Proof.
  intros H. destruct (Ascii.eqb c "#") eqn:E; [|reflexivity].
  apply Ascii.eqb_eq in E. subst. discriminate H.
Qed.

(** Six hexadecimal digits followed by anything parse to the three bytes of
    the digits, each of which prints as its group in upper case. *)
Lemma hex_to_rgb_six (c1 c2 c3 c4 c5 c6 : ascii) :
  all_hex (String c1 (String c2 (String c3 (String c4 (String c5 (String c6 ""))))))
    = true ->
  exists r g b,
    (forall rest,
       hex_to_rgb (String c1 (String c2 (String c3 (String c4 (String c5
                     (String c6 rest)))))) = Ok (r, g, b))
    /\ (0 <= r <= 255 /\ 0 <= g <= 255 /\ 0 <= b <= 255)
    /\ format_channel r = "0x" +:+ String (upper_char c1) (String (upper_char c2) "")
    /\ format_channel g = "0x" +:+ String (upper_char c3) (String (upper_char c4) "")
    /\ format_channel b = "0x" +:+ String (upper_char c5) (String (upper_char c6) "").
Proof.
  cbn [all_hex]. intros H.
  repeat (apply andb_prop in H as [? H]).
  destruct (pair_roundtrip c1 c2) as (r & Hr & Rr & Fr); [assumption..|].
  destruct (pair_roundtrip c3 c4) as (g & Hg & Rg & Fg); [assumption..|].
  destruct (pair_roundtrip c5 c6) as (b & Hb & Rb & Fb); [assumption..|].
  exists r, g, b. split; [|auto].
  intros rest.
  unfold hex_to_rgb. cbn [Py.lstrip]. rewrite (hex_digit_not_hash c1) by assumption.
  unfold Py.slice, parse_channel. cbn [substring].
  replace (substring 0 0 rest) with "" by (now destruct rest).
  rewrite Hr. cbn [bind]. rewrite Hg. cbn [bind]. rewrite Hb. reflexivity.
Qed.

Lemma lstrip_idem (ch : ascii) (s : string) :
  Py.lstrip ch (Py.lstrip ch s) = Py.lstrip ch s.
Proof.
  induction s as [|c r IH]; [reflexivity|].
  cbn [Py.lstrip]. destruct (Ascii.eqb c ch) eqn:E; [exact IH|].
  cbn [Py.lstrip]. now rewrite E.
Qed.

(** [hex_to_rgb] only sees its argument with the leading [#]s removed. *)
Lemma hex_to_rgb_lstrip (s : string) :
  hex_to_rgb s = hex_to_rgb (Py.lstrip "#" s).
Proof. unfold hex_to_rgb. now rewrite lstrip_idem. Qed.

Lemma lstrip_hash_cons (s : string) :
  Py.lstrip "#" (String "#" s) = Py.lstrip "#" s.
Proof. reflexivity. Qed.

Lemma length6_inv (s : string) :
  String.length s = 6%nat ->
  exists c1 c2 c3 c4 c5 c6,
    s = String c1 (String c2 (String c3 (String c4 (String c5 (String c6 ""))))).
Proof.
  intros H.
  do 6 (destruct s as [|? s]; [discriminate H|]).
  destruct s; [|discriminate H]. eauto 7.
Qed.

(** C2. For every string of exactly six hexadecimal digits, with or without
    one leading [#], [hex_to_rgb] returns three channels, and printing each
    channel as [0x] and two upper-case digits gives back the corresponding
    two-digit group of the input in upper case. *)
Theorem hex_roundtrip (s body : string) :
  String.length body = 6%nat ->
  all_hex body = true ->
  s = body \/ s = String "#" body ->
  exists r g b,
    hex_to_rgb s = Ok (r, g, b)
    /\ format_channel r = "0x" +:+ upper (Py.slice 0 2 body)
    /\ format_channel g = "0x" +:+ upper (Py.slice 2 2 body)
    /\ format_channel b = "0x" +:+ upper (Py.slice 4 2 body).
Proof.
  intros Hlen Hhex Hs.
  destruct (length6_inv body Hlen) as (c1 & c2 & c3 & c4 & c5 & c6 & ->).
  destruct (hex_to_rgb_six c1 c2 c3 c4 c5 c6 Hhex)
    as (r & g & b & Hp & _ & Fr & Fg & Fb).
  exists r, g, b. split.
  - destruct Hs as [-> | ->]; [exact (Hp "")|].
    rewrite hex_to_rgb_lstrip, lstrip_hash_cons, <- hex_to_rgb_lstrip.
    exact (Hp "").
  - cbn [Py.slice substring upper]. auto.
Qed.

Lemma hex_roundtrip_witness :
  exists r g b,
    hex_to_rgb "#f6F2ee" = Ok (r, g, b)
    /\ format_channel r = "0x" +:+ upper (Py.slice 0 2 "f6F2ee")
    /\ format_channel g = "0x" +:+ upper (Py.slice 2 2 "f6F2ee")
    /\ format_channel b = "0x" +:+ upper (Py.slice 4 2 "f6F2ee").
Proof.
  apply (hex_roundtrip "#f6F2ee" "f6F2ee"); [reflexivity | reflexivity | now right].
Defined.

(** C9. Whenever the first six characters left after stripping every
    leading [#] are hexadecimal digits, [hex_to_rgb] returns a triple, and
    it is the triple of those six characters alone: whatever follows them
    is not read, so a longer input succeeds with the result of its
    six-character prefix. *)
Theorem hex_to_rgb_reads_six (s six rest : string) :
  Py.lstrip "#" s = six +:+ rest ->
  String.length six = 6%nat ->
  all_hex six = true ->
  exists rgb, hex_to_rgb six = Ok rgb /\ hex_to_rgb s = Ok rgb.
Proof.
  intros Hs Hlen Hhex.
  destruct (length6_inv six Hlen) as (c1 & c2 & c3 & c4 & c5 & c6 & ->).
  destruct (hex_to_rgb_six c1 c2 c3 c4 c5 c6 Hhex) as (r & g & b & Hp & _).
  exists (r, g, b). split; [exact (Hp "")|].
  rewrite hex_to_rgb_lstrip, Hs. exact (Hp rest).
Qed.

Lemma hex_to_rgb_reads_six_witness :
  exists rgb, hex_to_rgb "7A4A2A" = Ok rgb /\ hex_to_rgb "##7A4A2A99zz" = Ok rgb.
Proof.
  apply (hex_to_rgb_reads_six "##7A4A2A99zz" "7A4A2A" "99zz"); reflexivity.
Defined.

Lemma In_all_ascii (c : ascii) : In c all_ascii.
Proof.
  unfold all_ascii. apply in_map_iff. exists (nat_of_ascii c). split.
  - rewrite <- (ascii_N_embedding c) at 2. unfold nat_of_ascii.
    now rewrite N2Nat.id.
  - apply in_seq. pose proof (nat_ascii_bounded c). lia.
Qed.

Lemma groups_agree_1 :
  forallb (fun c => group_agrees (String c "")) all_ascii = true.
Proof. vm_compute. reflexivity. Qed.

Lemma groups_agree_2 :
  forallb (fun c1 =>
    forallb (fun c2 => group_agrees (String c1 (String c2 ""))) all_ascii)
    all_ascii = true.
Proof. vm_compute. reflexivity. Qed.

(** On a slice of at most two characters [int(_, 16)] succeeds exactly on
    the shapes listed in [group_ok]. *)
Lemma group_ok_int16 (g : string) :
  (String.length g <= 2)%nat ->
  group_ok g = match Py.int16 g with Some _ => true | None => false end.
Proof.
  intros Hlen.
  assert (H : group_agrees g = true).
  { destruct g as [|c1 [|c2 [|c3 g]]].
    - reflexivity.
    - pose proof groups_agree_1 as H. rewrite forallb_forall in H.
      apply H, In_all_ascii.
    - pose proof groups_agree_2 as H. rewrite forallb_forall in H.
      specialize (H c1 (In_all_ascii c1)). rewrite forallb_forall in H.
      apply H, In_all_ascii.
    - cbn in Hlen. lia. }
  unfold group_agrees in H. now apply Bool.eqb_prop in H.
Qed.

Lemma substring_length_le (i n : nat) (s : string) :
  (String.length (substring i n s) <= n)%nat.
Proof.
  revert i n. induction s as [|c r IH]; intros [|i] [|n]; cbn; try lia.
  - specialize (IH 0%nat n). lia.
  - apply (IH i 0%nat).
  - apply (IH i (S n)).
Qed.

Lemma parse_channel_group (t : string) (i : nat) :
  if group_ok (Py.slice i 2 t)
  then exists v, parse_channel (Py.slice i 2 t) = Ok v
  else parse_channel (Py.slice i 2 t) = Raise ValueError.
Proof.
  rewrite group_ok_int16 by apply substring_length_le.
  unfold parse_channel. destruct (Py.int16 _); eauto.
Qed.

(** On strings of code points below 256, [hex_to_rgb] fails, with
    [ValueError], exactly when one of the slices [0:2], [2:4], [4:6] of the
    input without its leading [#]s is none of: two hexadecimal digits, one
    hexadecimal digit alone, or one hexadecimal digit after a sign or next
    to a blank. *)
Lemma hex_to_rgb_groups (s : string) :
  if groups_ok (Py.lstrip "#" s)
  then exists rgb, hex_to_rgb s = Ok rgb
  else hex_to_rgb s = Raise ValueError.
Proof.
  unfold groups_ok, hex_to_rgb.
  set (t := Py.lstrip "#" s).
  pose proof (parse_channel_group t 0) as H0.
  pose proof (parse_channel_group t 2) as H2.
  pose proof (parse_channel_group t 4) as H4.
  destruct (group_ok (Py.slice 0 2 t)); cbn [andb].
  - destruct H0 as [r ->]. cbn [bind].
    destruct (group_ok (Py.slice 2 2 t)); cbn [andb].
    + destruct H2 as [g ->]. cbn [bind].
      destruct (group_ok (Py.slice 4 2 t)).
      * destruct H4 as [b ->]. cbn [bind]. eauto.
      * now rewrite H4.
    + now rewrite H2.
  - now rewrite H0.
Qed.

(** C4 fails as stated: a seven-digit input is malformed but yields a
    triple (and so do a five-digit input, and a six-character input with
    signs and a blank). *)
Lemma malformed_hex_accepted :
  ~ (forall s, well_formed_hex s = false -> exists e, hex_to_rgb s = Raise e).
Proof.
  intros H. destruct (H "#1234567" eq_refl) as [e He].
  vm_compute in He. discriminate He.
Qed.

Example hex_to_rgb_long7 : hex_to_rgb "#1234567" = Ok (18, 52, 86).
Proof. reflexivity. Qed.

(** Too short for a third slice, or a character that [int] rejects. *)
Example hex_to_rgb_short4 : hex_to_rgb "#ABCD" = Raise ValueError.
Proof. reflexivity. Qed.
Example hex_to_rgb_nonhex : hex_to_rgb "#GG0000" = Raise ValueError.
Proof. reflexivity. Qed.

(** ** The alpha field *)

Lemma div_half_even_err (n d : Z) :
  0 <= n -> 0 < d ->
  - d <= 2 * (Py.div_half_even n d * d - n) <= d.
Proof.
  intros Hn Hd. unfold Py.div_half_even.
  pose proof (Z.div_mod n d ltac:(lia)) as Hdm.
  pose proof (Z.mod_pos_bound n d Hd) as Hr.
  set (q := n / d) in *. set (r := n mod d) in *.
  destruct (Z.ltb_spec (2 * r) d); [nia|].
  destruct (Z.ltb_spec d (2 * r)); [nia|].
  destruct (Z.even q); nia.
Qed.

Lemma div_half_even_bounds (n d k : Z) :
  0 <= n -> 0 < d -> n <= k * d ->
  0 <= Py.div_half_even n d <= k.
Proof.
  intros Hn Hd Hk. unfold Py.div_half_even.
  pose proof (Z.div_mod n d ltac:(lia)) as Hdm.
  pose proof (Z.mod_pos_bound n d Hd) as Hr.
  pose proof (Z.div_pos n d Hn Hd) as Hq.
  set (q := n / d) in *. set (r := n mod d) in *.
  assert (q < k \/ (q = k /\ r = 0)) as Hcase by nia.
  destruct (Z.ltb_spec (2 * r) d); [nia|].
  destruct (Z.ltb_spec d (2 * r)); [nia|].
  destruct (Z.even q); nia.
Qed.

Lemma fixed3_reads_back_all :
  forallb (fun n => fixed3_reads_back (Z.of_nat n)) (seq 0 1001) = true.
Proof. vm_compute. reflexivity. Qed.

Lemma fixed3_parse (q : Z) :
  0 <= q <= 1000 ->
  parse_fixed (Py.fixed3 q) = Some (3%nat, Qmake q 1000).
Proof.
  intros Hq. pose proof fixed3_reads_back_all as H.
  rewrite forallb_forall in H.
  specialize (H (Z.to_nat q)). rewrite Z2Nat.id in H by lia.
  assert (Hin : In (Z.to_nat q) (seq 0 1001)) by (apply in_seq; lia).
  specialize (H Hin). unfold fixed3_reads_back in H.
  destruct (parse_fixed (Py.fixed3 q)) as [[k [vn vd]]|]; [|discriminate].
  apply andb_prop in H as [H Hd]. apply andb_prop in H as [Hk Hn].
  apply Nat.eqb_eq in Hk. apply Z.eqb_eq in Hn. apply Pos.eqb_eq in Hd.
  cbn in Hn, Hd. now subst.
Qed.

Lemma thousandths_zero (e : Z) : Py.thousandths 0 e = 0.
Proof.
  unfold Py.thousandths. destruct (Z.leb_spec 0 e); [reflexivity|].
  assert (Hd : 0 < 2 ^ (- e)) by (apply Z.pow_pos_nonneg; lia).
  unfold Py.div_half_even. cbn [Z.of_N Z.mul].
  rewrite Zdiv_0_l, Zmod_0_l. change (2 * 0) with 0.
  destruct (Z.ltb_spec 0 (2 ^ (- e))); [reflexivity|lia].
Qed.

(** The thousandths of a magnitude in [0,1] lie in [0,1000] and are within
    half a thousandth of it. *)
Lemma thousandths_unit (m : N) (e : Z) :
  (Py.float_value (Py.Finite false m e) <= 1)%Q ->
  0 <= Py.thousandths m e <= 1000
  /\ (Qabs (Qmake (Py.thousandths m e) 1000 - Py.float_value (Py.Finite false m e))
      <= 5 # 10000)%Q.
Proof.
  unfold Py.float_value, Py.thousandths.
  pose proof (N2Z.is_nonneg m) as Hm. set (M := Z.of_N m) in *.
  destruct (Z.leb_spec 0 e) as [He|He].
  - intros H1. unfold Qle in H1. cbn in H1.
    assert (0 < 2 ^ e) by (apply Z.pow_pos_nonneg; lia).
    set (P := 2 ^ e) in *. split; [nia|].
    apply Qabs_Qle_condition. unfold Qle, Qminus, Qplus, Qopp, inject_Z. cbn.
    nia.
  - intros H1.
    assert (Hd : 0 < 2 ^ (- e)) by (apply Z.pow_pos_nonneg; lia).
    set (d := 2 ^ (- e)) in *.
    unfold Qle in H1. cbn in H1. rewrite Z2Pos.id in H1 by exact Hd.
    pose proof (div_half_even_err (M * 1000) d ltac:(lia) Hd) as Herr.
    pose proof (div_half_even_bounds (M * 1000) d 1000 ltac:(lia) Hd ltac:(lia)) as Hb.
    set (q := Py.div_half_even (M * 1000) d) in *.
    split; [exact Hb|].
    apply Qabs_Qle_condition. unfold Qle, Qminus, Qplus, Qopp. cbn.
    rewrite !Pos2Z.inj_mul, !Z2Pos.id by exact Hd.
    nia.
Qed.

(** For a float in [0,1] the [.3f] rendering has exactly three digits after
    the point, and the decimal it denotes is within 0.0005 of the float. *)
Lemma format_3f_unit_interval (a : Py.pyfloat) :
  is_finite a = true ->
  (0 <= Py.float_value a)%Q ->
  (Py.float_value a <= 1)%Q ->
  exists v,
    parse_fixed (Py.format_3f a) = Some (3%nat, v)
    /\ (Qabs (v - Py.float_value a) <= 5 # 10000)%Q.
Proof.
  destruct a as [neg m e| |]; [|discriminate..]. intros _ H0 H1.
  destruct neg.
  - (* the sign bit is set: only minus zero is not below 0 *)
    assert (Hm : m = 0%N).
    { unfold Py.float_value in H0.
      destruct (Z.leb_spec 0 e).
      - unfold Qle in H0. cbn in H0.
        assert (0 < 2 ^ e) by (apply Z.pow_pos_nonneg; lia). nia.
      - unfold Qle in H0. cbn in H0. lia. }
    subst m. exists (Qopp (Qmake 0 1000)). split.
    + unfold Py.format_3f. now rewrite thousandths_zero.
    + unfold Py.float_value. destruct (0 <=? e); cbn; unfold Qle; cbn; lia.
  - destruct (thousandths_unit m e H1) as [Hq Herr].
    exists (Qmake (Py.thousandths m e) 1000). split; [|exact Herr].
    unfold Py.format_3f. cbn [String.append]. now apply fixed3_parse.
Qed.

Example format_3f_0_06 : Py.format_3f float_0_06 = "0.060".
Proof. reflexivity. Qed.
Example format_3f_1_0 : Py.format_3f float_1_0 = "1.000".
Proof. reflexivity. Qed.
(** [0.0005], whose binary64 lies just above the tie, and [0.0625], an
    exact tie that goes to the even neighbour. *)
Example format_3f_0_0005 :
  Py.format_3f (Py.Finite false 1152921504606847 (-61)) = "0.001".
Proof. reflexivity. Qed.
Example format_3f_tie_even : Py.format_3f (Py.Finite false 1 (-4)) = "0.062".
Proof. reflexivity. Qed.
Example format_3f_neg_zero : Py.format_3f (Py.Finite true 0 0) = "-0.000".
Proof. reflexivity. Qed.

(** ** The descriptor *)

(** The channels of a variant are printed as [0xHH] when they are bytes. *)
Lemma format_channel_byte (v : Z) : 0 <= v <= 255 -> is_0xHH (format_channel v) = true.
Proof.
  intros Hv.
  assert (H : forallb (fun n => is_0xHH (format_channel (Z.of_nat n))) (seq 0 256)
              = true) by (vm_compute; reflexivity).
  rewrite forallb_forall in H. specialize (H (Z.to_nat v)).
  rewrite Z2Nat.id in H by lia. apply H, in_seq. lia.
Qed.

Lemma variant_carries_light (alpha : string) (r g b : Z) :
  0 <= r <= 255 -> 0 <= g <= 255 -> 0 <= b <= 255 ->
  variant_carries (light_variant alpha r g b) r g b.
Proof.
  intros. unfold variant_carries. repeat split; try reflexivity;
    now apply format_channel_byte.
Qed.

Lemma variant_carries_dark (alpha : string) (r g b : Z) :
  0 <= r <= 255 -> 0 <= g <= 255 -> 0 <= b <= 255 ->
  variant_carries (dark_variant alpha r g b) r g b.
Proof.
  intros. unfold variant_carries. repeat split; try reflexivity;
    now apply format_channel_byte.
Qed.

(** A well-formed hex string parses to three bytes. *)
Lemma hex_to_rgb_well_formed (s : string) :
  well_formed_hex s = true ->
  exists r g b, hex_to_rgb s = Ok (r, g, b)
                /\ 0 <= r <= 255 /\ 0 <= g <= 255 /\ 0 <= b <= 255.
Proof.
  unfold well_formed_hex. intros H. apply andb_prop in H as [Hlen Hhex].
  apply Nat.eqb_eq in Hlen.
  destruct (length6_inv _ Hlen) as (c1 & c2 & c3 & c4 & c5 & c6 & Hb).
  rewrite Hb in Hhex.
  destruct (hex_to_rgb_six c1 c2 c3 c4 c5 c6 Hhex) as (r & g & b & Hp & HR & _).
  exists r, g, b. split; [|exact HR].
  assert (Hs : Py.lstrip "#" s = Py.lstrip "#" (strip_one_hash s)).
  { unfold strip_one_hash.
    destruct s as [|c s']; [reflexivity|].
    destruct c as [[] [] [] [] [] [] [] []]; reflexivity. }
  rewrite hex_to_rgb_lstrip, Hs, <- hex_to_rgb_lstrip, Hb. apply Hp.
Qed.

(** The descriptor of a definition whose two hex strings are well formed
    and whose alphas, where present, are floats. *)
Lemma contents_well_formed (color_def : gmap string Py.pyval) (lh dh : string)
    (a a_d : Py.pyfloat) :
  color_def !! "light" = Some (Py.PStr lh) ->
  color_def !! "dark" = Some (Py.PStr dh) ->
  Py.get color_def "light_alpha" (Py.PFloat float_1_0) = Py.PFloat a ->
  Py.get color_def "dark_alpha" (Py.PFloat float_1_0) = Py.PFloat a_d ->
  well_formed_hex lh = true ->
  well_formed_hex dh = true ->
  exists r g b r_d g_d b_d,
    hex_to_rgb lh = Ok (r, g, b) /\ hex_to_rgb dh = Ok (r_d, g_d, b_d)
    /\ (0 <= r <= 255 /\ 0 <= g <= 255 /\ 0 <= b <= 255)
    /\ (0 <= r_d <= 255 /\ 0 <= g_d <= 255 /\ 0 <= b_d <= 255)
    /\ variants color_def
       = Ok [ light_variant (Py.format_3f a) r g b;
              dark_variant (Py.format_3f a_d) r_d g_d b_d ].
Proof.
  intros Hl Hd Ha Had Wl Wd.
  destruct (hex_to_rgb_well_formed lh Wl) as (r & g & b & Pl & Rl).
  destruct (hex_to_rgb_well_formed dh Wd) as (r_d & g_d & b_d & Pd & Rd).
  exists r, g, b, r_d, g_d, b_d. repeat split; try tauto.
  unfold variants, Py.getitem. rewrite Hl, Hd. cbn [bind hex_to_rgb_val].
  rewrite Pl. cbn [bind]. rewrite Ha. cbn [Py.format_3f_val bind].
  rewrite Pd. cbn [bind]. rewrite Had. reflexivity.
Qed.

Lemma descriptor_shape_well_formed (color_def : gmap string Py.pyval)
    (lh dh : string) (a a_d : Py.pyfloat) :
  color_def !! "light" = Some (Py.PStr lh) ->
  color_def !! "dark" = Some (Py.PStr dh) ->
  Py.get color_def "light_alpha" (Py.PFloat float_1_0) = Py.PFloat a ->
  Py.get color_def "dark_alpha" (Py.PFloat float_1_0) = Py.PFloat a_d ->
  well_formed_hex lh = true ->
  well_formed_hex dh = true ->
  descriptor_shape color_def.
Proof.
  intros Hl Hd Ha Had Wl Wd.
  destruct (contents_well_formed color_def lh dh a a_d Hl Hd Ha Had Wl Wd)
    as (r & g & b & r_d & g_d & b_d & Pl & Pd & Rl & Rd & Hv).
  exists lh, dh, r, g, b, r_d, g_d, b_d.
  exists (light_variant (Py.format_3f a) r g b),
         (dark_variant (Py.format_3f a_d) r_d g_d b_d).
  refine (conj Hl (conj Hd (conj Pl (conj Pd (conj _ (conj eq_refl
            (conj eq_refl (conj _ _)))))))).
  - unfold contents. rewrite Hv. reflexivity.
  - apply variant_carries_light; tauto.
  - apply variant_carries_dark; tauto.
Qed.

Lemma valid_definition_inv (color_def : gmap string Py.pyval) :
  valid_definition color_def = true ->
  exists lh dh a a_d,
    color_def !! "light" = Some (Py.PStr lh)
    /\ color_def !! "dark" = Some (Py.PStr dh)
    /\ Py.get color_def "light_alpha" (Py.PFloat float_1_0) = Py.PFloat a
    /\ Py.get color_def "dark_alpha" (Py.PFloat float_1_0) = Py.PFloat a_d
    /\ well_formed_hex lh = true
    /\ well_formed_hex dh = true.
Proof.
  unfold valid_definition. intros H.
  destruct (color_def !! "light") as [[lh|]|]; try discriminate.
  destruct (color_def !! "dark") as [[dh|]|]; try discriminate.
  destruct (Py.get color_def "light_alpha" _) as [|a]; try discriminate.
  destruct (Py.get color_def "dark_alpha" _) as [|a_d]; try discriminate.
  apply andb_prop in H as [Wl Wd]. exists lh, dh, a, a_d. auto 10.
Qed.

Lemma descriptor_shape_valid (color_def : gmap string Py.pyval) :
  valid_definition color_def = true -> descriptor_shape color_def.
Proof.
  intros (lh & dh & a & a_d & Hl & Hd & Ha & Had & Wl & Wd)%valid_definition_inv.
  eauto using descriptor_shape_well_formed.
Qed.

(** Every definition of the table is valid. *)
Lemma colors_valid :
  forallb (fun entry => valid_definition entry.2) colors = true.
Proof. vm_compute. reflexivity. Qed.

Lemma colors_valid_entry (name : string) (color_def : gmap string Py.pyval) :
  In (name, color_def) colors -> valid_definition color_def = true.
Proof.
  intros Hin. pose proof colors_valid as H. rewrite forallb_forall in H.
  exact (H _ Hin).
Qed.

(** C1. For every definition of the table the descriptor lists exactly two
    variants, light first and dark second; the dark one carries the
    appearance tag [luminosity]/[dark] and the light one none; both carry
    the color space [srgb] and the idiom [universal], and each of their red,
    green and blue channels is [0x] and two upper-case hexadecimal digits. *)
Theorem table_descriptor_shape :
  Forall (fun entry => descriptor_shape entry.2) colors.
Proof.
  apply List.Forall_forall. intros [name color_def] Hin.
  apply descriptor_shape_valid. exact (colors_valid_entry name color_def Hin).
Qed.

(** Inversion of a successful [bind]. *)
Lemma bind_Ok {A B} (r : result A) (k : A -> result B) (b : B) :
  bind r k = Ok b -> exists a, r = Ok a /\ k a = Ok b.
Proof. destruct r as [a|e]; [eauto | discriminate]. Qed.

Lemma variants_valid (color_def : gmap string Py.pyval) :
  valid_definition color_def = true -> exists vs, variants color_def = Ok vs.
Proof.
  intros (lh & dh & a & a_d & Hl & Hd & Ha & Had & Wl & Wd)%valid_definition_inv.
  destruct (contents_well_formed color_def lh dh a a_d Hl Hd Ha Had Wl Wd)
    as (r & g & b & r_d & g_d & b_d & _ & _ & _ & _ & Hv).
  eauto.
Qed.

(** C6. When a definition supplies neither [light_alpha] nor [dark_alpha],
    the descriptor made from it has the alpha [1.000] in both variants;
    and a descriptor is made from every valid definition. *)
Theorem default_alpha (color_def : gmap string Py.pyval) :
  color_def !! "light_alpha" = None ->
  color_def !! "dark_alpha" = None ->
  match contents color_def with
  | Ok c =>
      exists l d,
        variant_list c = Some [l; d]
        /\ component "alpha" l = Some (Py.JStr "1.000")
        /\ component "alpha" d = Some (Py.JStr "1.000")
  | Raise _ => valid_definition color_def = false
  end.
Proof.
  intros Hla Hda.
  destruct (contents color_def) as [c|e] eqn:E.
  - unfold contents in E. apply bind_Ok in E as (vs & Hv & [= <-]).
    unfold variants, Py.get in Hv. rewrite Hla, Hda in Hv.
    apply bind_Ok in Hv as (lv & _ & Hv).
    apply bind_Ok in Hv as ([[r g] b] & _ & Hv).
    cbn [default Py.format_3f_val bind] in Hv.
    apply bind_Ok in Hv as (dv & _ & Hv).
    apply bind_Ok in Hv as ([[r_d g_d] b_d] & _ & Hv).
    cbn [bind] in Hv. injection Hv as <-.
    eexists _, _. repeat split.
  - destruct (valid_definition color_def) eqn:V; [|reflexivity].
    destruct (variants_valid color_def V) as [vs Hv].
    unfold contents in E. rewrite Hv in E. discriminate E.
Qed.

Lemma default_alpha_witness :
  exists l d,
    variant_list
      (Py.JDict [ ("colors",
                    Py.JList [ light_variant "1.000" 246 242 238;
                               dark_variant "1.000" 14 14 17 ]);
                  ("info", info) ]) = Some [l; d]
    /\ component "alpha" l = Some (Py.JStr "1.000")
    /\ component "alpha" d = Some (Py.JStr "1.000").
Proof.
  exact (default_alpha (opaque_def "#F6F2EE" "#0E0E11") eq_refl eq_refl).
Defined.

(** The alphas of the one entry that supplies them. *)
Example card_shadow_alpha :
  exists l d,
    contents (<["dark_alpha" := Py.PFloat float_0_06]>
               (<["dark" := Py.PStr "#FFFFFF"]>
                 (<["light_alpha" := Py.PFloat float_0_06]>
                   (<["light" := Py.PStr "#000000"]> ∅))))
    = Ok (Py.JDict [ ("colors", Py.JList [l; d]); ("info", info) ])
    /\ component "alpha" l = Some (Py.JStr "0.060")
    /\ component "alpha" d = Some (Py.JStr "0.060").
Proof. eexists _, _. repeat split. Qed.

(** ** The file system *)

Section Disk.
Implicit Types (fs : gmap (list string) Py.node) (p above todo : list string).

Lemma covered_length above todo p :
  covered above todo p = true ->
  (length above < length p <= length above + length todo)%nat.
Proof.
  revert above. induction todo as [|c rest IH]; intros above; cbn [covered].
  - discriminate.
  - intros [H|H]%orb_prop.
    + apply bool_decide_eq_true in H as ->. rewrite length_app. cbn. lia.
    + apply IH in H. rewrite length_app in H. cbn in *. lia.
Qed.

Lemma covered_last above todo c :
  covered above (todo ++ [c]) (above ++ todo ++ [c]) = true.
Proof.
  revert above. induction todo as [|x rest IH]; intros above; cbn [covered app].
  - rewrite bool_decide_eq_true_2; [reflexivity|done].
  - apply orb_true_intro. right.
    specialize (IH (above ++ [x])). now rewrite <- app_assoc in IH.
Qed.

Lemma covered_whole todo c : covered [] (todo ++ [c]) (todo ++ [c]) = true.
Proof. exact (covered_last [] todo c). Qed.

Lemma lookup_add_dirs above todo fs p :
  add_dirs above todo fs !! p
  = if covered above todo p then Some Py.Dir else fs !! p.
Proof.
  revert above fs. induction todo as [|c rest IH]; intros above fs;
    cbn [add_dirs covered]; [reflexivity|].
  rewrite IH. destruct (covered (above ++ [c]) rest p);
    [now rewrite orb_true_r|]. rewrite orb_false_r.
  case_bool_decide as Hp.
  - subst p. apply lookup_insert_eq.
  - now apply lookup_insert_ne.
Qed.

Lemma makedirs_from_spec above todo fs fs' :
  Py.makedirs_from above todo fs = Ok fs'
  <-> no_file_on above todo fs /\ fs' = add_dirs above todo fs.
Proof.
  revert above fs. induction todo as [|c rest IH]; intros above fs;
    cbn [Py.makedirs_from add_dirs].
  - split; [intros [= <-]; split; [intros ? ? [=]|reflexivity] | now intros [_ ->]].
  - set (k := above ++ [c]).
    assert (Hk : forall p, covered k rest p = true -> p <> k).
    { intros p Hp%covered_length ->. lia. }
    destruct (fs !! k) as [[|x]|] eqn:E.
    + rewrite IH, (insert_id fs k Py.Dir E). apply and_iff_compat_r.
      unfold no_file_on. cbn [covered]. fold k. split.
      * intros H p x [->%bool_decide_eq_true|Hp]%orb_prop; [congruence|eauto].
      * intros H p x Hp. apply H. now rewrite Hp, orb_true_r.
    + split; [destruct rest; discriminate|].
      intros [H _]. exfalso. apply (H k x); [|exact E].
      cbn [covered]. fold k. now rewrite bool_decide_eq_true_2.
    + rewrite IH. apply and_iff_compat_r.
      unfold no_file_on. cbn [covered]. fold k. split.
      * intros H p x [->%bool_decide_eq_true|Hp]%orb_prop; [congruence|].
        specialize (H p x Hp). now rewrite lookup_insert_ne in H by (symmetry; auto).
      * intros H p x Hp. rewrite lookup_insert_ne by (symmetry; auto).
        apply H. now rewrite Hp, orb_true_r.
Qed.
End Disk.

(** The components of the root are never needed. *)
Opaque root.

Section Entries.
Implicit Types (fs : gmap (list string) Py.node) (p : list string)
  (name content : string).

Lemma length_append (s t : string) :
  String.length (s +:+ t) = (String.length s + String.length t)%nat.
Proof.
  induction s as [|c s IH]; [reflexivity|].
  change (String c s +:+ t) with (String c (s +:+ t)).
  cbn [String.length]. now rewrite IH.
Qed.

Lemma append_inj_r (s1 s2 t : string) : s1 +:+ t = s2 +:+ t -> s1 = s2.
Proof.
  revert s2. induction s1 as [|c s1 IH]; intros [|c' s2] H;
    unfold String.append in H; fold String.append in H.
  - reflexivity.
  - apply (f_equal String.length) in H. cbn [String.length] in H.
    rewrite length_append in H. lia.
  - apply (f_equal String.length) in H. cbn [String.length] in H.
    rewrite length_append in H. lia.
  - injection H as -> H. f_equal. auto.
Qed.

Lemma folder_key_inj name name' : folder_key name = folder_key name' -> name = name'.
Proof.
  unfold folder_key. intros H%app_inv_head. injection H as H.
  now apply append_inj_r in H.
Qed.

Lemma file_key_inj name name' : file_key name = file_key name' -> name = name'.
Proof.
  unfold file_key. intros H%app_inj_tail. apply folder_key_inj, H.
Qed.

Lemma folder_key_length name : length (folder_key name) = S (length root).
Proof. unfold folder_key. rewrite length_app. cbn. lia. Qed.

Lemma file_key_length name : length (file_key name) = S (S (length root)).
Proof. unfold file_key. rewrite length_app, folder_key_length. cbn. lia. Qed.

Lemma file_key_not_covered name name' :
  covered [] (folder_key name') (file_key name) = false.
Proof.
  destruct (covered _ _ _) eqn:E; [|reflexivity].
  apply covered_length in E. rewrite file_key_length, folder_key_length in E.
  cbn in E. lia.
Qed.

Lemma folder_key_covered name : covered [] (folder_key name) (folder_key name) = true.
Proof. unfold folder_key. apply covered_whole. Qed.

Lemma lookup_entry_effect name content fs p :
  entry_effect name content fs !! p
  = if bool_decide (p = file_key name) then Some (Py.File content)
    else if covered [] (folder_key name) p then Some Py.Dir
    else fs !! p.
Proof.
  unfold entry_effect. case_bool_decide as Hp.
  - subst p. apply lookup_insert_eq.
  - rewrite lookup_insert_ne by done. apply lookup_add_dirs.
Qed.

Lemma folder_key_nonempty name : folder_key name <> [].
Proof.
  intros H%(f_equal length). rewrite folder_key_length in H. discriminate H.
Qed.

Lemma write_at_snoc (d : list string) (x : string) content fs :
  d <> [] ->
  Py.write_at (d ++ [x]) content fs
  = match fs !! d with
    | None => Raise FileNotFoundError
    | Some (Py.File _) => Raise NotADirectoryError
    | Some Py.Dir =>
        match fs !! (d ++ [x]) with
        | Some Py.Dir => Raise IsADirectoryError
        | _ => Ok (<[d ++ [x] := Py.File content]> fs)
        end
    end.
Proof.
  intros Hd. unfold Py.write_at.
  destruct (d ++ [x]) as [|y k] eqn:E; [now destruct d|]. rewrite <- E.
  rewrite removelast_last. destruct d; [congruence|reflexivity].
Qed.

(** Writing the file of an entry once its folder has been made. *)
Lemma write_after_makedirs name content fs :
  Py.write_at (file_key name) content (add_dirs [] (folder_key name) fs)
  = match fs !! file_key name with
    | Some Py.Dir => Raise IsADirectoryError
    | _ => Ok (entry_effect name content fs)
    end.
Proof.
  unfold file_key at 1. rewrite write_at_snoc by apply folder_key_nonempty.
  change (folder_key name ++ ["Contents.json"]) with (file_key name).
  rewrite !lookup_add_dirs, folder_key_covered, file_key_not_covered.
  reflexivity.
Qed.

Lemma entry_step_spec name content fs fs' :
  entry_step name content fs = Ok fs'
  <-> entry_can_run name fs /\ fs' = entry_effect name content fs.
Proof.
  unfold entry_step, entry_can_run. split.
  - intros (d1 & [Hno ->]%makedirs_from_spec & Hw)%bind_Ok.
    rewrite write_after_makedirs in Hw.
    destruct (fs !! file_key name) as [[|x]|] eqn:E;
      try discriminate Hw; injection Hw as <-;
      (split; [split; [exact Hno|congruence]|reflexivity]).
  - intros [[Hno Hf] ->].
    assert (Hm : Py.makedirs_from [] (folder_key name) fs
                 = Ok (add_dirs [] (folder_key name) fs))
      by now apply makedirs_from_spec.
    rewrite Hm. cbn [bind]. rewrite write_after_makedirs.
    destruct (fs !! file_key name) as [[|x]|] eqn:E; [congruence|reflexivity..].
Qed.

(** Two entries with different names act on the disk in either order. *)
Lemma entry_effect_comm name content name' content' fs :
  name <> name' ->
  entry_effect name content (entry_effect name' content' fs)
  = entry_effect name' content' (entry_effect name content fs).
Proof.
  intros Hne. apply map_eq. intros p. rewrite !lookup_entry_effect.
  repeat case_bool_decide; subst;
    rewrite ?file_key_not_covered; try reflexivity.
  - exfalso. apply Hne. now apply file_key_inj.
  - destruct (covered [] (folder_key name) p), (covered [] (folder_key name') p);
      reflexivity.
Qed.

Lemma entry_effect_idem name content fs :
  entry_effect name content (entry_effect name content fs)
  = entry_effect name content fs.
Proof.
  apply map_eq. intros p. rewrite !lookup_entry_effect.
  case_bool_decide; [reflexivity|].
  destruct (covered [] (folder_key name) p); reflexivity.
Qed.

(** An entry that could run still can, and one that could not still
    cannot, after an entry of another name has run. *)
Lemma entry_can_run_after name name' content' fs :
  name <> name' ->
  entry_can_run name' fs ->
  entry_can_run name (entry_effect name' content' fs) <-> entry_can_run name fs.
Proof.
  intros Hne [Hno' _]. unfold entry_can_run, no_file_on.
  assert (Hfk : file_key name <> file_key name')
    by (intros H; apply Hne; now apply file_key_inj).
  split; intros [Hno Hf]; split.
  - intros p x Hp Hx. specialize (Hno p x Hp).
    rewrite lookup_entry_effect in Hno.
    case_bool_decide as Hpk.
    { subst p. now rewrite file_key_not_covered in Hp. }
    destruct (covered [] (folder_key name') p) eqn:Hc; [|auto].
    exact (Hno' p x Hc Hx).
  - rewrite lookup_entry_effect in Hf.
    rewrite bool_decide_eq_false_2, file_key_not_covered in Hf by exact Hfk.
    exact Hf.
  - intros p x Hp. rewrite lookup_entry_effect.
    case_bool_decide as Hpk.
    { subst p. now rewrite file_key_not_covered in Hp. }
    destruct (covered [] (folder_key name') p); [discriminate|auto].
  - rewrite lookup_entry_effect.
    rewrite bool_decide_eq_false_2, file_key_not_covered by exact Hfk.
    exact Hf.
Qed.
End Entries.

(** ** The driver *)

Section Driver.
Implicit Types (fs : gmap (list string) Py.node) (w : world)
  (items : list (string * gmap string Py.pyval)).

Lemma colors_good : forallb good_entry colors = true.
Proof. vm_compute. reflexivity. Qed.

Lemma colors_names_NoDup : NoDup (colors.*1).
Proof. apply (bool_decide_unpack _). vm_compute. exact I. Qed.

Lemma good_entry_inv name color_def :
  good_entry (name, color_def) = true ->
  Py.components (folder_path name) = folder_key name
  /\ Py.components (contents_path name) = file_key name
  /\ exists c, contents color_def = Ok c
               /\ bytes color_def = Py.dumps_indent2 c.
Proof.
  unfold good_entry, paths_as_keys. cbn [fst snd].
  intros [[H1 H2]%andb_prop Hv]%andb_prop.
  apply bool_decide_eq_true in H1, H2.
  destruct (variants_valid color_def Hv) as [vs Hvs].
  split; [exact H1|]. split; [exact H2|].
  unfold bytes, contents. rewrite Hvs. cbn [bind]. eauto.
Qed.

Lemma create_color_set_spec name color_def w w' :
  good_entry (name, color_def) = true ->
  create_color_set name color_def w = Ok w'
  <-> entry_can_run name (disk w)
      /\ w' = World (table w)
                (entry_effect name (bytes color_def) (disk w)) (console w).
Proof.
  intros (Hf & Hc & c & Hcont & Hb)%good_entry_inv.
  unfold create_color_set, Py.makedirs, Py.write_file.
  rewrite Hf, Hc, Hcont, Hb.
  pose proof (entry_step_spec name (Py.dumps_indent2 c) (disk w)) as Hs.
  split.
  - intros (d1 & Hm & H)%bind_Ok. cbn [bind] in H.
    apply bind_Ok in H as (d2 & Hw & [= <-]).
    assert (Hd2 : entry_step name (Py.dumps_indent2 c) (disk w) = Ok d2)
      by (unfold entry_step; rewrite Hm; exact Hw).
    apply Hs in Hd2 as [Hrun ->]. auto.
  - intros [Hrun ->].
    pose proof (proj2 (Hs _) (conj Hrun eq_refl)) as Hstep.
    unfold entry_step in Hstep. apply bind_Ok in Hstep as (d1 & Hm & Hw).
    rewrite Hm. cbn [bind]. rewrite Hw. reflexivity.
Qed.

Lemma final_disk_snoc items entry fs :
  final_disk (items ++ [entry]) fs
  = entry_effect entry.1 (bytes entry.2) (final_disk items fs).
Proof. unfold final_disk. now rewrite foldl_app. Qed.

(** What a key holds once the entries have run: the file of an entry, a
    directory on the way to a folder, or what it held before. *)
Lemma lookup_final_disk items fs p :
  (exists entry, entry ∈ items /\ p = file_key entry.1
     /\ final_disk items fs !! p = Some (Py.File (bytes entry.2)))
  \/ ((forall entry, entry ∈ items -> p <> file_key entry.1)
      /\ (exists entry, entry ∈ items /\ covered [] (folder_key entry.1) p = true)
      /\ final_disk items fs !! p = Some Py.Dir)
  \/ ((forall entry, entry ∈ items ->
         p <> file_key entry.1 /\ covered [] (folder_key entry.1) p = false)
      /\ final_disk items fs !! p = fs !! p).
Proof.
  induction items as [|entry items IH] using rev_ind.
  - right. right. split; [intros ? []%elem_of_nil | reflexivity].
  - rewrite final_disk_snoc, lookup_entry_effect.
    case_bool_decide as Hp.
    { left. exists entry. rewrite elem_of_app, list_elem_of_singleton. auto. }
    destruct (covered [] (folder_key entry.1) p) eqn:Hc.
    + destruct IH as [(e & He & Hpe & _) | [(Hnf & _) | (Hnone & _)]].
      * subst p. now rewrite file_key_not_covered in Hc.
      * right. left. split; [|split; [|reflexivity]].
        -- intros e [He| ->%list_elem_of_singleton]%elem_of_app; auto.
        -- exists entry. rewrite elem_of_app, list_elem_of_singleton. auto.
      * right. left. split; [|split; [|reflexivity]].
        -- intros e [He| ->%list_elem_of_singleton]%elem_of_app;
             [apply Hnone, He | exact Hp].
        -- exists entry. rewrite elem_of_app, list_elem_of_singleton. auto.
    + destruct IH as [(e & He & Hpe & Hl) | [(Hnf & (e & He & Hce) & Hl) | (Hnone & Hl)]].
      * left. exists e. rewrite elem_of_app. auto.
      * right. left. split; [|split; [|exact Hl]].
        -- intros e' [He'| ->%list_elem_of_singleton]%elem_of_app; auto.
        -- exists e. rewrite elem_of_app. auto.
      * right. right. split; [|exact Hl].
        intros e [He| ->%list_elem_of_singleton]%elem_of_app; auto.
Qed.

Lemma NoDup_names_eq items name d d' :
  NoDup (items.*1) -> (name, d) ∈ items -> (name, d') ∈ items -> d = d'.
Proof.
  induction items as [|[n x] items IH]; cbn [fmap list_fmap fst];
    intros Hnd H1 H2.
  - now apply elem_of_nil in H1.
  - apply NoDup_cons in Hnd as [Hn Hnd].
    apply elem_of_cons in H1 as [H1|H1]; apply elem_of_cons in H2 as [H2|H2].
    + congruence.
    + injection H1 as <- <-. exfalso. apply Hn. apply list_elem_of_fmap.
      exists (name, d'). split; [reflexivity|exact H2].
    + injection H2 as <- <-. exfalso. apply Hn. apply list_elem_of_fmap.
      exists (name, d). split; [reflexivity|exact H1].
    + auto.
Qed.

Lemma final_disk_file items fs name color_def :
  NoDup (items.*1) -> (name, color_def) ∈ items ->
  final_disk items fs !! file_key name = Some (Py.File (bytes color_def)).
Proof.
  intros Hnd Hin.
  destruct (lookup_final_disk items fs (file_key name))
    as [([n d] & He & Hpe & Hl) | [(Hnf & _) | (Hnone & _)]].
  - cbn [fst snd] in *. apply file_key_inj in Hpe as <-.
    now rewrite (NoDup_names_eq items name color_def d Hnd Hin He).
  - now destruct (Hnf _ Hin).
  - now destruct (Hnone _ Hin) as [[] _].
Qed.

Lemma final_disk_folder items fs name color_def :
  (name, color_def) ∈ items ->
  final_disk items fs !! folder_key name = Some Py.Dir.
Proof.
  intros Hin.
  destruct (lookup_final_disk items fs (folder_key name))
    as [(e & He & Hpe & Hl) | [(_ & _ & Hl) | (Hnone & _)]].
  - apply (f_equal length) in Hpe.
    rewrite folder_key_length, file_key_length in Hpe. lia.
  - exact Hl.
  - destruct (Hnone _ Hin) as [_ Hc]. cbn [fst] in Hc.
    now rewrite folder_key_covered in Hc.
Qed.

(** After the entries have run, each of them can run again. *)
Lemma final_disk_can_run items fs entry :
  entry ∈ items -> entry_can_run entry.1 (final_disk items fs).
Proof.
  intros Hin. split.
  - intros p x Hp Hx.
    destruct (lookup_final_disk items fs p)
      as [(e & He & Hpe & Hl) | [(_ & _ & Hl) | (Hnone & _)]].
    + subst p. now rewrite file_key_not_covered in Hp.
    + congruence.
    + destruct (Hnone _ Hin) as [_ Hc]. congruence.
  - intros Hd.
    destruct (lookup_final_disk items fs (file_key entry.1))
      as [(e & He & Hpe & Hl) | [(Hnf & _) | (Hnone & _)]].
    + congruence.
    + now destruct (Hnf _ Hin).
    + now destruct (Hnone _ Hin) as [[] _].
Qed.

(** Running the entries over their own result changes nothing. *)
Lemma final_disk_idem items fs :
  NoDup (items.*1) ->
  final_disk items (final_disk items fs) = final_disk items fs.
Proof.
  intros Hnd. apply map_eq. intros p.
  destruct (lookup_final_disk items (final_disk items fs) p)
    as [([n d] & He & Hpe & Hl) | [(Hnf & (e & He & Hce) & Hl) | (_ & Hl)]].
  - rewrite Hl. subst p. symmetry. now apply final_disk_file.
  - rewrite Hl.
    destruct (lookup_final_disk items fs p)
      as [(e' & He' & Hpe' & _) | [(_ & _ & Hl') | (Hnone & _)]].
    + now destruct (Hnf _ He').
    + now rewrite Hl'.
    + destruct (Hnone _ He) as [_ Hc]. congruence.
  - exact Hl.
Qed.

Lemma final_disk_perm items1 items2 :
  items1 ≡ₚ items2 -> NoDup (items1.*1) ->
  forall fs, final_disk items1 fs = final_disk items2 fs.
Proof.
  induction 1 as [|x l l' Hp IH|x y l|l l' l'' Hp1 IH1 Hp2 IH2]; intros Hnd fs.
  - reflexivity.
  - cbn in Hnd. apply NoDup_cons in Hnd as [_ Hnd]. apply (IH Hnd).
  - cbn in Hnd. apply NoDup_cons in Hnd as [Hy _].
    unfold final_disk. cbn [foldl]. f_equal.
    apply entry_effect_comm. intros Heq. apply Hy. rewrite Heq. left.
  - rewrite IH1 by exact Hnd. apply IH2. now rewrite <- Hp1.
Qed.
End Driver.

Section Runs.
Implicit Types (fs : gmap (list string) Py.node) (w : world)
  (items : list (string * gmap string Py.pyval)).

Lemma In_colors_good (entry : string * gmap string Py.pyval) :
  entry ∈ colors -> good_entry entry = true.
Proof.
  intros Hin%list_elem_of_In. pose proof colors_good as H.
  rewrite forallb_forall in H. exact (H _ Hin).
Qed.

(** The loop over good entries with distinct names: it succeeds exactly
    when each entry can run on the initial disk, and then leaves the
    entries' effects on the disk and one line per entry on the console. *)
Lemma run_items_spec items w w' :
  (forall entry, entry ∈ items -> good_entry entry = true) ->
  NoDup (items.*1) ->
  run_items items w = Ok w'
  <-> (forall entry, entry ∈ items -> entry_can_run entry.1 (disk w))
      /\ w' = World (table w) (final_disk items (disk w))
                (console w ++ ((fun entry => line entry.1) <$> items)).
Proof.
  revert w. induction items as [|[name color_def] items IH]; intros w Hgood Hnd.
  - cbn [run_items final_disk foldl fmap list_fmap]. rewrite app_nil_r.
    destruct w as [t d c]. cbn [table disk console]. split.
    + intros [= <-]. split; [intros ? []%elem_of_nil|reflexivity].
    + now intros [_ ->].
  - cbn [fmap list_fmap fst] in Hnd. apply NoDup_cons in Hnd as [Hname Hnd].
    assert (Hg : good_entry (name, color_def) = true) by (apply Hgood; left).
    assert (Hgood' : forall entry, entry ∈ items -> good_entry entry = true)
      by (intros; apply Hgood; now right).
    assert (Hne : forall entry, entry ∈ items -> entry.1 <> name).
    { intros entry Hin <-. apply Hname, list_elem_of_fmap. eauto. }
    cbn [run_items]. fold (line name).
    split.
    + intros (w1 & [Hrun ->]%(create_color_set_spec _ _ _ _ Hg) & Hrest)%bind_Ok.
      apply (IH _ Hgood' Hnd) in Hrest as [Hall ->].
      cbn [print table disk console] in *. split.
      * intros entry [->|Hin]%elem_of_cons; [exact Hrun|].
        eapply entry_can_run_after; [apply Hne, Hin|exact Hrun|apply Hall, Hin].
      * cbn [fmap list_fmap final_disk foldl fst snd]. now rewrite <- app_assoc.
    + intros [Hall ->].
      assert (Hrun : entry_can_run name (disk w)) by (apply (Hall (name, color_def)); left).
      rewrite (proj2 (create_color_set_spec name color_def w _ Hg) (conj Hrun eq_refl)).
      cbn [bind]. apply (IH _ Hgood' Hnd). cbn [print table disk console]. split.
      * intros entry Hin.
        apply (entry_can_run_after _ name); [apply Hne, Hin|exact Hrun|].
        apply Hall. now right.
      * cbn [fmap list_fmap final_disk foldl fst snd]. now rewrite <- app_assoc.
Qed.

Lemma perm_colors_good items :
  items ≡ₚ colors -> forall entry, entry ∈ items -> good_entry entry = true.
Proof. intros Hp entry Hin. apply In_colors_good. now rewrite <- Hp. Qed.

Lemma perm_colors_NoDup items : items ≡ₚ colors -> NoDup (items.*1).
Proof. intros ->. exact colors_names_NoDup. Qed.

(** Reading the outputs of a good entry goes through its keys. *)
Lemma read_file_entry name color_def fs :
  good_entry (name, color_def) = true ->
  Py.read_file (contents_path name) fs
  = match fs !! file_key name with
    | Some (Py.File content) => Some content
    | _ => None
    end.
Proof.
  intros (_ & Hc & _)%good_entry_inv. unfold Py.read_file, Py.lookup_node.
  rewrite Hc. unfold file_key. now destruct (folder_key name).
Qed.

Lemma isdir_entry name color_def fs :
  good_entry (name, color_def) = true ->
  Py.isdir (folder_path name) fs
  = match fs !! folder_key name with
    | Some Py.Dir => true
    | _ => false
    end.
Proof.
  intros (Hf & _ & _)%good_entry_inv. unfold Py.isdir, Py.lookup_node.
  rewrite Hf. pose proof (folder_key_nonempty name).
  now destruct (folder_key name).
Qed.

Lemma create_color_set_table name color_def w w' :
  create_color_set name color_def w = Ok w' ->
  table w' = table w /\ console w' = console w.
Proof.
  unfold create_color_set.
  intros (d1 & _ & (c & _ & (d2 & _ & [= <-])%bind_Ok)%bind_Ok)%bind_Ok.
  split; reflexivity.
Qed.

Lemma run_items_table items w w' :
  run_items items w = Ok w' -> table w' = table w.
Proof.
  revert w. induction items as [|[name color_def] items IH]; intros w;
    cbn [run_items].
  - now intros [= <-].
  - intros (w1 & [Ht _]%create_color_set_table & Hrest%IH)%bind_Ok.
    now rewrite Hrest.
Qed.
Lemma main_table fs0 w : main fs0 = Ok w -> table w = colors.
Proof.
  unfold main, run. cbn [table]. intros H%run_items_table.
  cbn [table] in H. exact H.
Qed.
End Runs.

(** ** The generator as a whole *)

(** C8. Two runs over the table in any two orders succeed together, leave
    the same disk (the same directories and, for every entry, the same
    [Contents.json] bytes) and the same table; their consoles hold the same
    lines, each in the order of its run. *)
Theorem order_independent
    (items1 items2 : list (string * gmap string Py.pyval)) (w w1 : world) :
  items1 ≡ₚ colors ->
  items2 ≡ₚ colors ->
  run_items items1 w = Ok w1 ->
  exists w2,
    run_items items2 w = Ok w2
    /\ disk w2 = disk w1
    /\ table w2 = table w1
    /\ console w1 = console w ++ ((fun entry => line entry.1) <$> items1)
    /\ console w2 = console w ++ ((fun entry => line entry.1) <$> items2)
    /\ (forall name color_def, (name, color_def) ∈ colors ->
          Py.isdir (folder_path name) (disk w1) = true
          /\ Py.read_file (contents_path name) (disk w1) = Some (bytes color_def)).
Proof.
  intros Hp1 Hp2 Hrun.
  assert (Hp : items1 ≡ₚ items2) by now rewrite Hp1, Hp2.
  apply (run_items_spec _ _ _ (perm_colors_good _ Hp1) (perm_colors_NoDup _ Hp1))
    in Hrun as [Hall ->].
  exists (World (table w) (final_disk items2 (disk w))
            (console w ++ ((fun entry => line entry.1) <$> items2))).
  split; [|split; [|split; [|split; [|split]]]]; cbn [table disk console];
    try reflexivity.
  - apply (run_items_spec _ _ _ (perm_colors_good _ Hp2) (perm_colors_NoDup _ Hp2)).
    split; [|reflexivity]. intros entry Hin. apply Hall. now rewrite Hp.
  - symmetry. apply final_disk_perm; [exact Hp|exact (perm_colors_NoDup _ Hp1)].
  - intros name color_def Hin.
    assert (Hin1 : (name, color_def) ∈ items1) by now rewrite Hp1.
    rewrite (isdir_entry name color_def) by now apply In_colors_good.
    rewrite (read_file_entry name color_def) by now apply In_colors_good.
    rewrite (final_disk_folder _ _ _ _ Hin1).
    rewrite (final_disk_file _ _ _ _ (perm_colors_NoDup _ Hp1) Hin1). auto.
Qed.

(** C3. When a run of the generator has succeeded, a second run against
    the disk it left succeeds too and leaves the same disk: for every entry
    of the table, [Contents.json] holds the same bytes after both runs. *)
Theorem rerun_same_bytes (fs0 : gmap (list string) Py.node) (w1 : world) :
  main fs0 = Ok w1 ->
  exists w2,
    main (disk w1) = Ok w2
    /\ disk w2 = disk w1
    /\ Forall (fun entry =>
                 Py.read_file (contents_path entry.1) (disk w1) = Some (bytes entry.2)
                 /\ Py.read_file (contents_path entry.1) (disk w2) = Some (bytes entry.2))
         colors.
Proof.
  unfold main, run. cbn [table].
  intros [Hall ->]%(run_items_spec _ _ _ In_colors_good colors_names_NoDup).
  cbn [table disk console] in *.
  set (d1 := final_disk colors fs0).
  exists (World colors d1 ((fun entry => line entry.1) <$> colors)).
  assert (Hidem : final_disk colors d1 = d1)
    by apply final_disk_idem, colors_names_NoDup.
  split; [|split]; cbn [disk].
  - apply (run_items_spec _ _ _ In_colors_good colors_names_NoDup).
    cbn [table disk console]. split.
    + intros entry Hin. now apply final_disk_can_run.
    + now rewrite Hidem.
  - reflexivity.
  - apply List.Forall_forall. intros [name color_def] Hin%list_elem_of_In.
    cbn [fst snd].
    rewrite (read_file_entry name color_def) by now apply In_colors_good.
    unfold d1. rewrite (final_disk_file _ _ _ _ colors_names_NoDup Hin). auto.
Qed.

(** The bytes written for each entry of the table, read back: they are
    the descriptor of the entry, and it has two variants. *)
Lemma colors_bytes_hold_two_variants :
  forallb bytes_hold_two_variants colors = true.
Proof. vm_compute. reflexivity. Qed.

Lemma colors_bytes_read_back :
  (fun entry : string * gmap string Py.pyval => json_loads (bytes entry.2))
    <$> colors
  = (fun entry : string * gmap string Py.pyval =>
       match contents entry.2 with Ok c => Some c | Raise _ => None end)
    <$> colors.
Proof. vm_compute. reflexivity. Qed.

Example json_loads_object :
  json_loads ("{" +:+ Py.quote +:+ "colors" +:+ Py.quote +:+ ": [1, -20, [], {}]} ")
  = Some (Py.JDict [("colors",
                      Py.JList [Py.JInt 1; Py.JInt (-20); Py.JList []; Py.JDict []])]).
Proof. vm_compute. reflexivity. Qed.

Example json_loads_escapes :
  json_loads (Py.quote +:+ "a\u0041\n" +:+ Py.quote) = Some (Py.JStr ("aA" +:+ nl)).
Proof. vm_compute. reflexivity. Qed.

Example json_loads_truncated : json_loads "[1, 2" = None.
Proof. vm_compute. reflexivity. Qed.

Example json_loads_empty : json_loads "" = None.
Proof. vm_compute. reflexivity. Qed.

Lemma fmap_eq_elem {A B} (f g : A -> B) (l : list A) (x : A) :
  f <$> l = g <$> l -> x ∈ l -> f x = g x.
Proof.
  induction l as [|y l IH]; cbn [fmap list_fmap]; intros Heq Hin.
  - now apply elem_of_nil in Hin.
  - injection Heq as Hy Hl. apply elem_of_cons in Hin as [->|Hin]; auto.
Qed.

(** C7. After a successful run, each entry [name] of the table has its
    directory [<name>.colorset] directly under the root, different from the
    directory of every other entry.  The directory holds [Contents.json];
    the bytes of that file are those written for the entry, and read back
    as JSON they are the descriptor of the entry, an object whose
    ["colors"] list has exactly two members.  The run has put nothing else there and removed nothing: any
    other name in the directory holds what it held before the run.  So the
    directory holds exactly that one file when it was absent or empty
    before the run, and not otherwise. *)
Theorem one_folder_one_file (fs0 : gmap (list string) Py.node) (w : world) :
  main fs0 = Ok w ->
  Forall (fun entry =>
            let dir := Py.components (folder_path entry.1) in
            dir = root ++ [entry.1 +:+ ".colorset"]
            /\ Py.isdir (folder_path entry.1) (disk w) = true
            /\ (forall other, other ∈ colors -> other.1 <> entry.1 ->
                  Py.components (folder_path other.1) <> dir)
            /\ (exists b c vs,
                  Py.read_file (contents_path entry.1) (disk w) = Some b
                  /\ b = bytes entry.2
                  /\ json_loads b = Some c
                  /\ contents entry.2 = Ok c
                  /\ variant_list c = Some vs
                  /\ length vs = 2%nat
                  /\ forall x,
                       disk w !! (dir ++ [x])
                       = if bool_decide (x = "Contents.json")
                         then Some (Py.File b)
                         else fs0 !! (dir ++ [x]))
            /\ ((forall x, fs0 !! (dir ++ [x]) = None) ->
                forall x, is_Some (disk w !! (dir ++ [x])) <-> x = "Contents.json"))
    colors.
Proof.
  unfold main, run. cbn [table].
  intros [Hall ->]%(run_items_spec _ _ _ In_colors_good colors_names_NoDup).
  cbn [table disk console] in *.
  apply List.Forall_forall. intros [name color_def] Hin0.
  pose proof Hin0 as Hin%list_elem_of_In.
  cbn [fst snd]. cbv zeta.
  pose proof (In_colors_good _ Hin) as Hg.
  destruct (good_entry_inv _ _ Hg) as (Hf & Hc & _).
  rewrite Hf.
  assert (Hchild : forall x,
    final_disk colors fs0 !! (folder_key name ++ [x])
    = if bool_decide (x = "Contents.json")
      then Some (Py.File (bytes color_def))
      else fs0 !! (folder_key name ++ [x])).
  { intros x. case_bool_decide as Hx.
    - subst x. change (folder_key name ++ ["Contents.json"]) with (file_key name).
      now rewrite (final_disk_file _ _ _ _ colors_names_NoDup Hin).
    - destruct (lookup_final_disk colors fs0 (folder_key name ++ [x]))
        as [(e & He & Hpe & _) | [(_ & (e & He & Hce) & _) | (_ & Hl)]].
      + unfold file_key in Hpe. apply app_inj_tail in Hpe as [_ Hpe]. congruence.
      + apply covered_length in Hce.
        rewrite length_app, !folder_key_length in Hce. cbn in Hce. lia.
      + exact Hl. }
  split; [reflexivity|]. split; [|split; [|split]].
  - rewrite (isdir_entry name color_def) by exact Hg.
    now rewrite (final_disk_folder _ _ _ _ Hin).
  - intros [name' def'] Hin' Hne. cbn [fst] in *.
    destruct (good_entry_inv _ _ (In_colors_good _ Hin')) as (Hf' & _).
    rewrite Hf'. intros Heq. apply Hne. now apply folder_key_inj.
  - pose proof colors_bytes_hold_two_variants as Hb.
    rewrite forallb_forall in Hb. specialize (Hb _ Hin0).
    unfold bytes_hold_two_variants in Hb. cbn [snd] in Hb.
    destruct (json_loads (bytes color_def)) as [c|] eqn:Ec; [|discriminate Hb].
    destruct (variant_list c) as [vs|] eqn:Ev; [|discriminate Hb].
    apply Nat.eqb_eq in Hb.
    pose proof (fmap_eq_elem _ _ _ _ colors_bytes_read_back Hin) as Hrb.
    cbn [snd] in Hrb. rewrite Ec in Hrb.
    destruct (contents color_def) as [c'|] eqn:Econt; [|discriminate Hrb].
    injection Hrb as <-.
    exists (bytes color_def), c, vs.
    split; [|split; [reflexivity|split; [exact Ec|split; [reflexivity|split;
      [exact Ev|split; [exact Hb|exact Hchild]]]]]].
    rewrite (read_file_entry name color_def) by exact Hg.
    now rewrite (final_disk_file _ _ _ _ colors_names_NoDup Hin).
  - intros Hfresh x. rewrite Hchild, Hfresh.
    case_bool_decide as Hx; split; intros H; try done.
Qed.

(** C10. An entry leaves the table and its own definition as they were:
    [create_color_set] returns the same for two definitions that agree on
    [light], [dark], [light_alpha] and [dark_alpha]; what it changes is the
    disk, by the directory creation and the write, and the loop then adds the
    console line; after a whole run the table is the literal table. *)
Theorem table_untouched :
  (forall name (color_def color_def' : gmap string Py.pyval) w,
     color_def' !! "light" = color_def !! "light" ->
     color_def' !! "dark" = color_def !! "dark" ->
     color_def' !! "light_alpha" = color_def !! "light_alpha" ->
     color_def' !! "dark_alpha" = color_def !! "dark_alpha" ->
     create_color_set name color_def' w = create_color_set name color_def w)
  /\ (forall name color_def w w',
        create_color_set name color_def w = Ok w' ->
        table w' = table w
        /\ console (print (line name) w') = console w ++ [line name]
        /\ table (print (line name) w') = table w
        /\ exists d1 c,
             Py.makedirs (folder_path name) (disk w) = Ok d1
             /\ contents color_def = Ok c
             /\ Py.write_file (contents_path name) (Py.dumps_indent2 c) d1
                = Ok (disk (print (line name) w')))
  /\ (forall fs0 w, main fs0 = Ok w -> table w = colors).
Proof.
  split; [|split].
  - intros name color_def color_def' w Hl Hd Hla Hda.
    unfold create_color_set, contents, variants, Py.getitem, Py.get.
    now rewrite Hl, Hd, Hla, Hda.
  - intros name color_def w w' H.
    destruct (create_color_set_table _ _ _ _ H) as [Ht Hc].
    cbn [print table console disk]. rewrite Ht, Hc.
    split; [reflexivity|]. split; [reflexivity|]. split; [reflexivity|].
    unfold create_color_set in H.
    apply bind_Ok in H as (d1 & Hm & H). apply bind_Ok in H as (c & Hcont & H).
    apply bind_Ok in H as (d2 & Hw & [= <-]). cbn [disk]. eauto.
  - exact main_table.
Qed.

(** A run from an empty disk succeeds. *)
Lemma main_empty : main ∅ = Ok world_from_empty.
Proof.
  unfold main, run. cbn [table].
  apply (run_items_spec _ _ _ In_colors_good colors_names_NoDup).
  cbn [table disk console app]. split; [|reflexivity].
  intros entry _. split.
  - intros p x _. now rewrite lookup_empty.
  - now rewrite lookup_empty.
Qed.

Lemma rerun_same_bytes_witness :
  exists w2,
    main (disk world_from_empty) = Ok w2
    /\ disk w2 = disk world_from_empty
    /\ Forall (fun entry =>
                 Py.read_file (contents_path entry.1) (disk world_from_empty)
                 = Some (bytes entry.2)
                 /\ Py.read_file (contents_path entry.1) (disk w2)
                    = Some (bytes entry.2))
         colors.
Proof. exact (rerun_same_bytes ∅ world_from_empty main_empty). Defined.

Lemma run_items_empty : run_items colors (World colors ∅ []) = Ok world_from_empty.
Proof.
  apply (run_items_spec _ _ _ In_colors_good colors_names_NoDup).
  cbn [table disk console app]. split; [|reflexivity].
  intros entry _. split.
  - intros p x _. now rewrite lookup_empty.
  - now rewrite lookup_empty.
Qed.

Lemma one_folder_one_file_witness :
  Forall (fun entry =>
            let dir := Py.components (folder_path entry.1) in
            dir = root ++ [entry.1 +:+ ".colorset"]
            /\ Py.isdir (folder_path entry.1) (disk world_from_empty) = true
            /\ (forall other, other ∈ colors -> other.1 <> entry.1 ->
                  Py.components (folder_path other.1) <> dir)
            /\ (exists b c vs,
                  Py.read_file (contents_path entry.1) (disk world_from_empty)
                  = Some b
                  /\ b = bytes entry.2
                  /\ json_loads b = Some c
                  /\ contents entry.2 = Ok c
                  /\ variant_list c = Some vs
                  /\ length vs = 2%nat
                  /\ forall x,
                       disk world_from_empty !! (dir ++ [x])
                       = if bool_decide (x = "Contents.json")
                         then Some (Py.File b)
                         else (∅ : gmap (list string) Py.node) !! (dir ++ [x]))
            /\ ((forall x, (∅ : gmap (list string) Py.node) !! (dir ++ [x]) = None) ->
                forall x, is_Some (disk world_from_empty !! (dir ++ [x]))
                          <-> x = "Contents.json"))
    colors.
Proof. exact (one_folder_one_file ∅ world_from_empty main_empty). Defined.

Lemma order_independent_witness :
  exists w2,
    run_items (reverse colors) (World colors ∅ []) = Ok w2
    /\ disk w2 = disk world_from_empty
    /\ table w2 = table world_from_empty
    /\ console world_from_empty
       = console (World colors ∅ []) ++ ((fun entry => line entry.1) <$> colors)
    /\ console w2
       = console (World colors ∅ [])
         ++ ((fun entry => line entry.1) <$> reverse colors)
    /\ (forall name color_def, (name, color_def) ∈ colors ->
          Py.isdir (folder_path name) (disk world_from_empty) = true
          /\ Py.read_file (contents_path name) (disk world_from_empty)
             = Some (bytes color_def)).
Proof.
  exact (order_independent colors (reverse colors) (World colors ∅ [])
           world_from_empty (reflexivity colors) (reverse_Permutation colors)
           run_items_empty).
Defined.

(** * Further properties *)

(** ** [hex_to_rgb] beyond the table *)

(** A property of every string of at most two characters, from a check of
    the one- and two-character strings. *)
Lemma short_strings_ind (P : string -> bool) :
  P "" = true ->
  forallb (fun c => P (String c "")) all_ascii = true ->
  forallb (fun c1 => forallb (fun c2 => P (String c1 (String c2 ""))) all_ascii)
    all_ascii = true ->
  forall g, (String.length g <= 2)%nat -> P g = true.
Proof.
  intros H0 H1 H2 g Hlen.
  destruct g as [|c1 [|c2 [|c3 g]]].
  - exact H0.
  - rewrite forallb_forall in H1. apply H1, In_all_ascii.
  - rewrite forallb_forall in H2. specialize (H2 c1 (In_all_ascii c1)).
    rewrite forallb_forall in H2. apply H2, In_all_ascii.
  - cbn in Hlen. lia.
Qed.

Lemma hex_to_rgb_hash (s : string) : hex_to_rgb (String "#" s) = hex_to_rgb s.
Proof. now rewrite hex_to_rgb_lstrip, lstrip_hash_cons, <- hex_to_rgb_lstrip. Qed.

(** X1. Any number of leading [#] is ignored, not only one. *)
Theorem hex_to_rgb_any_hashes (n : nat) (s : string) :
  hex_to_rgb (with_hashes n s) = hex_to_rgb s.
Proof.
  induction n as [|n IH]; cbn [with_hashes]; [reflexivity|].
  now rewrite hex_to_rgb_hash.
Qed.

Lemma upper_char_hash (c : ascii) :
  Ascii.eqb (upper_char c) "#" = Ascii.eqb c "#".
Proof. destruct c as [[] [] [] [] [] [] [] []]; reflexivity. Qed.

Lemma lstrip_upper (s : string) :
  Py.lstrip "#" (upper s) = upper (Py.lstrip "#" s).
Proof.
  induction s as [|c r IH]; [reflexivity|].
  cbn [upper Py.lstrip]. rewrite upper_char_hash.
  destruct (Ascii.eqb c "#"); [exact IH|reflexivity].
Qed.

Lemma substring_upper (i n : nat) (s : string) :
  substring i n (upper s) = upper (substring i n s).
Proof.
  revert i n. induction s as [|c r IH]; intros [|i] [|n]; cbn [upper substring];
    try reflexivity.
  - now rewrite IH.
  - apply IH.
  - apply IH.
Qed.

Lemma int16_upper (g : string) :
  (String.length g <= 2)%nat -> Py.int16 (upper g) = Py.int16 g.
Proof.
  intros Hlen.
  apply (bool_decide_eq_true_1 (Py.int16 (upper g) = Py.int16 g)).
  apply (short_strings_ind int16_ignores_case); [vm_compute; reflexivity..|exact Hlen].
Qed.

(** X2. The parser does not see the case of the ASCII letters: a string
    and the string with each of its letters [a]-[z] replaced by [A]-[Z],
    every other character kept, give the same result, triple or failure. *)
Theorem hex_to_rgb_upper (s : string) : hex_to_rgb (upper s) = hex_to_rgb s.
Proof.
  unfold hex_to_rgb, parse_channel, Py.slice.
  rewrite lstrip_upper, !substring_upper, !int16_upper by apply substring_length_le.
  reflexivity.
Qed.

Lemma substring_beyond (i n : nat) (s : string) :
  (String.length s <= i)%nat -> substring i n s = "".
Proof.
  revert i n. induction s as [|c r IH]; intros [|i] [|n] H; cbn in *;
    try reflexivity; try lia.
  - apply IH. lia.
  - apply IH. lia.
Qed.

Lemma parse_channel_error (g : string) (e : exn) :
  parse_channel g = Raise e -> e = ValueError.
Proof. unfold parse_channel. destruct (Py.int16 g); [discriminate|now intros [= <-]]. Qed.

(** X3. An input with fewer than five characters after its leading [#]s,
    the empty string included, has no third channel to read: the parser
    fails with [ValueError]. *)
Theorem hex_to_rgb_short (s : string) :
  (String.length (Py.lstrip "#" s) <= 4)%nat ->
  hex_to_rgb s = Raise ValueError.
Proof.
  intros Hlen. unfold hex_to_rgb. set (t := Py.lstrip "#" s) in *.
  assert (H4 : parse_channel (Py.slice 4 2 t) = Raise ValueError).
  { unfold Py.slice. now rewrite substring_beyond. }
  destruct (parse_channel (Py.slice 0 2 t)) as [r|e] eqn:E0; cbn [bind];
    [|now apply parse_channel_error in E0 as ->].
  destruct (parse_channel (Py.slice 2 2 t)) as [g|e] eqn:E2; cbn [bind];
    [|now apply parse_channel_error in E2 as ->].
  now rewrite H4.
Qed.

Lemma hex_to_rgb_short_witness : hex_to_rgb "#ABCD" = Raise ValueError.
Proof. apply (hex_to_rgb_short "#ABCD"). cbn. lia. Defined.

Lemma parse_channel_range (i : nat) (t : string) (v : Z) :
  parse_channel (Py.slice i 2 t) = Ok v -> -15 <= v <= 255.
Proof.
  unfold parse_channel, Py.slice. intros H.
  pose proof (short_strings_ind int16_in_range) as Hr.
  specialize (Hr ltac:(vm_compute; reflexivity) ltac:(vm_compute; reflexivity)
                 ltac:(vm_compute; reflexivity)
                 (substring i 2 t) (substring_length_le i 2 t)).
  unfold int16_in_range in Hr.
  destruct (Py.int16 (substring i 2 t)) as [x|]; [|discriminate H].
  injection H as <-. lia.
Qed.

(** X4. A triple the parser returns need not be made of bytes, since a
    slice may carry a sign, but every channel lies between -15 and 255. *)
Theorem hex_to_rgb_range (s : string) (r g b : Z) :
  hex_to_rgb s = Ok (r, g, b) ->
  -15 <= r <= 255 /\ -15 <= g <= 255 /\ -15 <= b <= 255.
Proof.
  unfold hex_to_rgb. intros H.
  apply bind_Ok in H as (r' & Hr & H). apply bind_Ok in H as (g' & Hg & H).
  apply bind_Ok in H as (b' & Hb & H). injection H as <- <- <-.
  split; [|split]; eapply parse_channel_range; eassumption.
Qed.

Lemma hex_to_rgb_range_witness :
  -15 <= -15 <= 255 /\ -15 <= 10 <= 255 /\ -15 <= 255 <= 255.
Proof. apply (hex_to_rgb_range "#-f aFF" (-15) 10 255). reflexivity. Defined.

Lemma byte_prints_and_parses_all :
  forallb (fun n => byte_prints_and_parses (Z.of_nat n)) (seq 0 256) = true.
Proof. vm_compute. reflexivity. Qed.

Lemma format_02X_byte (v : Z) :
  0 <= v <= 255 ->
  exists c1 c2,
    Py.format_02X v = String c1 (String c2 "")
    /\ Ascii.eqb c1 "#" = false
    /\ Py.int16 (String c1 (String c2 "")) = Some v.
Proof.
  intros Hv. pose proof byte_prints_and_parses_all as H.
  rewrite forallb_forall in H. specialize (H (Z.to_nat v)).
  rewrite Z2Nat.id in H by lia.
  assert (Hin : In (Z.to_nat v) (seq 0 256)) by (apply in_seq; lia).
  specialize (H Hin). unfold byte_prints_and_parses in H.
  destruct (Py.format_02X v) as [|c1 [|c2 [|]]]; try discriminate H.
  apply andb_prop in H as [H1 H2]. apply negb_true_iff in H1.
  apply bool_decide_eq_true_1 in H2. eauto.
Qed.

(** X5. Printing then parsing is the identity on bytes: the three channels
    printed as two hexadecimal digits each, after a [#], parse back to the
    same triple. *)
Theorem hex_to_rgb_of_formatted (r g b : Z) :
  0 <= r <= 255 -> 0 <= g <= 255 -> 0 <= b <= 255 ->
  hex_to_rgb (String "#" (Py.format_02X r +:+ Py.format_02X g +:+ Py.format_02X b))
  = Ok (r, g, b).
Proof.
  intros Hr Hg Hb.
  destruct (format_02X_byte r Hr) as (r1 & r2 & -> & Hh & Pr).
  destruct (format_02X_byte g Hg) as (g1 & g2 & -> & _ & Pg).
  destruct (format_02X_byte b Hb) as (b1 & b2 & -> & _ & Pb).
  rewrite hex_to_rgb_hash. unfold hex_to_rgb, parse_channel, Py.slice.
  change (String r1 (String r2 "") +:+ String g1 (String g2 "")
          +:+ String b1 (String b2 ""))
    with (String r1 (String r2 (String g1 (String g2 (String b1 (String b2 "")))))).
  cbn [Py.lstrip]. rewrite Hh. cbn [substring].
  rewrite Pr. cbn [bind]. rewrite Pg. cbn [bind]. rewrite Pb. reflexivity.
Qed.

Lemma hex_to_rgb_of_formatted_witness :
  hex_to_rgb (String "#" (Py.format_02X 246 +:+ Py.format_02X 10 +:+ Py.format_02X 0))
  = Ok (246, 10, 0).
Proof. apply (hex_to_rgb_of_formatted 246 10 0); lia. Defined.

(** ** The descriptor of any definition *)

Lemma hex_to_rgb_error (s : string) (e : exn) :
  hex_to_rgb s = Raise e -> e = ValueError.
Proof.
  unfold hex_to_rgb. set (t := Py.lstrip "#" s).
  destruct (parse_channel (Py.slice 0 2 t)) as [r|e0] eqn:E0; cbn [bind];
    [|intros [= <-]; now apply parse_channel_error in E0].
  destruct (parse_channel (Py.slice 2 2 t)) as [g|e2] eqn:E2; cbn [bind];
    [|intros [= <-]; now apply parse_channel_error in E2].
  destruct (parse_channel (Py.slice 4 2 t)) as [b|e4] eqn:E4; cbn [bind];
    [discriminate|intros [= <-]; now apply parse_channel_error in E4].
Qed.

(** X6. The outcome of the descriptor part, in the order of its
    statements.  A missing [light] is a [KeyError], whatever else the
    definition holds; a [light] that is a float has no [lstrip]
    ([AttributeError]); a [light] string that the parser rejects is a
    [ValueError], and so is a light alpha that is a string; only then is
    [dark] looked up, with the same failures in the same order; and when
    both sides are right a descriptor is built, whatever the floats are. *)
Theorem contents_failures (color_def : gmap string Py.pyval) :
  match color_def !! "light" with
  | None => contents color_def = Raise (KeyError "light")
  | Some (Py.PFloat _) => contents color_def = Raise AttributeError
  | Some (Py.PStr lh) =>
      if negb (parses lh) then contents color_def = Raise ValueError
      else
        match Py.get color_def "light_alpha" (Py.PFloat float_1_0) with
        | Py.PStr _ => contents color_def = Raise ValueError
        | Py.PFloat _ =>
            match color_def !! "dark" with
            | None => contents color_def = Raise (KeyError "dark")
            | Some (Py.PFloat _) => contents color_def = Raise AttributeError
            | Some (Py.PStr dh) =>
                if negb (parses dh) then contents color_def = Raise ValueError
                else
                  match Py.get color_def "dark_alpha" (Py.PFloat float_1_0) with
                  | Py.PStr _ => contents color_def = Raise ValueError
                  | Py.PFloat _ => exists c, contents color_def = Ok c
                  end
            end
        end
  end.
Proof.
  unfold contents, variants, Py.getitem, parses.
  set (A := Py.get color_def "light_alpha" _).
  set (B := Py.get color_def "dark_alpha" _).
  destruct (color_def !! "light") as [[lh|?]|]; cbn [bind hex_to_rgb_val];
    try reflexivity.
  destruct (hex_to_rgb lh) as [[[r g] b]|e1] eqn:E1; cbn [bind negb];
    [|apply hex_to_rgb_error in E1 as ->; reflexivity].
  destruct A as [?|a]; cbn [bind Py.format_3f_val]; [reflexivity|].
  destruct (color_def !! "dark") as [[dh|?]|]; cbn [bind hex_to_rgb_val];
    try reflexivity.
  destruct (hex_to_rgb dh) as [[[r_d g_d] b_d]|e2] eqn:E2; cbn [bind negb];
    [|apply hex_to_rgb_error in E2 as ->; reflexivity].
  destruct B as [?|a_d]; cbn [bind Py.format_3f_val]; [reflexivity|eauto].
Qed.

(** X7. Whatever the definition, a descriptor that is built has the same
    layout: two variants, the one of [light] first, without an appearance
    tag, and the one of [dark] second, tagged [luminosity]/[dark]; both with
    color space [srgb], idiom [universal], the channels parsed from the hex
    string printed by [format_channel], and the alpha printed by [.3f]; and
    the [info] member with author [xcode] and version 1. *)
Theorem contents_layout (color_def : gmap string Py.pyval) (c : Py.json) :
  contents color_def = Ok c ->
  exists lh dh r g b r_d g_d b_d a a_d l d,
    color_def !! "light" = Some (Py.PStr lh)
    /\ color_def !! "dark" = Some (Py.PStr dh)
    /\ hex_to_rgb lh = Ok (r, g, b)
    /\ hex_to_rgb dh = Ok (r_d, g_d, b_d)
    /\ Py.get color_def "light_alpha" (Py.PFloat float_1_0) = Py.PFloat a
    /\ Py.get color_def "dark_alpha" (Py.PFloat float_1_0) = Py.PFloat a_d
    /\ variant_list c = Some [l; d]
    /\ jget "info" c
       = Some (Py.JDict [("author", Py.JStr "xcode"); ("version", Py.JInt 1)])
    /\ jget "appearances" l = None
    /\ jget "appearances" d
       = Some (Py.JList [ Py.JDict [ ("appearance", Py.JStr "luminosity");
                                     ("value", Py.JStr "dark") ] ])
    /\ (color_space l = Some (Py.JStr "srgb")
        /\ jget "idiom" l = Some (Py.JStr "universal")
        /\ component "alpha" l = Some (Py.JStr (Py.format_3f a))
        /\ component "red" l = Some (Py.JStr (format_channel r))
        /\ component "green" l = Some (Py.JStr (format_channel g))
        /\ component "blue" l = Some (Py.JStr (format_channel b)))
    /\ (color_space d = Some (Py.JStr "srgb")
        /\ jget "idiom" d = Some (Py.JStr "universal")
        /\ component "alpha" d = Some (Py.JStr (Py.format_3f a_d))
        /\ component "red" d = Some (Py.JStr (format_channel r_d))
        /\ component "green" d = Some (Py.JStr (format_channel g_d))
        /\ component "blue" d = Some (Py.JStr (format_channel b_d))).
Proof.
  unfold contents. intros (vs & Hv & [= <-])%bind_Ok.
  unfold variants, Py.getitem in Hv.
  destruct (color_def !! "light") as [[lh|]|]; try discriminate Hv.
  cbn [bind hex_to_rgb_val] in Hv.
  destruct (hex_to_rgb lh) as [[[r g] b]|] eqn:El; try discriminate Hv.
  cbn [bind] in Hv.
  destruct (Py.get color_def "light_alpha" _) as [|a]; try discriminate Hv.
  cbn [Py.format_3f_val bind] in Hv.
  destruct (color_def !! "dark") as [[dh|]|]; try discriminate Hv.
  cbn [bind hex_to_rgb_val] in Hv.
  destruct (hex_to_rgb dh) as [[[r_d g_d] b_d]|] eqn:Ed; try discriminate Hv.
  cbn [bind] in Hv.
  destruct (Py.get color_def "dark_alpha" _) as [|a_d]; try discriminate Hv.
  cbn [Py.format_3f_val bind] in Hv. injection Hv as <-.
  exists lh, dh, r, g, b, r_d, g_d, b_d, a, a_d.
  exists (light_variant (Py.format_3f a) r g b),
         (dark_variant (Py.format_3f a_d) r_d g_d b_d).
  repeat split; assumption.
Qed.

Lemma contents_layout_witness :
  exists lh dh r g b r_d g_d b_d a a_d l d,
    opaque_def "+1-2 3" "#abcdef99" !! "light" = Some (Py.PStr lh)
    /\ opaque_def "+1-2 3" "#abcdef99" !! "dark" = Some (Py.PStr dh)
    /\ hex_to_rgb lh = Ok (r, g, b)
    /\ hex_to_rgb dh = Ok (r_d, g_d, b_d)
    /\ Py.get (opaque_def "+1-2 3" "#abcdef99") "light_alpha" (Py.PFloat float_1_0)
       = Py.PFloat a
    /\ Py.get (opaque_def "+1-2 3" "#abcdef99") "dark_alpha" (Py.PFloat float_1_0)
       = Py.PFloat a_d
    /\ variant_list
         (Py.JDict [ ("colors",
                       Py.JList [ light_variant "1.000" 1 (-2) 3;
                                  dark_variant "1.000" 171 205 239 ]);
                     ("info", info) ]) = Some [l; d]
    /\ jget "info"
         (Py.JDict [ ("colors",
                       Py.JList [ light_variant "1.000" 1 (-2) 3;
                                  dark_variant "1.000" 171 205 239 ]);
                     ("info", info) ])
       = Some (Py.JDict [("author", Py.JStr "xcode"); ("version", Py.JInt 1)])
    /\ jget "appearances" l = None
    /\ jget "appearances" d
       = Some (Py.JList [ Py.JDict [ ("appearance", Py.JStr "luminosity");
                                     ("value", Py.JStr "dark") ] ])
    /\ (color_space l = Some (Py.JStr "srgb")
        /\ jget "idiom" l = Some (Py.JStr "universal")
        /\ component "alpha" l = Some (Py.JStr (Py.format_3f a))
        /\ component "red" l = Some (Py.JStr (format_channel r))
        /\ component "green" l = Some (Py.JStr (format_channel g))
        /\ component "blue" l = Some (Py.JStr (format_channel b)))
    /\ (color_space d = Some (Py.JStr "srgb")
        /\ jget "idiom" d = Some (Py.JStr "universal")
        /\ component "alpha" d = Some (Py.JStr (Py.format_3f a_d))
        /\ component "red" d = Some (Py.JStr (format_channel r_d))
        /\ component "green" d = Some (Py.JStr (format_channel g_d))
        /\ component "blue" d = Some (Py.JStr (format_channel b_d))).
Proof.
  apply (contents_layout (opaque_def "+1-2 3" "#abcdef99")). reflexivity.
Defined.

(** ** Paths *)

Lemma root_unfold : root = Py.components assets_path.
Proof. vm_compute. reflexivity. Qed.

Lemma split_sep_cons_inv (s : string) : exists h t, Py.split_sep s = h :: t.
Proof.
  induction s as [|c r (h & t & IH)]; cbn [Py.split_sep]; [eauto|].
  destruct (Ascii.eqb c "/"); [eauto|]. rewrite IH. eauto.
Qed.

Lemma append_cons (c : ascii) (a b : string) :
  String c a +:+ b = String c (a +:+ b).
Proof. reflexivity. Qed.

Lemma append_nil (b : string) : "" +:+ b = b.
Proof. reflexivity. Qed.

Lemma split_sep_app (a b : string) :
  Py.split_sep (a +:+ String "/" b) = Py.split_sep a ++ Py.split_sep b.
Proof.
  induction a as [|c a IH].
  - reflexivity.
  - rewrite append_cons. cbn [Py.split_sep]. rewrite IH.
    destruct (Ascii.eqb c "/"); [reflexivity|].
    destruct (split_sep_cons_inv a) as (h & t & ->). reflexivity.
Qed.

Lemma components_app (a b : string) :
  Py.components (a +:+ String "/" b) = Py.components a ++ Py.components b.
Proof. unfold Py.components. now rewrite split_sep_app, List.filter_app. Qed.

Lemma split_sep_no_slash (s : string) : no_slash s = true -> Py.split_sep s = [s].
Proof.
  induction s as [|c r IH]; cbn [no_slash Py.split_sep]; [reflexivity|].
  intros [Hc Hr]%andb_prop. apply negb_true_iff in Hc. rewrite Hc.
  now rewrite (IH Hr).
Qed.

Lemma no_slash_append (a b : string) :
  no_slash a = true -> no_slash b = true -> no_slash (a +:+ b) = true.
Proof.
  induction a as [|c a IH]; [now intros|]. rewrite append_cons. cbn [no_slash].
  intros [Hc Ha]%andb_prop Hb. rewrite Hc. cbn [andb]. auto.
Qed.

Lemma components_leaf (name : string) :
  no_slash name = true ->
  Py.components (name +:+ ".colorset") = [name +:+ ".colorset"].
Proof.
  intros Hn. unfold Py.components.
  rewrite split_sep_no_slash by now apply no_slash_append.
  cbn [List.filter]. destruct name; reflexivity.
Qed.

Lemma ends_with_sep_append (a : string) (c : ascii) (b : string) :
  Py.ends_with_sep (a +:+ String c b) = Py.ends_with_sep (String c b).
Proof.
  induction a as [|x a IH]; [reflexivity|].
  rewrite append_cons.
  transitivity (Py.ends_with_sep (a +:+ String c b)); [|exact IH].
  destruct a; reflexivity.
Qed.

Lemma starts_with_sep_leaf (name : string) :
  Py.starts_with_sep name = false ->
  Py.starts_with_sep (name +:+ ".colorset") = false.
Proof. destruct name; [reflexivity|exact (fun H => H)]. Qed.

Lemma folder_path_relative (name : string) :
  Py.starts_with_sep name = false ->
  folder_path name = assets_path +:+ String "/" (name +:+ ".colorset").
Proof.
  intros Hn. unfold folder_path, Py.path_join.
  rewrite (starts_with_sep_leaf name Hn).
  replace (String.eqb assets_path "" || Py.ends_with_sep assets_path) with false
    by (vm_compute; reflexivity).
  reflexivity.
Qed.

Lemma contents_path_relative (name : string) :
  Py.starts_with_sep name = false ->
  contents_path name = folder_path name +:+ String "/" "Contents.json".
Proof.
  intros Hn. unfold contents_path, Py.path_join. cbn [Py.starts_with_sep Ascii.eqb].
  rewrite (folder_path_relative name Hn).
  assert (He : Py.ends_with_sep (assets_path +:+ String "/" (name +:+ ".colorset"))
               = false).
  { rewrite ends_with_sep_append.
    change (String "/" (name +:+ ".colorset"))
      with (String "/" name +:+ String "." "colorset").
    rewrite ends_with_sep_append. reflexivity. }
  rewrite He. unfold assets_path at 1. rewrite append_cons. reflexivity.
Qed.

(** The keys of a name without separators. *)
Lemma paths_under_root_lemma (name : string) :
  Py.starts_with_sep name = false ->
  no_slash name = true ->
  Py.components (folder_path name) = folder_key name
  /\ Py.components (contents_path name) = file_key name.
Proof.
  intros Hn Hs.
  assert (Hf : Py.components (folder_path name) = folder_key name).
  { rewrite (folder_path_relative name Hn), components_app, components_leaf by exact Hs.
    unfold folder_key. now rewrite root_unfold. }
  split; [exact Hf|].
  rewrite (contents_path_relative name Hn), components_app, Hf. reflexivity.
Qed.

Lemma no_slash_not_absolute (name : string) :
  no_slash name = true -> Py.starts_with_sep name = false.
Proof.
  destruct name as [|c r]; [reflexivity|]. cbn [no_slash Py.starts_with_sep].
  intros [Hc _]%andb_prop. now apply negb_true_iff in Hc.
Qed.

Lemma plain_char_no_slash (c : ascii) :
  plain_char c = true -> Ascii.eqb c "/" = false.
Proof.
  unfold plain_char. intros [_ H]%andb_prop. now apply negb_true_iff in H.
Qed.

Lemma plain_name_no_slash (name : string) :
  plain_name name = true -> no_slash name = true.
Proof.
  unfold plain_name. intros [H _]%andb_prop.
  induction name as [|c r IH]; [reflexivity|]. cbn [all_plain no_slash] in *.
  apply andb_prop in H as [Hc Hr]. rewrite (plain_char_no_slash c Hc).
  exact (IH Hr).
Qed.

(** X8. For a plain name, [os.path.join] appends: the folder path is the
    root path, a separator and [<name>.colorset], and the file path is the
    folder path, a separator and [Contents.json].  So the folder is the
    child [<name>.colorset] of the root directory, and the file is the child
    [Contents.json] of the folder. *)
Theorem paths_under_root (name : string) :
  plain_name name = true ->
  folder_path name = assets_path +:+ "/" +:+ name +:+ ".colorset"
  /\ contents_path name = folder_path name +:+ "/Contents.json"
  /\ Py.components (folder_path name) = root ++ [name +:+ ".colorset"]
  /\ Py.components (contents_path name)
     = root ++ [name +:+ ".colorset"; "Contents.json"].
Proof.
  intros Hs%plain_name_no_slash.
  pose proof (no_slash_not_absolute name Hs) as Hn.
  destruct (paths_under_root_lemma name Hn Hs) as [Hf Hc].
  split; [exact (folder_path_relative name Hn)|].
  split; [exact (contents_path_relative name Hn)|].
  split; [exact Hf|].
  rewrite Hc. unfold file_key, folder_key. now rewrite <- app_assoc.
Qed.

Lemma paths_under_root_witness :
  folder_path "Brand Primary-2" = assets_path +:+ "/" +:+ "Brand Primary-2" +:+ ".colorset"
  /\ contents_path "Brand Primary-2" = folder_path "Brand Primary-2" +:+ "/Contents.json"
  /\ Py.components (folder_path "Brand Primary-2")
     = root ++ ["Brand Primary-2" +:+ ".colorset"]
  /\ Py.components (contents_path "Brand Primary-2")
     = root ++ ["Brand Primary-2" +:+ ".colorset"; "Contents.json"].
Proof. apply (paths_under_root "Brand Primary-2"). reflexivity. Defined.

Lemma root_length : length root = 8%nat.
Proof. vm_compute. reflexivity. Qed.

(** X9. A name that starts with a separator is an absolute path for
    [os.path.join]: the root path is dropped.  For a separator followed by
    a plain name the folder is a child of the root of the file system, and
    so it is not below the root directory of the catalog. *)
Theorem absolute_name_leaves_root (rest : string) :
  plain_name rest = true ->
  folder_path (String "/" rest) = String "/" rest +:+ ".colorset"
  /\ Py.components (folder_path (String "/" rest)) = [rest +:+ ".colorset"]
  /\ ~ root `prefix_of` Py.components (folder_path (String "/" rest)).
Proof.
  intros Hs%plain_name_no_slash.
  assert (Hf : folder_path (String "/" rest) = String "/" rest +:+ ".colorset")
    by reflexivity.
  assert (Hc : Py.components (folder_path (String "/" rest))
               = [rest +:+ ".colorset"]).
  { rewrite Hf. change (String "/" rest +:+ ".colorset")
      with ("" +:+ String "/" (rest +:+ ".colorset")).
    now rewrite components_app, components_leaf. }
  split; [exact Hf|]. split; [exact Hc|].
  rewrite Hc. intros Hpre%prefix_length. rewrite root_length in Hpre.
  cbn in Hpre. lia.
Qed.

Lemma absolute_name_leaves_root_witness :
  folder_path (String "/" "tmp") = String "/" "tmp" +:+ ".colorset"
  /\ Py.components (folder_path (String "/" "tmp")) = ["tmp" +:+ ".colorset"]
  /\ ~ root `prefix_of` Py.components (folder_path (String "/" "tmp")).
Proof. apply (absolute_name_leaves_root "tmp"). reflexivity. Defined.

Lemma paths_as_keys_no_slash (name : string) :
  no_slash name = true -> paths_as_keys name = true.
Proof.
  intros Hs.
  assert (Hn : Py.starts_with_sep name = false).
  { destruct name as [|c r]; [reflexivity|]. cbn [no_slash] in Hs.
    apply andb_prop in Hs as [Hc _]. now apply negb_true_iff in Hc. }
  destruct (paths_under_root_lemma name Hn Hs) as [Hf Hc].
  unfold paths_as_keys. apply andb_true_intro. split; apply bool_decide_eq_true_2.
  - exact Hf.
  - exact Hc.
Qed.

(** ** The generator on any table *)

Lemma covered_prefix (above todo p : list string) :
  covered above todo p = true
  <-> exists q, q <> [] /\ q `prefix_of` todo /\ p = above ++ q.
Proof.
  revert above. induction todo as [|c rest IH]; intros above; cbn [covered].
  - split; [discriminate|]. intros (q & Hq & ->%prefix_nil_inv & _). done.
  - rewrite orb_true_iff, bool_decide_eq_true, IH. split.
    + intros [->|(q & Hq & Hpre & ->)].
      * exists [c]. split; [done|]. split; [|reflexivity].
        apply prefix_cons, prefix_nil.
      * exists (c :: q). split; [done|]. split; [now apply prefix_cons|].
        now rewrite <- app_assoc.
    + intros ([|x q] & Hq & Hpre & ->); [done|].
      pose proof (prefix_cons_inv_1 _ _ _ _ Hpre) as ->.
      apply prefix_cons_inv_2 in Hpre.
      destruct q as [|y q]; [now left|]. right.
      exists (y :: q). split; [done|]. split; [exact Hpre|].
      now rewrite <- app_assoc.
Qed.

Lemma entry_can_run_clear (name : string) (fs : gmap (list string) Py.node) :
  no_slash name = true -> entry_can_run name fs <-> path_is_clear name fs.
Proof.
  intros Hs.
  destruct (paths_under_root_lemma name (no_slash_not_absolute name Hs) Hs)
    as [Hf Hc].
  unfold entry_can_run, path_is_clear, no_file_on. rewrite Hf, Hc.
  apply and_iff_compat_r. split.
  - intros H p x Hp Hpre. apply H. apply covered_prefix. now exists p.
  - intros H p x (q & Hq & Hpre & ->)%covered_prefix. now apply H.
Qed.

Lemma proper_table_good (items : list (string * gmap string Py.pyval)) :
  proper_table items -> forall entry, entry ∈ items -> good_entry entry = true.
Proof.
  intros [_ H] entry [Hs Hv]%H. unfold good_entry.
  now rewrite (paths_as_keys_no_slash _ Hs), Hv.
Qed.

Lemma proper_table_perm (items1 items2 : list (string * gmap string Py.pyval)) :
  items1 ≡ₚ items2 -> proper_table items1 -> proper_table items2.
Proof.
  intros Hp [Hnd H]. split; [now rewrite <- Hp|].
  intros entry Hin. apply H. now rewrite Hp.
Qed.

Lemma colors_proper : proper_table colors.
Proof.
  split; [exact colors_names_NoDup|].
  assert (H : forallb (fun entry => no_slash entry.1 && valid_definition entry.2)
                colors = true) by (vm_compute; reflexivity).
  rewrite forallb_forall in H. intros entry Hin%list_elem_of_In.
  now apply andb_prop, H.
Qed.

Lemma plain_table_proper (items : list (string * gmap string Py.pyval)) :
  plain_table items -> proper_table items.
Proof.
  intros [Hnd H]. split; [exact Hnd|].
  intros entry [Hp Hv]%H. split; [now apply plain_name_no_slash|exact Hv].
Qed.

Lemma colors_plain : plain_table colors.
Proof.
  split; [exact colors_names_NoDup|].
  assert (H : forallb (fun entry => plain_name entry.1 && valid_definition entry.2)
                colors = true) by (vm_compute; reflexivity).
  rewrite forallb_forall in H. intros entry Hin%list_elem_of_In.
  now apply andb_prop, H.
Qed.

(** X10. A run over a table of distinct plain names with valid
    definitions succeeds exactly when, on the disk it starts from, the path
    of every entry is clear: the entries neither block nor unblock each
    other. *)
Theorem run_succeeds_exactly
    (items : list (string * gmap string Py.pyval)) (w : world) :
  plain_table items ->
  (exists w', run_items items w = Ok w')
  <-> forall entry, entry ∈ items -> path_is_clear entry.1 (disk w).
Proof.
  intros Hp%plain_table_proper. pose proof (proper_table_good items Hp) as Hg.
  destruct Hp as [Hnd Hn]. split.
  - intros [w' [Hall _]%(run_items_spec _ _ _ Hg Hnd)] entry Hin.
    apply entry_can_run_clear; [apply Hn, Hin|apply Hall, Hin].
  - intros Hall. eexists. apply (run_items_spec _ _ _ Hg Hnd).
    split; [|reflexivity]. intros entry Hin.
    apply entry_can_run_clear; [apply Hn, Hin|apply Hall, Hin].
Qed.

Lemma run_succeeds_exactly_witness :
  (exists w', run_items colors (World colors ∅ []) = Ok w')
  <-> forall entry, entry ∈ colors ->
        path_is_clear entry.1 (disk (World colors ∅ [])).
Proof. exact (run_succeeds_exactly colors (World colors ∅ []) colors_plain). Defined.

(** X11. The order of a proper table does not matter: when a run over one
    order succeeds, so does the run over any other, with the same disk and
    table; each console holds the lines in the order of its run. *)
Theorem any_table_order_independent
    (items1 items2 : list (string * gmap string Py.pyval)) (w w1 : world) :
  proper_table items1 ->
  items1 ≡ₚ items2 ->
  run_items items1 w = Ok w1 ->
  exists w2,
    run_items items2 w = Ok w2
    /\ disk w2 = disk w1
    /\ table w2 = table w1
    /\ console w1 = console w ++ ((fun entry => line entry.1) <$> items1)
    /\ console w2 = console w ++ ((fun entry => line entry.1) <$> items2).
Proof.
  intros Hp1 Hperm Hrun.
  pose proof (proper_table_perm _ _ Hperm Hp1) as Hp2.
  apply (run_items_spec _ _ _ (proper_table_good _ Hp1) (proj1 Hp1))
    in Hrun as [Hall ->].
  exists (World (table w) (final_disk items2 (disk w))
            (console w ++ ((fun entry => line entry.1) <$> items2))).
  split; [|split; [|split; [|split]]]; cbn [table disk console]; try reflexivity.
  - apply (run_items_spec _ _ _ (proper_table_good _ Hp2) (proj1 Hp2)).
    split; [|reflexivity]. intros entry Hin. apply Hall. now rewrite Hperm.
  - symmetry. apply final_disk_perm; [exact Hperm|exact (proj1 Hp1)].
Qed.

Lemma any_table_order_independent_witness :
  exists w2,
    run_items (reverse colors) (World colors ∅ []) = Ok w2
    /\ disk w2 = disk world_from_empty
    /\ table w2 = table world_from_empty
    /\ console world_from_empty
       = console (World colors ∅ []) ++ ((fun entry => line entry.1) <$> colors)
    /\ console w2
       = console (World colors ∅ [])
         ++ ((fun entry => line entry.1) <$> reverse colors).
Proof.
  refine (any_table_order_independent colors (reverse colors) (World colors ∅ [])
            world_from_empty colors_proper _ run_items_empty).
  symmetry. apply reverse_Permutation.
Defined.

(** X12. After a successful run over a proper table, running it again on
    the disk it left succeeds and changes nothing on the disk. *)
Theorem any_table_rerun
    (items : list (string * gmap string Py.pyval)) (w w1 : world) :
  proper_table items ->
  run_items items w = Ok w1 ->
  exists w2, run_items items w1 = Ok w2 /\ disk w2 = disk w1.
Proof.
  intros Hp Hrun. pose proof (proper_table_good items Hp) as Hg.
  destruct Hp as [Hnd Hn].
  apply (run_items_spec _ _ _ Hg Hnd) in Hrun as [Hall ->].
  eexists. split.
  - apply (run_items_spec _ _ _ Hg Hnd). split; [|reflexivity].
    cbn [disk]. intros entry Hin. now apply final_disk_can_run.
  - cbn [disk]. now apply final_disk_idem.
Qed.

Lemma any_table_rerun_witness :
  exists w2, run_items colors world_from_empty = Ok w2
             /\ disk w2 = disk world_from_empty.
Proof.
  exact (any_table_rerun colors (World colors ∅ []) world_from_empty
           colors_proper run_items_empty).
Defined.

(** X13. A successful run over a proper table deletes nothing and changes
    nothing but the entries' files: a node of the disk other than a
    [Contents.json] of the table is still there, unchanged; and a key that
    held nothing still holds nothing, unless it is such a file or a
    directory on the way to it. *)
Theorem run_keeps_other_nodes
    (items : list (string * gmap string Py.pyval)) (w w' : world)
    (p : list string) :
  proper_table items ->
  run_items items w = Ok w' ->
  match disk w !! p with
  | Some n =>
      (exists entry, entry ∈ items /\ p = Py.components (contents_path entry.1))
      \/ disk w' !! p = Some n
  | None =>
      disk w' !! p = None
      \/ exists entry, entry ∈ items /\ p <> []
            /\ p `prefix_of` Py.components (contents_path entry.1)
  end.
Proof.
  intros Hp Hrun. pose proof (proper_table_good items Hp) as Hg.
  destruct Hp as [Hnd Hn].
  apply (run_items_spec _ _ _ Hg Hnd) in Hrun as [Hall ->]. cbn [disk].
  assert (Hkey : forall entry, entry ∈ items ->
            Py.components (contents_path entry.1) = file_key entry.1).
  { intros [name d] Hin. now destruct (good_entry_inv _ _ (Hg _ Hin)) as (_ & Hc & _). }
  destruct (lookup_final_disk items (disk w) p)
    as [(e & He & Hpe & Hl) | [(_ & (e & He & Hce) & Hl) | (_ & Hl)]].
  - destruct (disk w !! p) as [n|].
    + left. exists e. now rewrite Hkey.
    + right. exists e. rewrite Hkey by exact He. subst p.
      split; [exact He|]. split; [|reflexivity].
      unfold file_key. now destruct (folder_key e.1).
  - destruct (disk w !! p) as [n|] eqn:E.
    + right. rewrite Hl.
      destruct n as [|x]; [reflexivity|]. now destruct (proj1 (Hall e He) p x Hce).
    + right. exists e. rewrite Hkey by exact He.
      apply covered_prefix in Hce as (q & Hq & Hpre & ->).
      split; [exact He|]. split; [exact Hq|].
      unfold file_key. now apply prefix_app_r.
  - rewrite Hl. destruct (disk w !! p) as [n|].
    + now right.
    + now left.
Qed.

(** ** Failures of an entry, and the loop *)

(** Why [makedirs_from] fails: a regular file on the way, or at the end. *)
Lemma makedirs_from_error (above todo : list string)
    (fs : gmap (list string) Py.node) (e : exn) :
  Py.makedirs_from above todo fs = Raise e ->
  (e = NotADirectoryError
   /\ exists p x, covered above todo p = true /\ p <> above ++ todo
                  /\ fs !! p = Some (Py.File x))
  \/ (e = FileExistsError /\ exists x, fs !! (above ++ todo) = Some (Py.File x)).
Proof.
  revert above fs. induction todo as [|c rest IH]; intros above fs;
    cbn [Py.makedirs_from covered]; [discriminate|].
  set (k := above ++ [c]).
  assert (Hwhole : above ++ c :: rest = k ++ rest)
    by (unfold k; now rewrite <- app_assoc).
  rewrite Hwhole.
  destruct (fs !! k) as [[|x]|] eqn:E.
  - intros [(-> & p & x & Hc & Hne & Hf) | (-> & x & Hf)]%IH; [left|right; eauto].
    split; [reflexivity|]. exists p, x. now rewrite Hc, orb_true_r.
  - destruct rest as [|c' rest].
    + intros [= <-]. right. split; [reflexivity|]. exists x. now rewrite app_nil_r.
    + intros [= <-]. left. split; [reflexivity|]. exists k, x.
      rewrite bool_decide_eq_true_2 by reflexivity. split; [reflexivity|].
      split; [|exact E]. intros H%(f_equal length).
      rewrite length_app in H. cbn in H. lia.
  - intros [(-> & p & x & Hc & Hne & Hf) | (-> & x & Hf)]%IH; [left|right].
    + split; [reflexivity|]. exists p, x. rewrite Hc, orb_true_r.
      split; [reflexivity|]. split; [exact Hne|].
      apply covered_length in Hc.
      rewrite lookup_insert_ne in Hf; [exact Hf|]. intros <-. lia.
    + split; [reflexivity|]. exists x.
      destruct (decide (k = k ++ rest)) as [Heq|Hne].
      * rewrite <- Heq, lookup_insert_eq in Hf. discriminate.
      * now rewrite lookup_insert_ne in Hf.
Qed.

Lemma makedirs_error (todo : list string) (fs : gmap (list string) Py.node)
    (e : exn) :
  Py.makedirs_from [] todo fs = Raise e ->
  (e = NotADirectoryError
   /\ exists p x, p <> [] /\ p `prefix_of` todo /\ p <> todo
                  /\ fs !! p = Some (Py.File x))
  \/ (e = FileExistsError /\ exists x, fs !! todo = Some (Py.File x)).
Proof.
  intros [(-> & p & x & Hcov & Hne & Hfile) | (-> & x & Hfile)]%makedirs_from_error;
    cbn [app] in *; [left|right; eauto].
  split; [reflexivity|]. exists p, x.
  apply covered_prefix in Hcov as (q & Hq & Hpre & ->). cbn [app] in *. auto.
Qed.

(** X14. For an entry with a plain name and a valid definition,
    [create_color_set] fails only on the disk, and each failure has its
    cause: a regular file in the place of a directory on the way to the
    folder ([NotADirectoryError]), a regular file in the place of the
    folder itself ([FileExistsError]; an existing directory is no error), or
    a directory in the place of [Contents.json] ([IsADirectoryError]). *)
Theorem create_color_set_errors
    (name : string) (color_def : gmap string Py.pyval) (w : world) (e : exn) :
  plain_name name = true ->
  valid_definition color_def = true ->
  create_color_set name color_def w = Raise e ->
  (e = NotADirectoryError
   /\ exists p x, p <> [] /\ p `prefix_of` Py.components (folder_path name)
                  /\ p <> Py.components (folder_path name)
                  /\ disk w !! p = Some (Py.File x))
  \/ (e = FileExistsError
      /\ exists x, disk w !! Py.components (folder_path name) = Some (Py.File x))
  \/ (e = IsADirectoryError
      /\ disk w !! Py.components (contents_path name) = Some Py.Dir).
Proof.
  intros Hs%plain_name_no_slash Hv.
  assert (Hg : good_entry (name, color_def) = true).
  { unfold good_entry. cbn [fst snd]. now rewrite (paths_as_keys_no_slash _ Hs), Hv. }
  destruct (good_entry_inv _ _ Hg) as (Hf & Hc & c & Hcont & Hb).
  unfold create_color_set, Py.makedirs, Py.write_file. rewrite Hf, Hc, Hcont.
  destruct (Py.makedirs_from [] (folder_key name) (disk w)) as [d1|e1] eqn:Em;
    cbn [bind].
  - apply makedirs_from_spec in Em as [_ ->]. rewrite write_after_makedirs.
    destruct (disk w !! file_key name) as [[|x]|]; cbn [bind]; try discriminate.
    intros [= <-]. right. right. auto.
  - intros [= <-]. apply makedirs_error in Em as [Hnd | Hfe]; [left|right; left].
    + exact Hnd.
    + exact Hfe.
Qed.

Lemma bind_assoc {A B C} (r : result A) (f : A -> result B) (g : B -> result C) :
  bind (bind r f) g = bind r (fun a => bind (f a) g).
Proof. now destruct r. Qed.

(** X15. The loop over a table in two parts is the loop over the first
    part followed, if that succeeds, by the loop over the second from the
    world it left; a failure in the first part is the failure of the whole,
    and nothing of the second part is run. *)
Theorem run_items_app
    (items1 items2 : list (string * gmap string Py.pyval)) (w : world) :
  run_items (items1 ++ items2) w
  = bind (run_items items1 w) (run_items items2).
Proof.
  revert w. induction items1 as [|[name d] items1 IH]; intros w;
    cbn [app run_items]; [reflexivity|].
  destruct (create_color_set name d w) as [w1|e]; cbn [bind]; [apply IH|reflexivity].
Qed.

(** X16. Whatever the table, a run that succeeds has printed one line
    [Created <name>.colorset] per entry, in the order of the table, after
    what the console held, and nothing else. *)
Theorem run_prints_lines
    (items : list (string * gmap string Py.pyval)) (w w' : world) :
  run_items items w = Ok w' ->
  console w'
  = console w ++ ((fun entry => "Created " +:+ entry.1 +:+ ".colorset") <$> items).
Proof.
  revert w. induction items as [|[name d] items IH]; intros w; cbn [run_items].
  - intros [= <-]. cbn. now rewrite app_nil_r.
  - intros (w1 & [_ Hc]%create_color_set_table & Hrest%IH)%bind_Ok.
    rewrite Hrest. cbn [print console fmap list_fmap fst]. rewrite Hc.
    now rewrite <- app_assoc.
Qed.

Lemma run_prints_lines_witness :
  console world_from_empty
  = console (World colors ∅ [])
    ++ ((fun entry => "Created " +:+ entry.1 +:+ ".colorset") <$> colors).
Proof.
  exact (run_prints_lines colors (World colors ∅ []) world_from_empty
           run_items_empty).
Defined.

(** ** The alpha of any finite float *)

Lemma digit_value_upper_digit (d : Z) :
  0 <= d < 10 -> digit_value (Py.upper_digit d) = Some d.
Proof.
  intros H.
  assert (Hd : d = 0 \/ d = 1 \/ d = 2 \/ d = 3 \/ d = 4 \/ d = 5 \/ d = 6
               \/ d = 7 \/ d = 8 \/ d = 9) by lia.
  repeat (destruct Hd as [->|Hd]; [reflexivity|]). now subst.
Qed.

Lemma digit_not_point (c : ascii) (d : Z) :
  digit_value c = Some d -> Ascii.eqb c "." = false.
Proof. destruct c as [[] [] [] [] [] [] [] []]; (reflexivity || discriminate). Qed.

(** The digits written by [digits_aux] in front of [acc] read back. *)
Lemma digits_aux_decimal (fuel : nat) :
  forall n acc,
    0 <= n < 10 ^ Z.of_nat (S fuel) ->
    all_digits acc = true ->
    all_digits (Py.digits_aux 10 (S fuel) n acc) = true
    /\ (exists c r, Py.digits_aux 10 (S fuel) n acc = String c r)
    /\ exists k, 0 <= k /\ forall a,
         decimal_acc a (Py.digits_aux 10 (S fuel) n acc)
         = decimal_acc (a * 10 ^ k + n) acc.
Proof.
  induction fuel as [|fuel IH]; intros n acc Hn Hacc.
  - assert (Hn' : 0 <= n < 10) by (change (10 ^ Z.of_nat 1) with 10 in Hn; lia).
    cbn [Py.digits_aux]. rewrite (Z.mod_small n 10), (Z.div_small n 10) by lia.
    change (0 =? 0) with true. cbv iota.
    pose proof (digit_value_upper_digit n Hn') as Hd.
    split; [cbn [all_digits]; now rewrite Hd|]. split; [eauto|].
    exists 1. split; [lia|]. intros a. cbn [decimal_acc]. rewrite Hd. f_equal. lia.
  - cbn [Py.digits_aux].
    pose proof (Z.mod_pos_bound n 10 ltac:(lia)) as Hm.
    pose proof (digit_value_upper_digit (n mod 10) Hm) as Hd.
    assert (Hacc' : all_digits (String (Py.upper_digit (n mod 10)) acc) = true)
      by (cbn [all_digits]; now rewrite Hd).
    destruct (Z.eqb_spec (n / 10) 0) as [Hz|Hz].
    + split; [exact Hacc'|]. split; [eauto|].
      exists 1. split; [lia|]. intros a. cbn [decimal_acc]. rewrite Hd. f_equal.
      pose proof (Z.div_mod n 10 ltac:(lia)). lia.
    + assert (Hq : 0 <= n / 10 < 10 ^ Z.of_nat (S fuel)).
      { split; [apply Z.div_pos; lia|].
        apply Z.div_lt_upper_bound; [lia|].
        replace (10 * 10 ^ Z.of_nat (S fuel)) with (10 ^ Z.of_nat (S (S fuel)));
          [lia|].
        rewrite (Nat2Z.inj_succ (S fuel)), Z.pow_succ_r by lia. reflexivity. }
      destruct (IH (n / 10) _ Hq Hacc') as (Hall & Hne & k & Hk0 & Hk).
      split; [exact Hall|]. split; [exact Hne|].
      exists (k + 1). split; [lia|]. intros a. rewrite Hk.
      cbn [decimal_acc]. rewrite Hd. f_equal.
      pose proof (Z.div_mod n 10 ltac:(lia)) as Hdm.
      rewrite Z.pow_add_r, Z.pow_1_r by lia. lia.
Qed.

Lemma digits_decimal (n : Z) :
  0 <= n ->
  all_digits (Py.digits 10 n) = true
  /\ (exists c r, Py.digits 10 n = String c r)
  /\ decimal (Py.digits 10 n) = Some n.
Proof.
  intros Hn. unfold Py.digits.
  assert (Hb : 0 <= n < 10 ^ Z.of_nat (S (Z.to_nat (Z.log2 n)))).
  { split; [exact Hn|]. rewrite Nat2Z.inj_succ, Z2Nat.id by apply Z.log2_nonneg.
    destruct (Z.eq_dec n 0) as [->|Hne].
    - reflexivity.
    - pose proof (Z.log2_spec n ltac:(lia)) as [_ Hlt].
      eapply Z.lt_le_trans; [exact Hlt|].
      apply Z.pow_le_mono_l. lia. }
  destruct (digits_aux_decimal _ n "" Hb eq_refl)
    as (Hall & (c & r & Hne) & k & _ & Hk).
  split; [exact Hall|]. split; [eauto|].
  unfold decimal. rewrite Hne, <- Hne, Hk. cbn [decimal_acc]. f_equal.
Qed.

Lemma split_at_point_digits (ip fp : string) :
  all_digits ip = true ->
  split_at_point (ip +:+ String "." fp) = Some (ip, fp).
Proof.
  induction ip as [|c ip IH]; [reflexivity|].
  rewrite append_cons. cbn [all_digits split_at_point].
  destruct (digit_value c) as [d|] eqn:Ed; [|discriminate].
  intros H. rewrite (digit_not_point c d Ed), (IH H). reflexivity.
Qed.

Lemma fraction_reads_back_all :
  forallb (fun n => fraction_reads_back (Z.of_nat n)) (seq 0 1000) = true.
Proof. vm_compute. reflexivity. Qed.

Lemma fraction_decimal (r : Z) :
  0 <= r < 1000 ->
  exists fp,
    Py.zeros (3 - String.length (Py.digits 10 r)) +:+ Py.digits 10 r = fp
    /\ String.length fp = 3%nat
    /\ decimal fp = Some r.
Proof.
  intros Hr. pose proof fraction_reads_back_all as H.
  rewrite forallb_forall in H. specialize (H (Z.to_nat r)).
  rewrite Z2Nat.id in H by lia.
  assert (Hin : In (Z.to_nat r) (seq 0 1000)) by (apply in_seq; lia).
  specialize (H Hin). unfold fraction_reads_back in H. cbv zeta in H.
  destruct (Py.zeros _ +:+ _) as [|c1 [|c2 [|c3 [|]]]]; try discriminate H.
  eexists. split; [reflexivity|]. split; [reflexivity|].
  unfold decimal. cbn [decimal_acc].
  destruct (digit_value c1) as [d1|]; [|discriminate H].
  destruct (digit_value c2) as [d2|]; [|discriminate H].
  destruct (digit_value c3) as [d3|]; [|discriminate H].
  apply Z.eqb_eq in H. f_equal. lia.
Qed.

Lemma parse_fixed_minus (body : string) :
  parse_fixed (String "-" body) = parse_unsigned true body.
Proof. reflexivity. Qed.

Lemma parse_fixed_digit (c : ascii) (d : Z) (r : string) :
  digit_value c = Some d ->
  parse_fixed (String c r) = parse_unsigned false (String c r).
Proof. destruct c as [[] [] [] [] [] [] [] []]; (reflexivity || discriminate). Qed.

(** Any count of thousandths reads back, signed or not. *)
Lemma fixed3_parse_any (neg : bool) (q : Z) :
  0 <= q ->
  parse_fixed ((if neg then "-" else "") +:+ Py.fixed3 q)
  = Some (3%nat, if neg then Qopp (Qmake q 1000) else Qmake q 1000).
Proof.
  intros Hq. unfold Py.fixed3. cbv zeta.
  destruct (digits_decimal (q / 1000) ltac:(apply Z.div_pos; lia))
    as (Hall & (c & r & Hne) & Hdec).
  destruct (fraction_decimal (q mod 1000) ltac:(apply Z.mod_pos_bound; lia))
    as (fp & -> & Hlen & Hfp).
  assert (Hv : i_value (q / 1000) (q mod 1000) = q) by
    (unfold i_value; pose proof (Z.div_mod q 1000 ltac:(lia)); lia).
  set (ip := Py.digits 10 (q / 1000)) in *.
  change ("." +:+ fp) with (String "." fp).
  assert (Hbody : forall b,
    parse_unsigned b (ip +:+ String "." fp)
    = Some (3%nat, if b then Qopp (Qmake q 1000) else Qmake q 1000)).
  { intros b. unfold parse_unsigned.
    rewrite (split_at_point_digits ip fp Hall), Hdec, Hfp. cbv zeta.
    rewrite Hlen. change (10 ^ Z.of_nat 3) with 1000.
    change (Z.to_pos 1000) with 1000%positive.
    unfold i_value in Hv. rewrite Hv. reflexivity. }
  destruct neg.
  - change ("-" +:+ ip +:+ String "." fp) with (String "-" (ip +:+ String "." fp)).
    rewrite parse_fixed_minus. apply Hbody.
  - rewrite append_nil. rewrite <- (Hbody false).
    assert (Hc : exists d, digit_value c = Some d).
    { rewrite Hne in Hall. cbn [all_digits] in Hall.
      destruct (digit_value c); [eauto|discriminate]. }
    destruct Hc as [d Hc]. rewrite Hne, append_cons.
    apply (parse_fixed_digit c d _ Hc).
Qed.

Lemma thousandths_error (m : N) (e : Z) :
  0 <= Py.thousandths m e
  /\ (Qabs (Qmake (Py.thousandths m e) 1000 - Py.float_value (Py.Finite false m e))
      <= 5 # 10000)%Q.
Proof.
  unfold Py.float_value, Py.thousandths.
  pose proof (N2Z.is_nonneg m) as Hm. set (M := Z.of_N m) in *.
  destruct (Z.leb_spec 0 e) as [He|He].
  - assert (0 < 2 ^ e) by (apply Z.pow_pos_nonneg; lia).
    set (P := 2 ^ e) in *. split; [nia|].
    apply Qabs_Qle_condition. unfold Qle, Qminus, Qplus, Qopp, inject_Z. cbn.
    nia.
  - assert (Hd : 0 < 2 ^ (- e)) by (apply Z.pow_pos_nonneg; lia).
    set (d := 2 ^ (- e)) in *.
    pose proof (div_half_even_err (M * 1000) d ltac:(lia) Hd) as Herr.
    pose proof (div_half_even_bounds (M * 1000) d (M * 1000) ltac:(lia) Hd
                  ltac:(nia)) as Hb.
    set (q := Py.div_half_even (M * 1000) d) in *.
    split; [lia|].
    apply Qabs_Qle_condition. unfold Qle, Qminus, Qplus, Qopp. cbn.
    rewrite !Pos2Z.inj_mul, !Z2Pos.id by exact Hd.
    nia.
Qed.

(** For every finite float, of any sign and size, the [.3f] rendering has
    exactly three digits after the point and denotes a decimal within 0.0005
    of the float. *)
Lemma format_3f_any_float (a : Py.pyfloat) :
  is_finite a = true ->
  exists v,
    parse_fixed (Py.format_3f a) = Some (3%nat, v)
    /\ (Qabs (v - Py.float_value a) <= 5 # 10000)%Q.
Proof.
  destruct a as [neg m e| |]; [|discriminate..]. intros _.
  destruct (thousandths_error m e) as [Hq Herr].
  unfold Py.format_3f. rewrite (fixed3_parse_any neg _ Hq).
  eexists. split; [reflexivity|].
  destruct neg; [|exact Herr].
  change (Py.float_value (Py.Finite true m e))
    with (Qopp (Py.float_value (Py.Finite false m e))).
  set (x := Qmake (Py.thousandths m e) 1000) in *.
  set (y := Py.float_value (Py.Finite false m e)) in *.
  assert (Heq : (- x - - y == - (x - y))%Q) by ring.
  now rewrite Heq, Qabs_opp.
Qed.

Example format_3f_minus_1_25 : Py.format_3f (Py.Finite true 5 (-2)) = "-1.250".
Proof. reflexivity. Qed.

(** ** The value of a channel *)

Lemma pairs_have_value :
  forallb (fun c1 => forallb (pair_has_value c1) hex_chars) hex_chars = true.
Proof. vm_compute. reflexivity. Qed.

Lemma pair_value (c1 c2 : ascii) :
  is_hex_digit c1 = true -> is_hex_digit c2 = true ->
  Py.int16 (String c1 (String c2 "")) = Some (16 * hex_value c1 + hex_value c2)
  /\ 0 <= hex_value c1 <= 15.
Proof.
  intros H1%is_hex_digit_In H2%is_hex_digit_In.
  pose proof pairs_have_value as Hall.
  rewrite forallb_forall in Hall. specialize (Hall _ H1).
  rewrite forallb_forall in Hall. specialize (Hall _ H2).
  unfold pair_has_value in Hall.
  apply andb_prop in Hall as [Hall Hhi]. apply andb_prop in Hall as [Hv Hlo].
  apply bool_decide_eq_true_1 in Hv. split; [exact Hv|lia].
Qed.

(** X18. Six hexadecimal digits, whatever follows them, parse to the three
    numbers they write in base 16: each channel is sixteen times the value
    of its first digit plus the value of its second. *)
Theorem hex_to_rgb_value (c1 c2 c3 c4 c5 c6 : ascii) (rest : string) :
  all_hex (String c1 (String c2 (String c3 (String c4 (String c5 (String c6 ""))))))
    = true ->
  hex_to_rgb (String c1 (String c2 (String c3 (String c4 (String c5
                (String c6 rest))))))
  = Ok (16 * hex_value c1 + hex_value c2,
        16 * hex_value c3 + hex_value c4,
        16 * hex_value c5 + hex_value c6).
Proof.
  cbn [all_hex]. intros H. repeat (apply andb_prop in H as [? H]).
  destruct (pair_value c1 c2) as [Hr _]; [assumption..|].
  destruct (pair_value c3 c4) as [Hg _]; [assumption..|].
  destruct (pair_value c5 c6) as [Hb _]; [assumption..|].
  unfold hex_to_rgb. cbn [Py.lstrip]. rewrite (hex_digit_not_hash c1) by assumption.
  unfold Py.slice, parse_channel. cbn [substring].
  replace (substring 0 0 rest) with "" by (now destruct rest).
  rewrite Hr. cbn [bind]. rewrite Hg. cbn [bind]. rewrite Hb. reflexivity.
Qed.

Lemma hex_to_rgb_value_witness :
  hex_to_rgb "f6F2ee"
  = Ok (16 * hex_value "f" + hex_value "6",
        16 * hex_value "F" + hex_value "2",
        16 * hex_value "e" + hex_value "e").
Proof. apply (hex_to_rgb_value "f" "6" "F" "2" "e" "e" ""). reflexivity. Defined.

(** * The alpha of a variant *)

(** What a descriptor that has been built is made of. *)
Lemma contents_inv (color_def : gmap string Py.pyval) (c : Py.json) :
  contents color_def = Ok c ->
  exists lh dh r g b r_d g_d b_d a a_d,
    color_def !! "light" = Some (Py.PStr lh)
    /\ color_def !! "dark" = Some (Py.PStr dh)
    /\ hex_to_rgb lh = Ok (r, g, b)
    /\ hex_to_rgb dh = Ok (r_d, g_d, b_d)
    /\ Py.get color_def "light_alpha" (Py.PFloat float_1_0) = Py.PFloat a
    /\ Py.get color_def "dark_alpha" (Py.PFloat float_1_0) = Py.PFloat a_d
    /\ c = Py.JDict
             [ ("colors",
                 Py.JList [ light_variant (Py.format_3f a) r g b;
                            dark_variant (Py.format_3f a_d) r_d g_d b_d ]);
               ("info", info) ].
Proof.
  unfold contents. intros (vs & Hv & [= <-])%bind_Ok.
  unfold variants, Py.getitem in Hv.
  destruct (color_def !! "light") as [[lh|]|]; try discriminate Hv.
  cbn [bind hex_to_rgb_val] in Hv.
  destruct (hex_to_rgb lh) as [[[r g] b]|] eqn:El; try discriminate Hv.
  cbn [bind] in Hv.
  destruct (Py.get color_def "light_alpha" _) as [|a]; try discriminate Hv.
  cbn [Py.format_3f_val bind] in Hv.
  destruct (color_def !! "dark") as [[dh|]|]; try discriminate Hv.
  cbn [bind hex_to_rgb_val] in Hv.
  destruct (hex_to_rgb dh) as [[[r_d g_d] b_d]|] eqn:Ed; try discriminate Hv.
  cbn [bind] in Hv.
  destruct (Py.get color_def "dark_alpha" _) as [|a_d]; try discriminate Hv.
  cbn [Py.format_3f_val bind] in Hv. injection Hv as <-.
  exists lh, dh, r, g, b, r_d, g_d, b_d, a, a_d. repeat split; assumption.
Qed.

Lemma alpha_reads_back_light (a : Py.pyfloat) (r g b : Z) :
  is_finite a = true ->
  alpha_reads_back (light_variant (Py.format_3f a) r g b) a.
Proof.
  intros Hf. destruct (format_3f_any_float a Hf) as (q & Hp & Hq).
  exists (Py.format_3f a), q. repeat split; assumption.
Qed.

Lemma alpha_reads_back_dark (a : Py.pyfloat) (r g b : Z) :
  is_finite a = true ->
  alpha_reads_back (dark_variant (Py.format_3f a) r g b) a.
Proof.
  intros Hf. destruct (format_3f_any_float a Hf) as (q & Hp & Hq).
  exists (Py.format_3f a), q. repeat split; assumption.
Qed.

(** C5. For every definition whose alphas (given, or the default 1.0) lie
    in [0,1], the alpha string of each variant of the descriptor built from
    it has exactly 3 digits after the decimal point and reads back as a
    number within 0.0005 of the alpha of that variant; and a descriptor is
    built from every valid definition. *)
Theorem alpha_format_roundtrip
    (color_def : gmap string Py.pyval) (a a_d : Py.pyfloat) :
  Py.get color_def "light_alpha" (Py.PFloat float_1_0) = Py.PFloat a ->
  Py.get color_def "dark_alpha" (Py.PFloat float_1_0) = Py.PFloat a_d ->
  in_unit_interval a ->
  in_unit_interval a_d ->
  match contents color_def with
  | Ok c =>
      exists l d,
        variant_list c = Some [l; d]
        /\ alpha_reads_back l a
        /\ alpha_reads_back d a_d
  | Raise _ => valid_definition color_def = false
  end.
Proof.
  intros Ha Had [Hf _] [Hfd _].
  destruct (contents color_def) as [c|e] eqn:E.
  - apply contents_inv in E
      as (lh & dh & r & g & b & r_d & g_d & b_d & a' & a_d' & _ & _ & _ & _
          & Ha' & Had' & ->).
    rewrite Ha in Ha'. rewrite Had in Had'.
    injection Ha' as <-. injection Had' as <-.
    eexists _, _. split; [reflexivity|]. split.
    + now apply alpha_reads_back_light.
    + now apply alpha_reads_back_dark.
  - destruct (valid_definition color_def) eqn:V; [|reflexivity].
    destruct (variants_valid color_def V) as [vs Hv].
    unfold contents in E. rewrite Hv in E. discriminate E.
Qed.

Lemma alpha_format_roundtrip_witness :
  match contents (<["dark_alpha" := Py.PFloat float_0_06]>
                    (<["light_alpha" := Py.PFloat float_1_0]>
                      (opaque_def "#000000" "#FFFFFF"))) with
  | Ok c =>
      exists l d,
        variant_list c = Some [l; d]
        /\ alpha_reads_back l float_1_0
        /\ alpha_reads_back d float_0_06
  | Raise _ =>
      valid_definition (<["dark_alpha" := Py.PFloat float_0_06]>
                          (<["light_alpha" := Py.PFloat float_1_0]>
                            (opaque_def "#000000" "#FFFFFF"))) = false
  end.
Proof.
  apply (alpha_format_roundtrip _ float_1_0 float_0_06);
    [ reflexivity | reflexivity
    | split; [reflexivity | split; unfold Qle; cbn; lia]
    | split; [reflexivity | split; unfold Qle; cbn; lia] ].
Defined.

(** X17. The alpha is neither range-checked nor clamped: whenever [light]
    and [dark] are strings the parser accepts and the alphas are finite
    floats of any sign and size, the descriptor is built, and the alpha
    string of each variant has exactly three digits after the point and
    denotes a decimal within 0.0005 of that alpha. *)
Theorem alpha_format_any
    (color_def : gmap string Py.pyval) (lh dh : string) (a a_d : Py.pyfloat) :
  color_def !! "light" = Some (Py.PStr lh) ->
  color_def !! "dark" = Some (Py.PStr dh) ->
  parses lh = true ->
  parses dh = true ->
  Py.get color_def "light_alpha" (Py.PFloat float_1_0) = Py.PFloat a ->
  Py.get color_def "dark_alpha" (Py.PFloat float_1_0) = Py.PFloat a_d ->
  is_finite a = true ->
  is_finite a_d = true ->
  exists c l d,
    contents color_def = Ok c
    /\ variant_list c = Some [l; d]
    /\ alpha_reads_back l a
    /\ alpha_reads_back d a_d.
Proof.
  intros Hl Hd Pl Pd Ha Had Hf Hfd. unfold parses in Pl, Pd.
  destruct (hex_to_rgb lh) as [[[r g] b]|] eqn:El; [|discriminate Pl].
  destruct (hex_to_rgb dh) as [[[r_d g_d] b_d]|] eqn:Ed; [|discriminate Pd].
  exists (Py.JDict
            [ ("colors",
                Py.JList [ light_variant (Py.format_3f a) r g b;
                           dark_variant (Py.format_3f a_d) r_d g_d b_d ]);
              ("info", info) ]).
  eexists _, _. split; [|split; [reflexivity|split]].
  - unfold contents, variants, Py.getitem. rewrite Hl, Hd.
    cbn [bind hex_to_rgb_val]. rewrite El. cbn [bind]. rewrite Ha.
    cbn [Py.format_3f_val bind]. rewrite Ed. cbn [bind]. rewrite Had.
    reflexivity.
  - now apply alpha_reads_back_light.
  - now apply alpha_reads_back_dark.
Qed.

Lemma alpha_format_any_witness :
  exists c l d,
    contents (<["dark_alpha" := Py.PFloat (Py.Finite true 5 (-2))]>
                (<["light_alpha" := Py.PFloat (Py.Finite false 5 (-1))]>
                  (opaque_def "#000000" "#FFFFFF"))) = Ok c
    /\ variant_list c = Some [l; d]
    /\ alpha_reads_back l (Py.Finite false 5 (-1))
    /\ alpha_reads_back d (Py.Finite true 5 (-2)).
Proof.
  apply (alpha_format_any _ "#000000" "#FFFFFF"); reflexivity.
Defined.

Example alpha_out_of_range :
  exists c l d,
    contents (<["dark_alpha" := Py.PFloat (Py.Finite true 5 (-2))]>
                (<["light_alpha" := Py.PFloat (Py.Finite false 5 (-1))]>
                  (opaque_def "#000000" "#FFFFFF"))) = Ok c
    /\ variant_list c = Some [l; d]
    /\ component "alpha" l = Some (Py.JStr "2.500")
    /\ component "alpha" d = Some (Py.JStr "-1.250").
Proof. eexists _, _, _. repeat split. Qed.

(** * Inputs the parser rejects *)

Lemma has_rejected_char_get (g : string) (j : nat) (c : ascii) :
  String.get j g = Some c -> rejected_char c = true ->
  has_rejected_char g = true.
Proof.
  revert j. induction g as [|x g IH]; intros [|j] Hg Hc; cbn in Hg;
    try discriminate Hg.
  - injection Hg as ->. cbn [has_rejected_char]. now rewrite Hc.
  - cbn [has_rejected_char]. rewrite (IH j Hg Hc). apply orb_true_r.
Qed.

Lemma rejected_slice (t : string) (n j : nat) (c : ascii) :
  (j < 2)%nat ->
  String.get (j + n) t = Some c ->
  rejected_char c = true ->
  parse_channel (Py.slice n 2 t) = Raise ValueError.
Proof.
  intros Hj Hg Hc. unfold parse_channel, Py.slice.
  rewrite <- (substring_correct1 t n 2 j Hj) in Hg.
  pose proof (has_rejected_char_get _ _ _ Hg Hc) as Hr.
  pose proof (short_strings_ind rejected_slice_fails
                ltac:(vm_compute; reflexivity) ltac:(vm_compute; reflexivity)
                ltac:(vm_compute; reflexivity)
                (substring n 2 t) (substring_length_le n 2 t)) as H.
  unfold rejected_slice_fails in H. rewrite Hr in H.
  destruct (Py.int16 (substring n 2 t)); [discriminate H|reflexivity].
Qed.

Lemma hex_to_rgb_slice_fails (s : string) :
  parse_channel (Py.slice 0 2 (Py.lstrip "#" s)) = Raise ValueError
  \/ parse_channel (Py.slice 2 2 (Py.lstrip "#" s)) = Raise ValueError
  \/ parse_channel (Py.slice 4 2 (Py.lstrip "#" s)) = Raise ValueError ->
  hex_to_rgb s = Raise ValueError.
Proof.
  unfold hex_to_rgb. set (t := Py.lstrip "#" s). intros H.
  destruct (parse_channel (Py.slice 0 2 t)) as [r|e] eqn:E0; cbn [bind];
    [|now apply parse_channel_error in E0 as ->].
  destruct (parse_channel (Py.slice 2 2 t)) as [g|e] eqn:E2; cbn [bind];
    [|now apply parse_channel_error in E2 as ->].
  destruct (parse_channel (Py.slice 4 2 t)) as [b|e] eqn:E4; cbn [bind];
    [|now apply parse_channel_error in E4 as ->].
  destruct H as [H|[H|H]]; discriminate H.
Qed.

(** C4, as the code has it.  [hex_to_rgb] checks neither the length nor the
    characters of its input; it fails, with the [ValueError] of [int], when
    the input without its leading [#]s has fewer than five characters, or
    has among its first six characters an ASCII character that is neither a
    hexadecimal digit, nor a sign, nor a blank. *)
Theorem hex_to_rgb_rejects (s : string) :
  (String.length (Py.lstrip "#" s) < 5)%nat
  \/ (exists i c, (i < 6)%nat
                  /\ String.get i (Py.lstrip "#" s) = Some c
                  /\ rejected_char c = true) ->
  hex_to_rgb s = Raise ValueError.
Proof.
  intros [Hlen | (i & c & Hi & Hg & Hc)]; apply hex_to_rgb_slice_fails.
  - right. right. unfold parse_channel, Py.slice.
    assert (Hle : (String.length (Py.lstrip "#" s) <= 4)%nat) by lia.
    now rewrite (substring_beyond 4 2 _ Hle).
  - destruct i as [|[|[|[|[|[|i]]]]]]; [| | | | | |exfalso; lia].
    + left. apply (rejected_slice _ 0 0 c); [lia|exact Hg|exact Hc].
    + left. apply (rejected_slice _ 0 1 c); [lia|exact Hg|exact Hc].
    + right. left. apply (rejected_slice _ 2 0 c); [lia|exact Hg|exact Hc].
    + right. left. apply (rejected_slice _ 2 1 c); [lia|exact Hg|exact Hc].
    + right. right. apply (rejected_slice _ 4 0 c); [lia|exact Hg|exact Hc].
    + right. right. apply (rejected_slice _ 4 1 c); [lia|exact Hg|exact Hc].
Qed.

Lemma hex_to_rgb_rejects_witness : hex_to_rgb "#12G456" = Raise ValueError.
Proof.
  apply (hex_to_rgb_rejects "#12G456"). right. exists 2%nat, "G"%char.
  split; [lia|]. split; reflexivity.
Defined.

(** * Runs on a disk that is not empty *)

Lemma run_items_colors_spec (fs0 : gmap (list string) Py.node) (w : world) :
  run_items colors (World colors fs0 []) = Ok w
  <-> (forall entry, entry ∈ colors -> entry_can_run entry.1 fs0)
      /\ w = world_after fs0.
Proof.
  exact (run_items_spec colors (World colors fs0 []) w In_colors_good
           colors_names_NoDup).
Qed.

Lemma notes_key_length : length notes_key = S (S (length root)).
Proof. unfold notes_key. rewrite length_app, folder_key_length. cbn. lia. Qed.

Lemma lookup_fs_noted (p : list string) :
  fs_noted !! p
  = if bool_decide (p = notes_key) then Some (Py.File "note")
    else if covered [] (folder_key "Info") p then Some Py.Dir else None.
Proof.
  unfold fs_noted. case_bool_decide as Hp.
  - subst p. apply lookup_insert_eq.
  - rewrite lookup_insert_ne by done. rewrite lookup_add_dirs.
    now rewrite lookup_empty.
Qed.

Lemma entry_can_run_noted (name : string) : entry_can_run name fs_noted.
Proof.
  split.
  - intros p x Hp. rewrite lookup_fs_noted. case_bool_decide as Hk.
    + subst p. apply covered_length in Hp.
      rewrite notes_key_length, folder_key_length in Hp. cbn in Hp. lia.
    + destruct (covered [] (folder_key "Info") p); discriminate.
  - rewrite lookup_fs_noted. case_bool_decide as Hk; [discriminate|].
    rewrite file_key_not_covered. discriminate.
Qed.

(** The run from the disk with [Notes.txt] succeeds. *)
Lemma run_items_noted :
  run_items colors (World colors fs_noted []) = Ok (world_after fs_noted).
Proof.
  apply run_items_colors_spec. split; [|reflexivity].
  intros entry _. apply entry_can_run_noted.
Qed.

Lemma In_colors_Info : ("Info", opaque_def "#7A93E0" "#7A93E0") ∈ colors.
Proof. apply list_elem_of_In. do 9 right. left. reflexivity. Qed.

Lemma notes_path_key :
  Py.components (Py.path_join (folder_path "Info") "Notes.txt") = notes_key.
Proof. vm_compute. reflexivity. Qed.

Lemma notes_kept : final_disk colors fs_noted !! notes_key = Some (Py.File "note").
Proof.
  destruct (lookup_final_disk colors fs_noted notes_key)
    as [(e & He & Hpe & _) | [(_ & (e & He & Hce) & _) | (_ & Hl)]].
  - unfold notes_key, file_key in Hpe. apply app_inj_tail in Hpe as [_ Hpe].
    discriminate Hpe.
  - apply covered_length in Hce.
    rewrite notes_key_length, folder_key_length in Hce. cbn in Hce. lia.
  - rewrite Hl, lookup_fs_noted. now rewrite bool_decide_eq_true_2.
Qed.

(** C7 fails as stated: a run that succeeds on a disk where
    [Info.colorset] already holds [Notes.txt] leaves two files in that
    directory, [Contents.json] and [Notes.txt]. *)
Lemma folder_with_two_files :
  exists w,
    main fs_noted = Ok w
    /\ Py.isdir (folder_path "Info") (disk w) = true
    /\ (exists b, Py.read_file (contents_path "Info") (disk w) = Some b)
    /\ Py.read_file (Py.path_join (folder_path "Info") "Notes.txt") (disk w)
       = Some "note".
Proof.
  exists (world_after fs_noted). split; [exact run_items_noted|].
  pose proof In_colors_Info as Hin.
  pose proof (In_colors_good _ Hin) as Hg.
  unfold world_after. cbn [disk]. split; [|split].
  - rewrite (isdir_entry _ _ _ Hg).
    now rewrite (final_disk_folder _ _ _ _ Hin).
  - eexists. rewrite (read_file_entry _ _ _ Hg).
    now rewrite (final_disk_file _ _ _ _ colors_names_NoDup Hin).
  - unfold Py.read_file, Py.lookup_node. rewrite notes_path_key.
    pose proof notes_key_length as Hl.
    destruct notes_key as [|c k] eqn:E; [discriminate Hl|].
    rewrite <- E. now rewrite notes_kept.
Qed.

(** ** A disk on which the run fails *)

Lemma covered_app (above todo more p : list string) :
  covered above todo p = true -> covered above (todo ++ more) p = true.
Proof.
  intros (q & Hq & Hpre & ->)%covered_prefix. apply covered_prefix.
  exists q. split; [exact Hq|]. split; [|reflexivity]. now apply prefix_app_r.
Qed.

(** A regular file in the place of the last directory, below directories
    that exist. *)
Lemma makedirs_from_file_exists (above todo : list string) (c : string)
    (fs : gmap (list string) Py.node) (x : string) :
  (forall p, covered above todo p = true -> fs !! p = Some Py.Dir) ->
  fs !! (above ++ todo ++ [c]) = Some (Py.File x) ->
  Py.makedirs_from above (todo ++ [c]) fs = Raise FileExistsError.
Proof.
  revert above. induction todo as [|d rest IH]; intros above Hdirs Hfile.
  - cbn [app Py.makedirs_from]. cbn [app] in Hfile. now rewrite Hfile.
  - cbn [app Py.makedirs_from].
    rewrite (Hdirs (above ++ [d])).
    + apply IH.
      * intros p Hp. apply Hdirs. cbn [covered]. now rewrite Hp, orb_true_r.
      * now rewrite <- app_assoc.
    + cbn [covered]. now rewrite bool_decide_eq_true_2.
Qed.

(** [create_color_set] when the folder is a regular file ... *)
Lemma create_color_set_file_exists
    (name : string) (color_def : gmap string Py.pyval) (w : world) (x : string) :
  good_entry (name, color_def) = true ->
  (forall p, covered [] root p = true -> disk w !! p = Some Py.Dir) ->
  disk w !! folder_key name = Some (Py.File x) ->
  create_color_set name color_def w = Raise FileExistsError.
Proof.
  intros (Hf & _)%good_entry_inv Hdirs Hfile.
  unfold create_color_set, Py.makedirs. rewrite Hf. unfold folder_key.
  rewrite (makedirs_from_file_exists [] root _ (disk w) x Hdirs Hfile).
  reflexivity.
Qed.

(** ... and when [Contents.json] is a directory. *)
Lemma create_color_set_is_a_directory
    (name : string) (color_def : gmap string Py.pyval) (w : world) :
  good_entry (name, color_def) = true ->
  no_file_on [] (folder_key name) (disk w) ->
  disk w !! file_key name = Some Py.Dir ->
  create_color_set name color_def w = Raise IsADirectoryError.
Proof.
  intros (Hf & Hc & c & Hcont & _)%good_entry_inv Hno Hdir.
  unfold create_color_set, Py.makedirs, Py.write_file. rewrite Hf, Hc, Hcont.
  assert (Hm : Py.makedirs_from [] (folder_key name) (disk w)
               = Ok (add_dirs [] (folder_key name) (disk w)))
    by now apply makedirs_from_spec.
  rewrite Hm. cbn [bind]. rewrite write_after_makedirs, Hdir. reflexivity.
Qed.

Lemma folder_key_covered_inv (name name' : string) :
  covered [] (folder_key name) (folder_key name') = true -> name' = name.
Proof.
  intros (q & _ & Hpre & Hq)%covered_prefix. cbn [app] in Hq. subst q.
  apply folder_key_inj, prefix_length_eq; [exact Hpre|].
  now rewrite !folder_key_length.
Qed.

Lemma lookup_fs_blocked (p : list string) :
  fs_blocked !! p
  = if bool_decide (p = file_key "CardShadow") then Some Py.Dir
    else if bool_decide (p = folder_key "BrandPrimary") then Some (Py.File "")
    else if covered [] (folder_key "CardShadow") p then Some Py.Dir else None.
Proof.
  unfold fs_blocked. case_bool_decide as Hp.
  - subst p. apply lookup_insert_eq.
  - rewrite lookup_insert_ne by done. case_bool_decide as Hq.
    + subst p. apply lookup_insert_eq.
    + rewrite lookup_insert_ne by done. rewrite lookup_add_dirs.
      now rewrite lookup_empty.
Qed.

Lemma fs_blocked_root (p : list string) :
  covered [] root p = true -> fs_blocked !! p = Some Py.Dir.
Proof.
  intros Hp. rewrite lookup_fs_blocked.
  pose proof (covered_length _ _ _ Hp) as Hl. cbn in Hl.
  case_bool_decide as H1.
  { subst p. rewrite file_key_length in Hl. lia. }
  case_bool_decide as H2.
  { subst p. rewrite folder_key_length in Hl. lia. }
  unfold folder_key. now rewrite (covered_app _ _ _ _ Hp).
Qed.

Lemma In_colors_BrandPrimary :
  ("BrandPrimary", opaque_def "#7A4A2A" "#7A4A2A") ∈ colors.
Proof. apply list_elem_of_In. left. reflexivity. Qed.

Lemma reverse_colors_head :
  exists d rest,
    reverse colors = ("CardShadow", d) :: rest /\ ("CardShadow", d) ∈ colors.
Proof.
  do 2 eexists. split; [reflexivity|].
  apply list_elem_of_In. do 14 right. left. reflexivity.
Qed.

Lemma create_BrandPrimary_blocked (w : world) :
  disk w = fs_blocked ->
  create_color_set "BrandPrimary" (opaque_def "#7A4A2A" "#7A4A2A") w
  = Raise FileExistsError.
Proof.
  intros Hd.
  apply (create_color_set_file_exists _ _ _ "");
    [exact (In_colors_good _ In_colors_BrandPrimary)| |]; rewrite Hd.
  - exact fs_blocked_root.
  - rewrite lookup_fs_blocked.
    rewrite bool_decide_eq_false_2.
    + now rewrite bool_decide_eq_true_2.
    + intros H%(f_equal length).
      rewrite folder_key_length, file_key_length in H. lia.
Qed.

Lemma create_CardShadow_blocked (d : gmap string Py.pyval) (w : world) :
  ("CardShadow", d) ∈ colors ->
  disk w = fs_blocked ->
  create_color_set "CardShadow" d w = Raise IsADirectoryError.
Proof.
  intros Hin Hd.
  apply create_color_set_is_a_directory;
    [exact (In_colors_good _ Hin)| |]; rewrite Hd.
  - intros p x Hp. rewrite lookup_fs_blocked.
    case_bool_decide as H1; [discriminate|].
    case_bool_decide as H2.
    + subst p. apply folder_key_covered_inv in Hp. discriminate Hp.
    + destruct (covered [] (folder_key "CardShadow") p); discriminate.
  - rewrite lookup_fs_blocked. now rewrite bool_decide_eq_true_2.
Qed.

(** C8 fails as stated: on a disk where [BrandPrimary.colorset] is a
    regular file and [CardShadow.colorset/Contents.json] is a directory,
    the run in the order of the table stops at its first entry with
    [FileExistsError], and the run in the reverse order stops at its first
    entry with [IsADirectoryError]. *)
Lemma order_changes_failure :
  reverse colors ≡ₚ colors
  /\ run_items colors (World colors fs_blocked []) = Raise FileExistsError
  /\ run_items (reverse colors) (World colors fs_blocked [])
     = Raise IsADirectoryError.
Proof.
  split; [apply reverse_Permutation|]. split.
  - unfold colors at 1. cbn [run_items].
    now rewrite create_BrandPrimary_blocked.
  - destruct reverse_colors_head as (d & rest & -> & Hin). cbn [run_items].
    now rewrite (create_CardShadow_blocked d _ Hin).
Qed.

(** ** Nodes the run finds on the disk *)

Lemma lookup_notes_key : fs_noted !! notes_key = Some (Py.File "note").
Proof. unfold fs_noted. apply lookup_insert_eq. Qed.

Lemma run_keeps_other_nodes_witness :
  (exists entry,
     entry ∈ colors /\ notes_key = Py.components (contents_path entry.1))
  \/ disk (world_after fs_noted) !! notes_key = Some (Py.File "note").
Proof.
  pose proof (run_keeps_other_nodes colors (World colors fs_noted [])
                (world_after fs_noted) notes_key colors_proper run_items_noted)
    as H.
  cbn [disk] in H. rewrite lookup_notes_key in H. exact H.
Defined.

Lemma lookup_fs_info_blocked (p : list string) :
  fs_info_blocked !! p
  = if bool_decide (p = file_key "Info") then Some Py.Dir
    else if covered [] (folder_key "Info") p then Some Py.Dir else None.
Proof.
  unfold fs_info_blocked. case_bool_decide as Hp.
  - subst p. apply lookup_insert_eq.
  - rewrite lookup_insert_ne by done. rewrite lookup_add_dirs.
    now rewrite lookup_empty.
Qed.

Lemma create_Info_blocked :
  create_color_set "Info" (opaque_def "#7A93E0" "#7A93E0")
    (World colors fs_info_blocked [])
  = Raise IsADirectoryError.
Proof.
  apply create_color_set_is_a_directory;
    [exact (In_colors_good _ In_colors_Info)| |]; cbn [disk].
  - intros p x Hp. rewrite lookup_fs_info_blocked.
    case_bool_decide as H1; [discriminate|].
    destruct (covered [] (folder_key "Info") p); discriminate.
  - rewrite lookup_fs_info_blocked. now rewrite bool_decide_eq_true_2.
Qed.

Lemma create_color_set_errors_witness :
  (IsADirectoryError = NotADirectoryError
   /\ exists p x, p <> [] /\ p `prefix_of` Py.components (folder_path "Info")
                  /\ p <> Py.components (folder_path "Info")
                  /\ disk (World colors fs_info_blocked []) !! p
                     = Some (Py.File x))
  \/ (IsADirectoryError = FileExistsError
      /\ exists x, disk (World colors fs_info_blocked [])
                     !! Py.components (folder_path "Info") = Some (Py.File x))
  \/ (IsADirectoryError = IsADirectoryError
      /\ disk (World colors fs_info_blocked [])
           !! Py.components (contents_path "Info") = Some Py.Dir).
Proof.
  assert (Hs : plain_name "Info" = true) by reflexivity.
  assert (Hv : valid_definition (opaque_def "#7A93E0" "#7A93E0") = true)
    by (vm_compute; reflexivity).
  exact (create_color_set_errors "Info" (opaque_def "#7A93E0" "#7A93E0")
           (World colors fs_info_blocked []) IsADirectoryError Hs Hv
           create_Info_blocked).
Defined.
